(** * Pageel CMS: settings schema, stores, sync lock and dashboard bootstrap

    A shallow embedding of the configuration code of the Pageel CMS client:
    - [features/settings/types.ts]  (SETTINGS_SCHEMA, DEFAULT_SETTINGS),
    - [features/settings/store.ts]  (the settings store),
    - the application store with the sync flag and the scan progress,
    - the sync-lock wrapper [withSyncLock],
    - the dashboard's bootstrap [loadSettingsAndScan] and the format test of
      its import handler,
    - the URL helpers [getRawGithubUrl] and [resolveImageSource], the auth
      store and the view named by the URL,
    - the dashboard's handlers that save, export, import, finish the setup
      and delete the configuration, with the documents they write.

    JavaScript values are an inductive type, numbers are IEEE binary64 values
    (Rocq's primitive floats), objects used as records of settings are finite
    maps from property names to values, and the stores are records threaded
    through the actions. *)

From Stdlib Require Import Floats Uint63 ZArith.
From stdpp Require Import base option gmap strings list fin_maps pretty.

Open Scope string_scope.

(** ** JavaScript values *)

Module Js.

(** A character of a string stands for one code unit, so [String.length]
    is the [length] property. *)
#[local] Unset Elimination Schemes.
Inductive Value : Type :=
| Undefined
| Null
| Bool (b : bool)
| Num (n : float)
| Str (s : string)
| Arr (items : list Value)
| Obj (props : list (string * Value)).

#[local] Set Elimination Schemes.

(** What a [throw] carries: an [Error] with its message, or anything else. *)
Inductive Thrown : Type :=
| ErrorObj (message : string)
| ThrownValue (v : Value).

(** The completion of a call that may throw (or of a settled promise). *)
Inductive Result (A : Type) : Type :=
| Ok (a : A)
| Throws (e : Thrown).
Arguments Ok {A} a.
Arguments Throws {A} e.

(** ToBoolean. *)
Definition truthy (v : Value) : bool :=
  match v with
  | Undefined | Null => false
  | Bool b => b
  | Num n => negb (PrimFloat.eqb n 0 || PrimFloat.is_nan n)
  | Str s => negb (bool_decide (s = ""))
  | Arr _ | Obj _ => true
  end.

Definition is_undefined (v : Value) : bool :=
  match v with Undefined => true | _ => false end.

Definition is_nullish (v : Value) : bool :=
  match v with Undefined | Null => true | _ => false end.

Fixpoint assoc (k : string) (props : list (string * Value)) : option Value :=
  match props with
  | [] => None
  | (k', v) :: rest => if bool_decide (k = k') then Some v else assoc k rest
  end.

(** [v.k] for a [v] that is neither null nor undefined and a [k] that names
    a configuration field: an own property of an object, and [undefined] on
    primitives and arrays, which have no such member. *)
Definition get (v : Value) (k : string) : Value :=
  match v with
  | Obj props => default Undefined (assoc k props)
  | _ => Undefined
  end.

(** [v?.k]. *)
Definition get_opt (v : Value) (k : string) : Value :=
  if is_nullish v then Undefined else get v k.

(** [v.k] where [v] may be null or undefined: a TypeError then. *)
Definition member (v : Value) (k : string) : Result Value :=
  if is_nullish v then Throws (ErrorObj "TypeError") else Ok (get v k).

(** [typeof v === 'string' && allowed.includes(v)]. *)
Definition string_in (allowed : list string) (v : Value) : bool :=
  match v with
  | Str s => bool_decide (s ∈ allowed)
  | _ => false
  end.

Definition is_string (v : Value) : bool :=
  match v with Str _ => true | _ => false end.

(** [typeof v === 'string' && v.length < bound]. *)
Definition string_shorter (bound : nat) (v : Value) : bool :=
  match v with
  | Str s => bool_decide (String.length s < bound)
  | _ => false
  end.

Definition is_boolean (v : Value) : bool :=
  match v with Bool _ => true | _ => false end.

(** [typeof v === 'number' && v >= lo && v <= hi]. *)
Definition number_between (lo hi : float) (v : Value) : bool :=
  match v with
  | Num n => PrimFloat.leb lo n && PrimFloat.leb n hi
  | _ => false
  end.

(** The built-in conversions the code calls. They belong to the host, not to
    the repository, and are taken as given. *)
Class Host : Type := {
  Number : string -> float;
  String_ : Value -> string;
  JSON_parse : string -> option Value;
  JSON_stringify : Value -> string
}.

End Js.

Import Js.

(** An object holding settings: property name to value. *)
Abbreviation Settings := (gmap string Value).

(** [o.k] on a settings object. *)
Definition prop (o : Settings) (k : string) : Value :=
  default Undefined (o !! k).

(** [{ ...a, ...b }]. *)
Definition spread (a b : Settings) : Settings := b ∪ a.

Definition dquote : string :=
  String (Ascii.Ascii false true false false false true false false) EmptyString.

(** ** features/settings/types.ts *)

Definition SETTINGS_SCHEMA : gmap string (Value -> bool) :=
  list_to_map [
    ("projectType", string_in ["astro"; "github"]);
    ("postsPath", is_string);
    ("imagesPath", is_string);
    ("domainUrl", is_string);
    ("postTemplate", is_string);
    ("postFileTypes", string_shorter 100);
    ("imageFileTypes", string_shorter 100);
    ("publishDateSource", string_in ["file"; "system"]);
    ("imageCompressionEnabled", is_boolean);
    ("maxImageSize", number_between 10 1024);
    ("imageResizeMaxWidth", number_between 0 10000);
    ("newPostCommit", string_shorter 200);
    ("updatePostCommit", string_shorter 200);
    ("newImageCommit", string_shorter 200);
    ("updateImageCommit", string_shorter 200);
    ("pageel-cms-lang", string_in ["en"; "vi"])
  ].

(** [Object.keys(DEFAULT_SETTINGS)], in the order of the literal. *)
Definition DEFAULT_SETTINGS_entries : list (string * Value) := [
    ("projectType", Str "astro");
    ("postsPath", Str "");
    ("imagesPath", Str "public/images");
    ("domainUrl", Str "");
    ("postFileTypes", Str ".md,.mdx");
    ("imageFileTypes", Str "image/*");
    ("publishDateSource", Str "file");
    ("imageCompressionEnabled", Bool false);
    ("maxImageSize", Num 500);
    ("imageResizeMaxWidth", Num 1024);
    ("newPostCommit", Str ("feat(content): add post " +:+ dquote +:+ "{filename}" +:+ dquote));
    ("updatePostCommit", Str ("fix(content): update post " +:+ dquote +:+ "{filename}" +:+ dquote));
    ("newImageCommit", Str ("feat(assets): add image " +:+ dquote +:+ "{filename}" +:+ dquote));
    ("updateImageCommit", Str ("refactor(assets): update image for " +:+ dquote +:+ "{filename}" +:+ dquote))
  ].

Definition DEFAULT_SETTINGS : Settings := list_to_map DEFAULT_SETTINGS_entries.

Definition DEFAULT_SETTINGS_keys : list string := DEFAULT_SETTINGS_entries.*1.

(** [!validator || validator(value)] for [validator = SETTINGS_SCHEMA[key]],
    where [key] is one of the schema's own keys or the lookup is on own
    properties only. *)
Definition passes_or_unknown (key : string) (value : Value) : bool :=
  match SETTINGS_SCHEMA !! key with
  | Some validator => validator value
  | None => true
  end.

(** [SETTINGS_SCHEMA[key] && SETTINGS_SCHEMA[key](value)]. *)
Definition known_and_passes (key : string) (value : Value) : bool :=
  match SETTINGS_SCHEMA !! key with
  | Some validator => validator value
  | None => false
  end.

(** [typeof v === 'object' && v !== null]: arrays and objects. *)
Definition is_object (v : Value) : bool :=
  match v with
  | Arr _ | Obj _ => true
  | _ => false
  end.

(** The [TypeError] of a built-in called without a receiver, or of a call
    to what is not a function; the message is the engine's. *)
Definition typeError : Thrown := ErrorObj "TypeError".

(** [SETTINGS_SCHEMA] is an object literal, so [SETTINGS_SCHEMA[key]] also
    finds the members it inherits from [Object.prototype]. This is what
    [validator(value)] gives for such a member, called as a plain function
    (its receiver is [undefined]), or [None] when [key] names none:
    [Object(value)] and [toString()] give an object and a string, which are
    truthy; [isPrototypeOf(value)] is false for a primitive and otherwise
    converts its receiver, which throws; the other functions convert their
    receiver first, and [__proto__] is an object, not a function. *)
Definition inherited (key : string) (value : Value) : option (Result bool) :=
  if bool_decide (key ∈ ["constructor"; "toString"]) then Some (Ok true)
  else if bool_decide (key = "isPrototypeOf")
  then Some (if is_object value then Throws typeError else Ok false)
  else if bool_decide
            (key ∈ ["hasOwnProperty"; "propertyIsEnumerable"; "valueOf"; "toLocaleString";
                    "__proto__"; "__defineGetter__"; "__defineSetter__";
                    "__lookupGetter__"; "__lookupSetter__"])
  then Some (Throws typeError)
  else None.

(** [!validator || validator(value)] for [validator = SETTINGS_SCHEMA[key]]
    and any [key]: an own validator, else an inherited member, else nothing. *)
Definition checks (key : string) (value : Value) : Result bool :=
  match SETTINGS_SCHEMA !! key with
  | Some validator => Ok (validator value)
  | None => default (Ok true) (inherited key value)
  end.

(** [entries.every(([key, value]) => check(key, value))]: the first false
    ends the walk, and what the callback throws is thrown by [every]. *)
Fixpoint every (check : string -> Value -> Result bool) (entries : list (string * Value))
    : Result bool :=
  match entries with
  | [] => Ok true
  | (key, value) :: rest =>
      match check key value with
      | Ok true => every check rest
      | Ok false => Ok false
      | Throws e => Throws e
      end
  end.

(** The decoding of a cached string, as both loaders write it. *)
Definition decode `{Host} (stored : string) : Value :=
  if bool_decide (stored = "true") then Bool true
  else if bool_decide (stored = "false") then Bool false
  else if negb (PrimFloat.is_nan (Number stored)) && negb (bool_decide (stored = ""))
       then Num (Number stored)
  else Str stored.

(** ** features/settings/store.ts *)

Module SettingsStore.

Record SettingsState : Type := {
  settings : Settings;
  isLoading : bool;
  isSaving : bool;
  saveSuccess : bool;
  isSetupComplete : bool
}.

Definition initial : SettingsState :=
  {| settings := DEFAULT_SETTINGS; isLoading := false; isSaving := false;
     saveSuccess := false; isSetupComplete := false |}.

(** [set({ settings: s })]: the other fields of the store are kept. *)
Definition set_settings (s : Settings) (state : SettingsState) : SettingsState :=
  {| settings := s; isLoading := isLoading state; isSaving := isSaving state;
     saveSuccess := saveSuccess state; isSetupComplete := isSetupComplete state |}.

(** The argument of [setSettings]: a partial object or an updater function. *)
Inductive SettingsArg : Type :=
| Patch (newSettings : Settings)
| Updater (newSettings : Settings -> Settings).

Definition setSettings (newSettings : SettingsArg) (state : SettingsState) : SettingsState :=
  match newSettings with
  | Updater f => set_settings (f (settings state)) state
  | Patch p => set_settings (spread (settings state) p) state
  end.

Definition setSetupComplete (complete : bool) (state : SettingsState) : SettingsState :=
  {| settings := settings state; isLoading := isLoading state; isSaving := isSaving state;
     saveSuccess := saveSuccess state; isSetupComplete := complete |}.

Definition resetSettings (state : SettingsState) : SettingsState :=
  setSetupComplete false (set_settings DEFAULT_SETTINGS state).

Definition setIsLoading (loading : bool) (state : SettingsState) : SettingsState :=
  {| settings := settings state; isLoading := loading; isSaving := isSaving state;
     saveSuccess := saveSuccess state; isSetupComplete := isSetupComplete state |}.

Definition setIsSaving (saving : bool) (state : SettingsState) : SettingsState :=
  {| settings := settings state; isLoading := isLoading state; isSaving := saving;
     saveSuccess := saveSuccess state; isSetupComplete := isSetupComplete state |}.

Definition setSaveSuccess (success : bool) (state : SettingsState) : SettingsState :=
  {| settings := settings state; isLoading := isLoading state; isSaving := isSaving state;
     saveSuccess := success; isSetupComplete := isSetupComplete state |}.

Definition getStorageKey (key repoId : string) (isRepoSpecific : bool) : string :=
  if isRepoSpecific then key +:+ "_" +:+ repoId else key.

Definition REPO_SPECIFIC_KEYS : list string :=
  ["projectType"; "postsPath"; "imagesPath"; "domainUrl"].

(** The key under which [loadSettings] looks a field up. *)
Definition storageKeyOf (key repoId : string) : string :=
  getStorageKey key repoId (bool_decide (key ∈ REPO_SPECIFIC_KEYS)).

(** One turn of the [forEach] of [loadSettings]. *)
Definition loadOne `{Host} (localStorage : gmap string string) (repoId : string)
    (loadedSettings : Settings) (key : string) : Settings :=
  match localStorage !! storageKeyOf key repoId with
  | Some stored =>
      let value := decode stored in
      if passes_or_unknown key value then <[key := value]> loadedSettings
      else loadedSettings
  | None => loadedSettings
  end.

Definition loadedFromCache `{Host} (localStorage : gmap string string) (repoId : string) : Settings :=
  foldl (loadOne localStorage repoId) ∅ DEFAULT_SETTINGS_keys.

Definition loadSettings `{Host} (localStorage : gmap string string) (repoId : string)
    (state : SettingsState) : SettingsState :=
  let loadedSettings := loadedFromCache localStorage repoId in
  let state := set_settings (spread (settings state) loadedSettings) state in
  if truthy (prop (settings state) "projectType")
     && truthy (prop (settings state) "postsPath")
     && truthy (prop (settings state) "imagesPath")
  then setSetupComplete true state
  else state.

(** [Object.entries(settings).every(...)]. The entries are walked in the
    order of [map_to_list]; whether the answer is [true] does not depend on
    the order. *)
Definition validateSettings (settings : Settings) : Result bool :=
  every checks (map_to_list settings).

End SettingsStore.

(** ** The application store (sync flag, scan progress) *)

Module AppStore.

Record AppState : Type := {
  activeView : string;
  isSidebarOpen : bool;
  isScanning : bool;
  isSyncing : bool;
  syncMessage : option string;
  scanPhase : option string;
  scanProgress : float;
  repoStats : option nat * option nat
}.

Definition initial (initialView : string) : AppState :=
  {| activeView := initialView; isSidebarOpen := false; isScanning := true;
     isSyncing := false; syncMessage := None; scanPhase := None; scanProgress := 0;
     repoStats := (None, None) |}.

Definition setScanning (scanning : bool) (state : AppState) : AppState :=
  {| activeView := activeView state; isSidebarOpen := isSidebarOpen state;
     isScanning := scanning;
     isSyncing := isSyncing state; syncMessage := syncMessage state;
     scanPhase := scanPhase state; scanProgress := scanProgress state;
     repoStats := repoStats state |}.

(** [set({ isSyncing: b, syncMessage: m })]. *)
Definition set_sync (b : bool) (m : option string) (state : AppState) : AppState :=
  {| activeView := activeView state; isSidebarOpen := isSidebarOpen state;
     isScanning := isScanning state;
     isSyncing := b; syncMessage := m;
     scanPhase := scanPhase state; scanProgress := scanProgress state;
     repoStats := repoStats state |}.

(** [message || 'Syncing...'] for an optional string. *)
Definition messageOrDefault (message : option string) : string :=
  match message with
  | Some m => if bool_decide (m = "") then "Syncing..." else m
  | None => "Syncing..."
  end.

Definition startSync (message : option string) (state : AppState) : AppState :=
  set_sync true (Some (messageOrDefault message)) state.

Definition endSync (state : AppState) : AppState :=
  set_sync false None state.

(** [phase ? 50 : 0] for [phase : string | null]. *)
Definition phaseTruthy (phase : option string) : bool :=
  match phase with
  | Some p => negb (bool_decide (p = ""))
  | None => false
  end.

(** [progress] is [None] when the argument is left out (or [undefined]). *)
Definition setScanPhase (phase : option string) (progress : option float)
    (state : AppState) : AppState :=
  {| activeView := activeView state; isSidebarOpen := isSidebarOpen state;
     isScanning := isScanning state;
     isSyncing := isSyncing state; syncMessage := syncMessage state;
     scanPhase := phase;
     scanProgress :=
       match progress with
       | Some p => p
       | None => if phaseTruthy phase then 50%float else 0%float
       end;
     repoStats := repoStats state |}.

End AppStore.

(** ** The sync-lock wrapper *)

Module SyncLock.
Import AppStore.

(** How an awaited operation ends: it resolves, it rejects, or it never
    settles (a hung request). *)
Inductive Completion (T : Type) : Type :=
| Resolved (result : T)
| Rejected (e : Thrown)
| Pending.
Arguments Resolved {T} result.
Arguments Rejected {T} e.
Arguments Pending {T}.

Definition settled {T} (c : Completion T) : bool :=
  match c with Pending => false | _ => true end.

Definition busyError : Thrown :=
  ErrorObj "Another sync operation is in progress. Please wait.".

(** The operation runs on the application store and on whatever else it can
    reach ([R]: the remote repository, the other stores); what it leaves
    behind is the state at the moment its promise settles. *)
Definition Operation (R T : Type) : Type :=
  AppState * R -> Completion T * (AppState * R).

Definition withSyncLock {R T} (operation : Operation R T) (message : option string)
    (w : AppState * R) : Completion T * (AppState * R) :=
  if isSyncing w.1 then (Rejected busyError, w)
  else
    let '(c, w') := operation (startSync message w.1, w.2) in
    match c with
    | Pending => (Pending, w')
    | _ => (c, (endSync w'.1, w'.2))
    end.

End SyncLock.

(** ** The dashboard: bootstrap and import *)

Module Dashboard.
Import SettingsStore AppStore.

(** What [loadCollectionsFromPageelrc] resolves to when it is not null: the
    [collections] array and the optional [settings] object of the workspace
    file. The loader itself lives in the collections feature; the bootstrap
    only awaits it, so its answer is an input here. *)
Record CollectionsData : Type := {
  collections : list Value;
  sharedSettings : option Settings
}.

(** Calls that leave the dashboard: the collection store, the loader and the
    Git service. The bootstrap records them in order. *)
Inductive Call : Type :=
| InitWorkspace (repoId : string)
| LoadCollectionsFromPageelrc (repoId : string)
| SetCollections (cs : list Value)
| UpdateWorkspaceSettings (s : Settings)
| GetFileContent (path : string)
| FindProductionUrl
| ScanForContentDirectories
| ScanForImageDirectories.

(** The answers of the injected collaborators during one bootstrap. *)
Record Services : Type := {
  loadCollectionsFromPageelrc : string -> option CollectionsData;
  workspacePresent : bool;
  getFileContent : string -> Result string;
  findProductionUrl : Result (option string);
  scanForContentDirectories : Result (list string);
  scanForImageDirectories : Result (list string)
}.

(** Everything the bootstrap writes. *)
Record World : Type := {
  appStore : AppState;
  settingsStore : SettingsState;
  localStorage : gmap string string;
  suggestedPostPaths : list string;
  suggestedImagePaths : list string;
  calls : list Call
}.

Definition onApp (f : AppState -> AppState) (w : World) : World :=
  {| appStore := f (appStore w); settingsStore := settingsStore w;
     localStorage := localStorage w; suggestedPostPaths := suggestedPostPaths w;
     suggestedImagePaths := suggestedImagePaths w; calls := calls w |}.

Definition onSettings (f : SettingsState -> SettingsState) (w : World) : World :=
  {| appStore := appStore w; settingsStore := f (settingsStore w);
     localStorage := localStorage w; suggestedPostPaths := suggestedPostPaths w;
     suggestedImagePaths := suggestedImagePaths w; calls := calls w |}.

Definition onStorage (f : gmap string string -> gmap string string) (w : World) : World :=
  {| appStore := appStore w; settingsStore := settingsStore w;
     localStorage := f (localStorage w); suggestedPostPaths := suggestedPostPaths w;
     suggestedImagePaths := suggestedImagePaths w; calls := calls w |}.

Definition setSuggestedPostPaths (dirs : list string) (w : World) : World :=
  {| appStore := appStore w; settingsStore := settingsStore w;
     localStorage := localStorage w; suggestedPostPaths := dirs;
     suggestedImagePaths := suggestedImagePaths w; calls := calls w |}.

Definition setSuggestedImagePaths (dirs : list string) (w : World) : World :=
  {| appStore := appStore w; settingsStore := settingsStore w;
     localStorage := localStorage w; suggestedPostPaths := suggestedPostPaths w;
     suggestedImagePaths := dirs; calls := calls w |}.

Definition call (c : Call) (w : World) : World :=
  {| appStore := appStore w; settingsStore := settingsStore w;
     localStorage := localStorage w; suggestedPostPaths := suggestedPostPaths w;
     suggestedImagePaths := suggestedImagePaths w; calls := calls w ++ [c] |}.

Definition keys : list string := [
  "projectType"; "postsPath"; "imagesPath"; "domainUrl"; "postFileTypes"; "imageFileTypes";
  "publishDateSource"; "imageCompressionEnabled"; "maxImageSize"; "imageResizeMaxWidth";
  "newPostCommit"; "updatePostCommit"; "newImageCommit"; "updateImageCommit"
].

Definition scoped (key prefix : string) : string := key +:+ "_" +:+ prefix.

(** One turn of the [keys.forEach] that reads the cache. *)
Definition cacheOne `{Host} (storage : gmap string string) (prefix : string)
    (loadedSettings : Settings) (key : string) : Settings :=
  match storage !! scoped key prefix with
  | Some value =>
      let parsedValue := decode value in
      if passes_or_unknown key parsedValue then <[key := parsedValue]> loadedSettings
      else loadedSettings
  | None => loadedSettings
  end.

Definition readCache `{Host} (storage : gmap string string) (prefix : string) : Settings :=
  foldl (cacheOne storage prefix) ∅ keys.

(** [if (loadedSettings.imageResizeMaxWidth === undefined) ... = 1024]. *)
Definition withDefaultWidth (loadedSettings : Settings) : Settings :=
  if is_undefined (prop loadedSettings "imageResizeMaxWidth")
  then <["imageResizeMaxWidth" := Num 1024]> loadedSettings
  else loadedSettings.

Definition applyIfValid (key : string) (value : Value) (newSettings : Settings) : Settings :=
  if negb (is_undefined value) && known_and_passes key value
  then <[key := value]> newSettings
  else newSettings.

(** The three blocks of guarded [applyIfValid] calls on the parsed remote
    file, in the order of the source. *)
Definition mergePaths (config : Value) (newSettings : Settings) : Settings :=
  let newSettings :=
    if truthy (get config "projectType")
    then applyIfValid "projectType" (get config "projectType") newSettings
    else newSettings in
  let newSettings :=
    if truthy (get_opt (get config "paths") "posts")
    then applyIfValid "postsPath" (get (get config "paths") "posts") newSettings
    else newSettings in
  let newSettings :=
    if truthy (get_opt (get config "paths") "images")
    then applyIfValid "imagesPath" (get (get config "paths") "images") newSettings
    else newSettings in
  if truthy (get config "domainUrl")
  then applyIfValid "domainUrl" (get config "domainUrl") newSettings
  else newSettings.

Definition mergeTechnical (config : Value) (newSettings : Settings) : Settings :=
  if truthy (get config "settings") then
    let s := get config "settings" in
    let newSettings := applyIfValid "postFileTypes" (get s "postFileTypes") newSettings in
    let newSettings := applyIfValid "imageFileTypes" (get s "imageFileTypes") newSettings in
    let newSettings := applyIfValid "publishDateSource" (get s "publishDateSource") newSettings in
    let newSettings :=
      applyIfValid "imageCompressionEnabled" (get s "imageCompressionEnabled") newSettings in
    let newSettings := applyIfValid "maxImageSize" (get s "maxImageSize") newSettings in
    applyIfValid "imageResizeMaxWidth" (get s "imageResizeMaxWidth") newSettings
  else newSettings.

Definition mergeCommits (config : Value) (newSettings : Settings) : Settings :=
  if truthy (get config "commits") then
    let c := get config "commits" in
    let newSettings := applyIfValid "newPostCommit" (get c "newPost") newSettings in
    let newSettings := applyIfValid "updatePostCommit" (get c "updatePost") newSettings in
    let newSettings := applyIfValid "newImageCommit" (get c "newImage") newSettings in
    applyIfValid "updateImageCommit" (get c "updateImage") newSettings
  else newSettings.

Definition mergeRemoteConfig (config : Value) (newSettings : Settings) : Settings :=
  mergeCommits config (mergeTechnical config (mergePaths config newSettings)).

(** [keys.forEach(key => { if (newSettings[key] !== undefined) setItem(...) })]. *)
Definition refreshCache `{Host} (prefix : string) (newSettings : Settings)
    (storage : gmap string string) : gmap string string :=
  foldl (fun storage key =>
           if negb (is_undefined (prop newSettings key))
           then <[scoped key prefix := String_ (prop newSettings key)]> storage
           else storage)
        storage keys.

(** The template and table layout entries of the remote file. *)
Definition cacheLayout `{Host} (prefix : string) (config : Value)
    (storage : gmap string string) : gmap string string :=
  let storage :=
    if truthy (get_opt (get config "templates") "frontmatter")
    then <[scoped "postTemplate" prefix :=
            JSON_stringify (get (get config "templates") "frontmatter")]> storage
    else storage in
  let storage :=
    if truthy (get_opt (get config "ui") "tableColumns")
    then <[scoped "postTableColumns" prefix :=
            JSON_stringify (get (get config "ui") "tableColumns")]> storage
    else storage in
  if truthy (get_opt (get config "ui") "columnWidths")
  then <[scoped "postTableColumnWidths" prefix :=
          JSON_stringify (get (get config "ui") "columnWidths")]> storage
  else storage.

Definition phase (message : string) (progress : float) : World -> World :=
  onApp (setScanPhase (Some message) (Some progress)).

(** The body of [if (config) { ... return; }]. *)
Definition loadFromConfig `{Host} (prefix : string) (settings loadedSettings : Settings)
    (config : Value) (w : World) : World :=
  let newSettings := mergeRemoteConfig config (spread settings loadedSettings) in
  let w := onSettings (setSettings (Patch newSettings)) w in
  let w := onStorage (refreshCache prefix newSettings) w in
  let w := onStorage (cacheLayout prefix config) w in
  let w := phase "Configuration loaded" 100 w in
  let w := onSettings (setSetupComplete true) w in
  onApp (setScanning false) w.

(** [error instanceof Error ? error.message : 'Unknown error']. *)
Definition errorMessage (error : Thrown) : string :=
  match error with
  | ErrorObj message => message
  | ThrownValue _ => "Unknown error"
  end.

Definition optionTruthy (s : option string) : bool :=
  match s with
  | Some u => negb (bool_decide (u = ""))
  | None => false
  end.

(** The [try] block of the scan: [Throws] as soon as a collaborator rejects. *)
Definition scanSteps (gitService : Services) (settings : Settings) (w : World)
    : Result unit * World :=
  let w := phase "Detecting production URL..." 60 w in
  let '(found, w) :=
    if truthy (prop settings "domainUrl") then (Ok None, w)
    else (findProductionUrl gitService, call FindProductionUrl w) in
  match found with
  | Throws e => (Throws e, w)
  | Ok foundUrl =>
    let w :=
      match foundUrl with
      | Some url =>
          if optionTruthy foundUrl && negb (truthy (prop settings "domainUrl"))
          then onSettings (setSettings (Updater (fun prev => <["domainUrl" := Str url]> prev))) w
          else w
      | None => w
      end in
    let w := phase "Scanning content directories..." 75 w in
    let w := call ScanForContentDirectories w in
    match scanForContentDirectories gitService with
    | Throws e => (Throws e, w)
    | Ok contentDirs =>
      let w := setSuggestedPostPaths contentDirs w in
      let w :=
        match contentDirs with
        | first :: _ =>
            onSettings (setSettings (Updater (fun prev => <["postsPath" := Str first]> prev))) w
        | [] => w
        end in
      let w := phase "Scanning image directories..." 90 w in
      let w := call ScanForImageDirectories w in
      match scanForImageDirectories gitService with
      | Throws e => (Throws e, w)
      | Ok imageDirs =>
        let w := setSuggestedImagePaths imageDirs w in
        let w :=
          match imageDirs with
          | first :: _ =>
              onSettings (setSettings (Updater (fun prev => <["imagesPath" := Str first]> prev))) w
          | [] => w
          end in
        (Ok (), phase "Scan complete" 100 w)
      end
    end
  end.

(** [try { ... } catch (error) { ... } finally { setScanning(false) }]. *)
Definition scanRepository (gitService : Services) (settings : Settings) (w : World) : World :=
  let '(r, w) := scanSteps gitService settings w in
  let w :=
    match r with
    | Ok _ => w
    | Throws error => phase ("Error: " +:+ errorMessage error) 0 w
    end in
  onApp (setScanning false) w.

(** What follows the [try]/[catch] around the remote read: the cache
    fallback, then the scan. *)
Definition afterRemote (gitService : Services) (settings loadedSettings : Settings)
    (w : World) : World :=
  if truthy (prop loadedSettings "projectType")
     && truthy (prop loadedSettings "postsPath")
     && truthy (prop loadedSettings "imagesPath")
  then
    let w := phase "Using cached settings" 100 w in
    let w := onSettings (setSetupComplete true) w in
    onApp (setScanning false) w
  else scanRepository gitService settings w.

(** The remote file as the [try] block sees it: [None] when the fetch or
    [JSON.parse] throws. *)
Definition readRemote `{Host} (gitService : Services) : option Value :=
  match getFileContent gitService ".pageelrc.json" with
  | Ok configContent => JSON_parse configContent
  | Throws _ => None
  end.

(** The start of the bootstrap: the workspace is initialised and the
    collections of the workspace file, when it has some, replace those of the
    collection store. *)
Definition refreshCollections (gitService : Services) (repo_full_name : string)
    (w : World) : World :=
  let w := call (InitWorkspace repo_full_name) w in
  let w := call (LoadCollectionsFromPageelrc repo_full_name) w in
  match loadCollectionsFromPageelrc gitService repo_full_name with
  | Some collectionsData =>
      if bool_decide (0 < length (collections collectionsData)) then
        if workspacePresent gitService then
          let w := call (SetCollections (collections collectionsData)) w in
          match sharedSettings collectionsData with
          | Some s => call (UpdateWorkspaceSettings s) w
          | None => w
          end
        else w
      else w
  | None => w
  end.

(** Phase 1: the cached settings, merged into the store. *)
Definition loadLocalSettings `{Host} (prefix : string) (w : World) : Settings * World :=
  let w := onApp (setScanning true) w in
  let w := phase "Loading saved settings..." 10 w in
  let loadedSettings := withDefaultWidth (readCache (localStorage w) prefix) in
  let w := onSettings (setSettings (Updater (fun prev => spread prev loadedSettings))) w in
  let w := phase "Loading saved settings..." 20 w in
  (loadedSettings, w).

(** [settings] is the value the effect's closure captured at render. *)
Definition loadSettingsAndScan `{Host} (gitService : Services) (repo_full_name : string)
    (settings : Settings) (w : World) : World :=
  let w := refreshCollections gitService repo_full_name w in
  let prefix := repo_full_name in
  let '(loadedSettings, w) := loadLocalSettings prefix w in
  let w := phase "Checking for .pageelrc.json..." 30 w in
  let w := call (GetFileContent ".pageelrc.json") w in
  match readRemote gitService with
  | Some config =>
      if truthy config then loadFromConfig prefix settings loadedSettings config w
      else afterRemote gitService settings loadedSettings w
  | None =>
      let w := phase "No configuration found, scanning repository..." 50 w in
      afterRemote gitService settings loadedSettings w
  end.

(** *** Import: the format decision *)

Inductive ImportRoute : Type :=
| ImportV2 (configToSave : Value)
| ImportLegacy (importedConfig : Value)
| ImportJsonError
| ImportValidationError.

Definition isArray (v : Value) : bool :=
  match v with Arr _ => true | _ => false end.

(** [v.length > 0] for an array [v]. *)
Definition nonEmptyArray (v : Value) : bool :=
  match v with
  | Arr (_ :: _) => true
  | _ => false
  end.

(** [Array.isArray(c.collections) && c.collections.length > 0], for a [c]
    whose [collections] member can be read. *)
Definition hasCollections (importedConfig : Value) : bool :=
  isArray (get importedConfig "collections")
  && nonEmptyArray (get importedConfig "collections").

(** [o[k] = v] on an object: the property keeps its place when it exists. *)
Fixpoint put (k : string) (v : Value) (props : list (string * Value)) : list (string * Value) :=
  match props with
  | [] => [(k, v)]
  | (k', v') :: rest =>
      if bool_decide (k = k') then (k, v) :: rest else (k', v') :: put k v rest
  end.

(** The characters of a string, one string each. *)
Fixpoint characters (s : string) : list string :=
  match s with
  | EmptyString => []
  | String c rest => String c EmptyString :: characters rest
  end.

(** [Object.entries(v)]: the members of an object, the elements of an array
    and the characters of a string under their indices. An [Obj] lists its
    members in the order JavaScript enumerates them: array indices first, in
    ascending order, then the other keys in the order of their creation. *)
Definition entries (v : Value) : list (string * Value) :=
  match v with
  | Obj props => props
  | Arr items => imap (fun i item => (pretty i, item)) items
  | Str s => imap (fun i c => (pretty i, Str c)) (characters s)
  | _ => []
  end.

Fixpoint digitsValue (s : string) (acc : N) : option N :=
  match s with
  | EmptyString => Some acc
  | String c rest =>
      let n := Ascii.N_of_ascii c in
      if (48 <=? n)%N && (n <=? 57)%N then digitsValue rest (10 * acc + (n - 48))%N
      else None
  end.

(** [key] is an array index: the canonical decimal text of an integer below
    2^32 - 1. *)
Definition isIndexKey (key : string) : bool :=
  match key with
  | EmptyString => false
  | String c rest =>
      (bool_decide (rest = EmptyString) || negb (Ascii.N_of_ascii c =? 48)%N)
      && match digitsValue key 0 with
         | Some n => (n <? 4294967295)%N
         | None => false
         end
  end.

(** [{ version: 2, ...importedConfig }]: [version] is created first and the
    members of [importedConfig] are copied in their order, so the result
    lists the array indices first and [version] before the other keys. *)
Definition withVersion2 (importedConfig : Value) : Value :=
  let members := entries importedConfig in
  Obj (filter (fun kv => isIndexKey kv.1 = true) members
       ++ foldl (fun acc kv => put kv.1 kv.2 acc) [("version", Num 2)]
                (filter (fun kv => isIndexKey kv.1 = false) members))%list.

(** The [for (const key in importedConfig)] check: own keys the schema knows
    must pass their validator. *)
Definition legacyValid (importedConfig : Value) : bool :=
  match importedConfig with
  | Obj props => forallb (fun '(key, value) => passes_or_unknown key value) props
  | _ => true
  end.

(** [reader.onload], up to the choice of the route. *)
Definition handleFileImport `{Host} (content : string) : ImportRoute :=
  match JSON_parse content with
  | None => ImportJsonError
  | Some importedConfig =>
      match member importedConfig "collections" with
      | Throws _ => ImportValidationError
      | Ok _ =>
          if hasCollections importedConfig then ImportV2 (withVersion2 importedConfig)
          else if legacyValid importedConfig then ImportLegacy importedConfig
          else ImportValidationError
      end
  end.

End Dashboard.

(** ** The remote merge, field by field

    Where the merge phase looks each setting up in the parsed remote file,
    and what must hold of the file for the look-up to take place. This is the
    reading of the merge that the theorems below compare with
    [Dashboard.mergeRemoteConfig]. *)

Module RemoteFields.

Inductive Source : Type :=
| TopLevel (name : string)
| UnderPaths (name : string)
| UnderGroup (group name : string).

Definition sources : list (string * Source) := [
  ("projectType", TopLevel "projectType");
  ("postsPath", UnderPaths "posts");
  ("imagesPath", UnderPaths "images");
  ("domainUrl", TopLevel "domainUrl");
  ("postFileTypes", UnderGroup "settings" "postFileTypes");
  ("imageFileTypes", UnderGroup "settings" "imageFileTypes");
  ("publishDateSource", UnderGroup "settings" "publishDateSource");
  ("imageCompressionEnabled", UnderGroup "settings" "imageCompressionEnabled");
  ("maxImageSize", UnderGroup "settings" "maxImageSize");
  ("imageResizeMaxWidth", UnderGroup "settings" "imageResizeMaxWidth");
  ("newPostCommit", UnderGroup "commits" "newPost");
  ("updatePostCommit", UnderGroup "commits" "updatePost");
  ("newImageCommit", UnderGroup "commits" "newImage");
  ("updateImageCommit", UnderGroup "commits" "updateImage")
].

Definition sourceOf (key : string) : option Source :=
  (list_to_map sources : gmap string Source) !! key.

(** The value found at a source: [undefined] when the file has none, also
    when the enclosing object is missing. *)
Definition valueAt (config : Value) (src : Source) : Value :=
  match src with
  | TopLevel name => get config name
  | UnderPaths name => get (get config "paths") name
  | UnderGroup group name => get (get config group) name
  end.

(** The guard in front of the field's [applyIfValid]: the value itself must
    be truthy for the project type, the two paths and the domain; the
    enclosing object must be truthy for the technical settings and the commit
    templates. *)
Definition guardAt (config : Value) (src : Source) : bool :=
  match src with
  | TopLevel name => truthy (get config name)
  | UnderPaths name => truthy (get_opt (get config "paths") name)
  | UnderGroup group _ => truthy (get config group)
  end.

Definition remoteValue (config : Value) (key : string) : Value :=
  from_option (valueAt config) Undefined (sourceOf key).

Definition guardOpen (config : Value) (key : string) : bool :=
  from_option (guardAt config) false (sourceOf key).

(** The remote value reaches the draft. *)
Definition merged (config : Value) (key : string) : bool :=
  guardOpen config key
  && negb (is_undefined (remoteValue config key))
  && known_and_passes key (remoteValue config key).

(** The merge as one pass over the table. *)
Definition mergeOne (config : Value) (draft : Settings) (entry : string * Source) : Settings :=
  if guardAt config entry.2
  then Dashboard.applyIfValid entry.1 (valueAt config entry.2) draft
  else draft.

Definition mergeBySources (config : Value) (draft : Settings) : Settings :=
  foldl (mergeOne config) draft sources.

End RemoteFields.

(** ** A host for running the model

    [Number] on the empty string and on unsigned decimal integers (any other
    string gives NaN, as a path or a word does); [String] on strings,
    booleans, null, undefined and integers; the JSON functions on the
    documents of [documents]. *)

Module TestHost.

Fixpoint digits (s : string) (acc : Z) : option Z :=
  match s with
  | EmptyString => Some acc
  | String c rest =>
      let n := Z.of_nat (Ascii.nat_of_ascii c) in
      if ((48 <=? n) && (n <=? 57))%Z then digits rest (10 * acc + (n - 48))%Z else None
  end.

Definition number (s : string) : float :=
  if bool_decide (s = "") then 0%float
  else match digits s 0 with
       | Some z => PrimFloat.of_uint63 (Uint63.of_Z z)
       | None => PrimFloat.nan
       end.

Definition integerOf (n : float) : option Z :=
  match Prim2SF n with
  | S754_zero _ => Some 0%Z
  | S754_finite s m e =>
      let z := (if (0 <=? e)%Z then Z.pos m * 2 ^ e
                else if (Z.pos m mod 2 ^ (- e) =? 0)%Z then Z.pos m / 2 ^ (- e) else -1)%Z in
      if (z <? 0)%Z then None else Some (if s then - z else z)%Z
  | _ => None
  end.

Definition render (v : Value) : string :=
  match v with
  | Undefined => "undefined"
  | Null => "null"
  | Bool true => "true"
  | Bool false => "false"
  | Str s => s
  | Num n => match integerOf n with Some z => pretty z | None => "NaN" end
  | Arr _ => ""
  | Obj _ => "[object Object]"
  end.

Definition v1Document : Value :=
  Obj [("version", Num 1);
       ("projectType", Str "github");
       ("paths", Obj [("posts", Str "content/posts"); ("images", Str "public/images")]);
       ("domainUrl", Str "");
       ("settings", Obj [("maxImageSize", Num 2048); ("imageResizeMaxWidth", Num 800)])].

Definition emptyV2Document : Value :=
  Obj [("version", Num 2); ("collections", Arr [])].

Definition v2Document : Value :=
  Obj [("collections", Arr [Obj [("id", Str "c1"); ("name", Str "Blog")]])].

Definition documents : list (string * Value) := [
  ("v1", v1Document);
  ("emptyV2", emptyV2Document);
  ("v2", v2Document);
  ("null", Null)
].

Definition parse (content : string) : option Value :=
  (list_to_map documents : gmap string Value) !! content.

Definition stringify (v : Value) : string :=
  match v with
  | Str s => dquote +:+ s +:+ dquote
  | _ => render v
  end.

Definition host : Host :=
  {| Number := number; String_ := render; JSON_parse := parse; JSON_stringify := stringify |}.

Definition repo : string := "owner/site".

(** No remote file, nothing to scan. *)
Definition offline : Dashboard.Services :=
  {| Dashboard.loadCollectionsFromPageelrc := fun _ => None;
     Dashboard.workspacePresent := true;
     Dashboard.getFileContent := fun _ => Throws (ErrorObj "Not Found");
     Dashboard.findProductionUrl := Ok None;
     Dashboard.scanForContentDirectories := Ok ["src/content/blog"];
     Dashboard.scanForImageDirectories := Ok [] |}.

(** The repository holds the document named [content]. *)
Definition serving (content : string) : Dashboard.Services :=
  {| Dashboard.loadCollectionsFromPageelrc := fun _ => None;
     Dashboard.workspacePresent := true;
     Dashboard.getFileContent := fun _ => Ok content;
     Dashboard.findProductionUrl := Ok None;
     Dashboard.scanForContentDirectories := Ok [];
     Dashboard.scanForImageDirectories := Ok [] |}.

Definition fresh (storage : gmap string string) : Dashboard.World :=
  {| Dashboard.appStore := AppStore.initial "dashboard";
     Dashboard.settingsStore := SettingsStore.initial;
     Dashboard.localStorage := storage;
     Dashboard.suggestedPostPaths := [];
     Dashboard.suggestedImagePaths := [];
     Dashboard.calls := [] |}.

(** A cache that holds the three mandatory fields, the posts path empty. *)
Definition cacheWithEmptyPath : gmap string string :=
  list_to_map [
    ("projectType_owner/site", "astro");
    ("postsPath_owner/site", "");
    ("imagesPath_owner/site", "public/images")
  ].

Definition fullCache : gmap string string :=
  list_to_map [
    ("projectType_owner/site", "astro");
    ("postsPath_owner/site", "src/content/blog");
    ("imagesPath_owner/site", "public/images");
    ("maxImageSize_owner/site", "5")
  ].

End TestHost.

(** Calls to the three scan collaborators. *)
Definition isScanCall (c : Dashboard.Call) : bool :=
  match c with
  | Dashboard.FindProductionUrl
  | Dashboard.ScanForContentDirectories
  | Dashboard.ScanForImageDirectories => true
  | _ => false
  end.

Definition isSetCollections (c : Dashboard.Call) : bool :=
  match c with Dashboard.SetCollections _ => true | _ => false end.

(** ** The valid part of the cache

    The value a loader takes from the cache for [key], read under
    [storageKey]: the decoded entry when there is one and it passes the
    field's validator. *)
Definition cachedValid `{Host} (storage : gmap string string) (storageKey key : string)
    : option Value :=
  match storage !! storageKey with
  | Some stored =>
      if passes_or_unknown key (decode stored) then Some (decode stored) else None
  | None => None
  end.

Import SettingsStore AppStore SyncLock Dashboard.

(** ** Conditions of the bootstrap *)

(** The bootstrap up to the remote read: the loaded settings and the world
    in which [getFileContent] is awaited. *)
Definition beforeRemote `{Host} (gitService : Services) (repo_full_name : string)
    (w : World) : Settings * World :=
  let '(loadedSettings, w) :=
    loadLocalSettings repo_full_name (refreshCollections gitService repo_full_name w) in
  (loadedSettings, call (GetFileContent ".pageelrc.json") (phase "Checking for .pageelrc.json..." 30 w)).

(** A usable remote file: it can be fetched, it parses, and the parsed
    value is truthy. *)
Definition usableRemote `{Host} (gitService : Services) : bool :=
  match readRemote gitService with
  | Some config => truthy config
  | None => false
  end.

Definition isOk {A} (r : Result A) : bool :=
  match r with Ok _ => true | Throws _ => false end.

(** Every scan collaborator that is asked answers. The production URL is
    asked for only when the captured settings have no domain. *)
Definition scanSucceeds (gitService : Services) (settings : Settings) : bool :=
  (truthy (prop settings "domainUrl") || isOk (findProductionUrl gitService))
  && isOk (scanForContentDirectories gitService)
  && isOk (scanForImageDirectories gitService).

(** The condition of the cache fallback, on the cache as read. *)
Definition cacheSufficient `{Host} (storage : gmap string string) (prefix : string) : bool :=
  truthy (prop (readCache storage prefix) "projectType")
  && truthy (prop (readCache storage prefix) "postsPath")
  && truthy (prop (readCache storage prefix) "imagesPath").

(** The cache gave [key] a string that is not empty. *)
Definition suppliesNonEmpty (loadedSettings : Settings) (key : string) : Prop :=
  exists s, s <> "" /\ loadedSettings !! key = Some (Str s).

(** The first collaborator of the scan that is asked and throws, with what
    it throws: the ones after it are not asked. *)
Definition firstFailure (gitService : Services) (settings : Settings) : option Thrown :=
  match (if truthy (prop settings "domainUrl") then Ok None
         else findProductionUrl gitService) with
  | Throws e => Some e
  | Ok _ =>
      match scanForContentDirectories gitService with
      | Throws e => Some e
      | Ok _ =>
          match scanForImageDirectories gitService with
          | Throws e => Some e
          | Ok _ => None
          end
      end
  end.

(** The elements of an array. *)
Definition items (v : Value) : list Value :=
  match v with
  | Arr l => l
  | _ => []
  end.

(** The members of an object, as settings. *)
Definition settingsOf (v : Value) : option Settings :=
  match v with
  | Obj props => Some (list_to_map props)
  | _ => None
  end.

(** Modelled from the spec: [loadCollectionsFromPageelrc] of the collections
    feature, whose source is not under src/. It reads the remote config
    file: a version 2 payload "is recognized by presence of a non-empty
    collections array, not strictly by the version field", and then the
    collections and the settings of the file are what is loaded "directly
    into the Workspace"; any failure of the read "is caught locally" and
    "never propagated", so the answer is null then, as it is for a file that
    is not such a payload. *)
Definition specifiedLoader `{Host} (gitService : Services) : option CollectionsData :=
  match readRemote gitService with
  | Some config =>
      if hasCollections config
      then Some {| collections := items (get config "collections");
                   sharedSettings := settingsOf (get config "settings") |}
      else None
  | None => None
  end.

(** The loader that the bootstrap awaits answers as the spec says. *)
Definition loaderAsSpecified `{Host} (gitService : Services) (repo_full_name : string)
    : Prop :=
  loadCollectionsFromPageelrc gitService repo_full_name = specifiedLoader gitService.

(** The collections the bootstrap hands to the collection store, if any. *)
Definition collectionsToInstall (gitService : Services) (repo_full_name : string)
    : option (list Value) :=
  match loadCollectionsFromPageelrc gitService repo_full_name with
  | Some collectionsData =>
      if bool_decide (collections collectionsData <> []) && workspacePresent gitService
      then Some (collections collectionsData)
      else None
  | None => None
  end.

(** ** String methods *)

Module Text.

(** [s.startsWith(searchString)]. *)
Fixpoint startsWith (s searchString : string) {struct searchString} : bool :=
  match searchString with
  | EmptyString => true
  | String c rest =>
      match s with
      | EmptyString => false
      | String d s' => Ascii.eqb c d && startsWith s' rest
      end
  end.

(** [s.substring(n)]. *)
Fixpoint substring (n : nat) (s : string) : string :=
  match n with
  | O => s
  | S n' => match s with EmptyString => EmptyString | String _ s' => substring n' s' end
  end.

(** [s.includes(searchString)]. *)
Fixpoint includes (s searchString : string) : bool :=
  startsWith s searchString
  || match s with
     | EmptyString => false
     | String _ s' => includes s' searchString
     end.

(** [s.replace(/\/$/, '')]: one slash at the very end is dropped. *)
Fixpoint dropTrailingSlash (s : string) : string :=
  match s with
  | EmptyString => EmptyString
  | String c EmptyString => if bool_decide (s = "/") then EmptyString else s
  | String c s' => String c (dropTrailingSlash s')
  end.

(** Truthiness of a string. *)
Definition nonEmpty (s : string) : bool := negb (bool_decide (s = "")).

End Text.

(** ** Raw and public URLs of repository files *)

Module Github.
Import Text.

(** The two fields of a repository the URL helpers read. *)
Record GithubRepo : Type := {
  full_name : string;
  default_branch : option string
}.

(** [repo.default_branch || 'main']. *)
Definition branchOf (repo : GithubRepo) : string :=
  match default_branch repo with
  | Some b => if nonEmpty b then b else "main"
  | None => "main"
  end.

Definition getRawGithubUrl (repo : GithubRepo) (path : string) (_projectType : string) : string :=
  if negb (nonEmpty path) then ""
  else if startsWith path "http" then path
  else
    let cleanPath := if startsWith path "/" then substring 1 path else path in
    let cleanPath :=
      if negb (startsWith cleanPath "public/") then "public/" +:+ cleanPath else cleanPath in
    let branch := branchOf repo in
    "https://raw.githubusercontent.com/" +:+ full_name repo +:+ "/refs/heads/" +:+ branch
      +:+ "/" +:+ cleanPath.

(** [domainUrl] is [None] when the argument is left out. *)
Definition resolveImageSource (path : string) (repo : GithubRepo) (projectType : string)
    (domainUrl : option string) : string :=
  if negb (nonEmpty path) then ""
  else if startsWith path "http" || startsWith path "data:" then path
  else
    match domainUrl with
    | Some domain =>
        if bool_decide (projectType = "astro") && nonEmpty domain then
          let cleanDomain := dropTrailingSlash domain in
          let relPath := path in
          let relPath := if startsWith relPath "public/" then substring 7 relPath else relPath in
          let relPath := if negb (startsWith relPath "/") then "/" +:+ relPath else relPath in
          cleanDomain +:+ relPath
        else getRawGithubUrl repo path projectType
    | None => getRawGithubUrl repo path projectType
    end.

End Github.

(** ** features/auth/store.ts *)

Module AuthStore.

(** The user, repository and service objects are opaque here. *)
Record AuthState (U R G S : Type) : Type := {
  user : option U;
  repo : option R;
  gitService : option G;
  serviceType : option S;
  isLoading : bool;
  error : option string
}.
Arguments user {U R G S} _.
Arguments repo {U R G S} _.
Arguments gitService {U R G S} _.
Arguments serviceType {U R G S} _.
Arguments isLoading {U R G S} _.
Arguments error {U R G S} _.

Definition initial {U R G S} : AuthState U R G S :=
  {| user := None; repo := None; gitService := None; serviceType := None;
     isLoading := true; error := None |}.

Definition setUser {U R G S} (u : option U) (st : AuthState U R G S) : AuthState U R G S :=
  {| user := u; repo := repo st; gitService := gitService st;
     serviceType := serviceType st; isLoading := isLoading st; error := error st |}.

Definition setRepo {U R G S} (r : option R) (st : AuthState U R G S) : AuthState U R G S :=
  {| user := user st; repo := r; gitService := gitService st;
     serviceType := serviceType st; isLoading := isLoading st; error := error st |}.

Definition setGitService {U R G S} (g : option G) (st : AuthState U R G S)
    : AuthState U R G S :=
  {| user := user st; repo := repo st; gitService := g;
     serviceType := serviceType st; isLoading := isLoading st; error := error st |}.

Definition setLoading {U R G S} (loading : bool) (st : AuthState U R G S)
    : AuthState U R G S :=
  {| user := user st; repo := repo st; gitService := gitService st;
     serviceType := serviceType st; isLoading := loading; error := error st |}.

(** [!!(user && repo && gitService)]: the three are objects or null. *)
Definition isAuthenticated {U R G S} (st : AuthState U R G S) : bool :=
  bool_decide (is_Some (user st)) && bool_decide (is_Some (repo st))
  && bool_decide (is_Some (gitService st)).

Definition sessionKeys : list string :=
  ["github_pat_encrypted"; "crypto_key"; "selected_repo"; "service_type"; "instance_url"].

(** [clearAuth] on the session storage and the store. *)
Definition clearAuth {U R G S} (w : gmap string string * AuthState U R G S)
    : gmap string string * AuthState U R G S :=
  (foldl (fun storage key => delete key storage) w.1 sessionKeys,
   {| user := None; repo := None; gitService := None; serviceType := None;
      isLoading := isLoading w.2; error := None |}).

End AuthStore.

(** ** The view named by the URL *)

Module Navigation.

Definition VALID_VIEWS : list string :=
  ["dashboard"; "workflows"; "images"; "template"; "backup"; "settings"].

(** The result of [params.get('view')] checked against [VALID_VIEWS], as
    [getInitialView] and the [popstate] listener do; [view] is [None] when
    the URL has no such parameter or there is no window. *)
Definition getInitialView (view : option string) : string :=
  match view with
  | Some v =>
      if Text.nonEmpty v && bool_decide (v ∈ VALID_VIEWS) then v else "dashboard"
  | None => "dashboard"
  end.

End Navigation.

(** ** The documents the code writes *)

Module Documents.

(** [configObject] of the settings store's [saveSettings]. *)
Definition storeConfigObject (settings : Settings) : Value :=
  Obj [
    ("version", Num 1);
    ("projectType", prop settings "projectType");
    ("postsPath", prop settings "postsPath");
    ("imagesPath", prop settings "imagesPath");
    ("domainUrl", prop settings "domainUrl");
    ("settings", Obj [
       ("postFileTypes", prop settings "postFileTypes");
       ("imageFileTypes", prop settings "imageFileTypes");
       ("publishDateSource", prop settings "publishDateSource");
       ("imageCompression", Obj [
          ("enabled", prop settings "imageCompressionEnabled");
          ("maxSize", prop settings "maxImageSize");
          ("maxWidth", prop settings "imageResizeMaxWidth")])]);
    ("commitMessages", Obj [
       ("newPost", prop settings "newPostCommit");
       ("updatePost", prop settings "updatePostCommit");
       ("newImage", prop settings "newImageCommit");
       ("updateImage", prop settings "updateImageCommit")])
  ].

(** [configObject] of the dashboard's [handleSaveSettings] when there is no
    workspace; [frontmatter] and [tableColumns] are the parsed cached
    template and columns, or [undefined]. *)
Definition legacyConfigObject (settings : Settings) (frontmatter tableColumns : Value) : Value :=
  Obj [
    ("version", Num 1);
    ("projectType", prop settings "projectType");
    ("paths", Obj [("posts", prop settings "postsPath"); ("images", prop settings "imagesPath")]);
    ("domainUrl", prop settings "domainUrl");
    ("templates", Obj [("frontmatter", frontmatter)]);
    ("ui", Obj [("tableColumns", tableColumns)]);
    ("settings", Obj [
       ("postFileTypes", prop settings "postFileTypes");
       ("imageFileTypes", prop settings "imageFileTypes");
       ("publishDateSource", prop settings "publishDateSource");
       ("imageCompressionEnabled", prop settings "imageCompressionEnabled");
       ("maxImageSize", prop settings "maxImageSize");
       ("imageResizeMaxWidth", prop settings "imageResizeMaxWidth")]);
    ("commits", Obj [
       ("newPost", prop settings "newPostCommit");
       ("updatePost", prop settings "updatePostCommit");
       ("newImage", prop settings "newImageCommit");
       ("updateImage", prop settings "updateImageCommit")])
  ].

(** [initialCollection] of [handleFinishSetup]; [now] is the text of
    [Date.now()]. *)
Definition initialCollection (settings : Settings) (collectionName now : string)
    (template tableColumns columnWidths : Value) : Value :=
  Obj [
    ("id", Str ("collection-" +:+ now));
    ("name", Str (if Text.nonEmpty collectionName then collectionName else "Main Collection"));
    ("postsPath", prop settings "postsPath");
    ("imagesPath", prop settings "imagesPath");
    ("template", template);
    ("tableColumns", tableColumns);
    ("columnWidths", columnWidths)
  ].

(** [workspaceConfig] of [handleFinishSetup]. *)
Definition workspaceConfig (settings : Settings) (collection : Value) : Value :=
  Obj [
    ("version", Num 2);
    ("settings", Obj [
       ("projectType", prop settings "projectType");
       ("domainUrl", prop settings "domainUrl");
       ("postFileTypes", prop settings "postFileTypes");
       ("imageFileTypes", prop settings "imageFileTypes");
       ("publishDateSource", prop settings "publishDateSource");
       ("imageCompressionEnabled", prop settings "imageCompressionEnabled");
       ("maxImageSize", prop settings "maxImageSize");
       ("imageResizeMaxWidth", prop settings "imageResizeMaxWidth")]);
    ("commitMessages", Obj [
       ("newPost", prop settings "newPostCommit");
       ("updatePost", prop settings "updatePostCommit");
       ("newImage", prop settings "newImageCommit");
       ("updateImage", prop settings "updateImageCommit")]);
    ("collections", Arr [collection])
  ].

(** The legacy export of [handleExportSettings]: what it builds from the
    cache when the workspace has no collection. *)
Definition repoScopedKeys : list string := [
  "projectType"; "postsPath"; "imagesPath"; "domainUrl"; "postTemplate";
  "postFileTypes"; "imageFileTypes"; "publishDateSource"; "imageCompressionEnabled";
  "maxImageSize"; "imageResizeMaxWidth"; "newPostCommit"; "updatePostCommit";
  "newImageCommit"; "updateImageCommit"; "postTableColumns"; "postTableColumnWidths"
].

(** The value exported for one cached entry; a JSON field that does not
    parse is exported raw. *)
Definition exportValue `{Host} (key value : string) : Value :=
  if bool_decide (key = "imageCompressionEnabled") then Bool (bool_decide (value = "true"))
  else if bool_decide (key ∈ ["maxImageSize"; "imageResizeMaxWidth"]) then Num (Number value)
  else if bool_decide (key ∈ ["postTemplate"; "postTableColumns"; "postTableColumnWidths"])
       then default (Str value) (JSON_parse value)
  else Str value.

Definition exportOne `{Host} (storage : gmap string string) (prefix : string)
    (settingsToExport : list (string * Value)) (key : string) : list (string * Value) :=
  match storage !! Dashboard.scoped key prefix with
  | Some value => Dashboard.put key (exportValue key value) settingsToExport
  | None => settingsToExport
  end.

Definition exportLegacy `{Host} (storage : gmap string string) (prefix : string)
    : list (string * Value) :=
  let settingsToExport := foldl (exportOne storage prefix) [] repoScopedKeys in
  match storage !! "pageel-cms-lang" with
  | Some lang =>
      if Text.nonEmpty lang then Dashboard.put "pageel-cms-lang" (Str lang) settingsToExport
      else settingsToExport
  | None => settingsToExport
  end.

End Documents.

(** ** The other handlers *)

Module Handlers.
Import SettingsStore AppStore SyncLock.

(** [JSON.stringify(value, null, 2)], a built-in like those of [Host]. *)
Class Indented : Type := { JSON_stringify_indented : Value -> string }.

(** What the handlers do outside the stores and the two storages. *)
Inductive Effect : Type :=
| GetFileSha (path : string)
| CreateFileFromString (path content message : string)
| UpdateFileContent (path content message sha : string)
| DeleteFile (path sha message : string)
| InitWorkspace (repoId : string)
| SetCollections (cs : list Value)
| SetActiveCollection (id : string)
| UpdateSettings (patch : Settings)
| RefreshActiveCollection (template tableColumns columnWidths : Value)
| SaveCollectionsToPageelrc (settings : Settings)
| ResetWorkspace
| HandleAction
| Reload
| Alert (message : string).

(** The answers of the Git service during one handler. *)
Record Remote : Type := {
  getFileSha : Result (option string);
  createFileFromString : Completion unit;
  updateFileContent : Completion unit;
  deleteFile : Completion unit;
  workspacePresent : bool
}.

(** Everything the handlers write besides the application store. The
    entries that the stores' persistence layer writes on its own are not
    part of [localStorage] here. *)
Record Page : Type := {
  settingsStore : SettingsState;
  localStorage : gmap string string;
  sessionStorage : gmap string string;
  effects : list Effect
}.

Definition onSettings (f : SettingsState -> SettingsState) (w : AppState * Page)
    : AppState * Page :=
  (w.1, {| settingsStore := f (settingsStore w.2); localStorage := localStorage w.2;
           sessionStorage := sessionStorage w.2; effects := effects w.2 |}).

Definition onLocal (f : gmap string string -> gmap string string) (w : AppState * Page)
    : AppState * Page :=
  (w.1, {| settingsStore := settingsStore w.2; localStorage := f (localStorage w.2);
           sessionStorage := sessionStorage w.2; effects := effects w.2 |}).

Definition onSession (f : gmap string string -> gmap string string) (w : AppState * Page)
    : AppState * Page :=
  (w.1, {| settingsStore := settingsStore w.2; localStorage := localStorage w.2;
           sessionStorage := f (sessionStorage w.2); effects := effects w.2 |}).

Definition effect (e : Effect) (w : AppState * Page) : AppState * Page :=
  (w.1, {| settingsStore := settingsStore w.2; localStorage := localStorage w.2;
           sessionStorage := sessionStorage w.2; effects := effects w.2 ++ [e] |}).

(** [v === s] for a string literal [s]. *)
Definition is_str (s : string) (v : Value) : bool :=
  match v with Str t => bool_decide (t = s) | _ => false end.

Definition isReady (settings : Settings) : bool :=
  if is_str "github" (prop settings "projectType")
  then truthy (prop settings "postsPath") && truthy (prop settings "imagesPath")
  else truthy (prop settings "postsPath") && truthy (prop settings "imagesPath")
       && truthy (prop settings "domainUrl").

(** [saved ? JSON.parse(saved) : undefined]; [None] when [JSON.parse] throws. *)
Definition parseSaved `{Host} (saved : option string) : option Value :=
  match saved with
  | Some text => if Text.nonEmpty text then JSON_parse text else Some Undefined
  | None => Some Undefined
  end.

(** The argument of [collectionStore.updateSettings] in [handleFinishSetup]. *)
Definition sharedSettingsOf (settings : Settings) : Settings :=
  list_to_map
    ((fun key => (key, prop settings key)) <$>
       ["projectType"; "domainUrl"; "postFileTypes"; "imageFileTypes"; "publishDateSource";
        "imageCompressionEnabled"; "maxImageSize"; "imageResizeMaxWidth";
        "newPostCommit"; "updatePostCommit"; "newImageCommit"; "updateImageCommit"]).

(** [newCollection] of [handleFinishSetup]. *)
Definition newCollection (settings : Settings) (collectionName now createdAt updatedAt : string)
    (template tableColumns columnWidths : Value) : Value :=
  Obj [
    ("id", Str ("collection-" +:+ now));
    ("name", Str (if Text.nonEmpty collectionName then collectionName else "Main Collection"));
    ("postsPath", prop settings "postsPath");
    ("imagesPath", prop settings "imagesPath");
    ("template", template);
    ("tableColumns", tableColumns);
    ("columnWidths", columnWidths);
    ("createdAt", Str createdAt);
    ("updatedAt", Str updatedAt)
  ].

(** [settings] is the value captured at render; [now], [createdAt] and
    [updatedAt] are the clock readings of the run. The result is [Pending]
    when the awaited write never settles. *)
Definition handleFinishSetup `{Host} `{Indented} (gitService : Remote)
    (repo_full_name : string) (settings : Settings)
    (collectionName now createdAt updatedAt : string) (w : AppState * Page)
    : Completion unit * (AppState * Page) :=
  if isReady settings then
    let prefix := repo_full_name in
    let savedTemplate := localStorage w.2 !! Dashboard.scoped "postTemplate" prefix in
    let savedColumns := localStorage w.2 !! Dashboard.scoped "postTableColumns" prefix in
    let savedWidths := localStorage w.2 !! Dashboard.scoped "postTableColumnWidths" prefix in
    match parseSaved savedTemplate, parseSaved savedColumns, parseSaved savedWidths with
    | Some template, Some tableColumns, Some columnWidths =>
        let collection :=
          Documents.initialCollection settings collectionName now
            template tableColumns columnWidths in
        let content :=
          JSON_stringify_indented (Documents.workspaceConfig settings collection) in
        let '(c, w) :=
          withSyncLock
            (fun w => (createFileFromString gitService,
                       effect (CreateFileFromString ".pageelrc.json" content
                                 "chore: add pageel-cms config") w))
            (Some "Creating configuration...") w in
        match c with
        | Pending => (Pending, w)
        | Rejected _ => (Resolved (), onSettings (setSetupComplete true) w)
        | Resolved _ =>
            let w := if workspacePresent gitService then w
                     else effect (InitWorkspace repo_full_name) w in
            let w :=
              effect (SetCollections
                        [newCollection settings collectionName now createdAt updatedAt
                           template tableColumns columnWidths]) w in
            let w := effect (SetActiveCollection ("collection-" +:+ now)) w in
            let w := effect (UpdateSettings (sharedSettingsOf settings)) w in
            let w := effect HandleAction w in
            (Resolved (), onSettings (setSetupComplete true) w)
        end
    | _, _, _ => (Resolved (), onSettings (setSetupComplete true) w)
    end
  else (Resolved (), w).

Definition repoSpecificKeys (prefix : string) : list string :=
  (fun key => Dashboard.scoped key prefix) <$>
    ["projectType"; "postsPath"; "imagesPath"; "domainUrl"; "postTemplate";
     "postTableColumns"; "postTableColumnWidths"; "postFileTypes"; "imageFileTypes";
     "publishDateSource"; "imageCompressionEnabled"; "maxImageSize"; "imageResizeMaxWidth";
     "newPostCommit"; "updatePostCommit"; "newImageCommit"; "updateImageCommit"].

(** Steps 2 to 4 of [handleDeleteConfig] on the local storage. *)
Definition purgeLocal (prefix : string) (storage : gmap string string) : gmap string string :=
  let storage := filter (fun kv => Text.includes kv.1 prefix = false) storage in
  let storage := foldl (fun st key => delete key st) storage (repoSpecificKeys prefix) in
  delete "pageel-collections" (delete "pageel-settings" storage).

Definition deleteFailed (w : AppState * Page) : AppState * Page :=
  onSettings (setIsSaving false)
    (effect (Alert "Failed to delete .pageelrc.json. Please try again.") w).

Definition handleDeleteConfig (gitService : Remote) (repo_full_name : string)
    (w : AppState * Page) : Completion unit * (AppState * Page) :=
  let w := onSettings (setIsSaving true) w in
  let w := effect (GetFileSha ".pageelrc.json") w in
  match getFileSha gitService with
  | Throws _ => (Resolved (), deleteFailed w)
  | Ok sha =>
      let '(c, w) :=
        match sha with
        | Some text =>
            if Text.nonEmpty text then
              withSyncLock
                (fun w => (deleteFile gitService,
                           effect (DeleteFile ".pageelrc.json" text
                                     "chore: delete pageel-cms config") w))
                (Some "Deleting configuration...") w
            else (Resolved (), w)
        | None => (Resolved (), w)
        end in
      match c with
      | Pending => (Pending, w)
      | Rejected _ => (Resolved (), deleteFailed w)
      | Resolved _ =>
          let w := onLocal (purgeLocal repo_full_name) w in
          let w :=
            onSession (fun st => foldl (fun st key => delete key st) st AuthStore.sessionKeys) w in
          let w := effect ResetWorkspace w in
          let w := onSettings (setSetupComplete false) w in
          let w := effect Reload w in
          (Resolved (), onSettings (setIsSaving false) w)
      end
  end.

(** [saveSettings] of the settings store; [gitService] is [None] when the
    argument is left out. The keys of [settings] are written in the order of
    [map_to_list]; the timer that clears [saveSuccess] three seconds later is
    not part of the call. *)
Definition saveSettings `{Host} `{Indented} (gitService : option Remote) (repoId : string)
    (w : AppState * Page) : Completion unit * (AppState * Page) :=
  let settings := SettingsStore.settings (settingsStore w.2) in
  let w := onSettings (fun st => setSaveSuccess false (setIsSaving true st)) w in
  let w :=
    onLocal (fun storage =>
               foldl (fun st kv => <[storageKeyOf kv.1 repoId := String_ kv.2]> st)
                     storage (map_to_list settings)) w in
  let '(c, w) :=
    match gitService with
    | Some service =>
        let w := effect (GetFileSha ".pageelrc.json") w in
        match getFileSha service with
        | Ok (Some sha) =>
            if Text.nonEmpty sha then
              (updateFileContent service,
               effect (UpdateFileContent ".pageelrc.json"
                         (JSON_stringify_indented (Documents.storeConfigObject settings))
                         "chore: update pageel-core config" sha) w)
            else (Resolved (), w)
        | Ok None => (Resolved (), w)
        | Throws e => (Rejected e, w)
        end
    | None => (Resolved (), w)
    end in
  match c with
  | Pending => (Pending, w)
  | _ => (Resolved (), onSettings (fun st => setIsSaving false (setSaveSuccess true st)) w)
  end.

(** The collection store as [handleSaveSettings] finds it: whether there is
    an active collection, and how the save of the workspace ends. *)
Record Workspace : Type := {
  hasActiveCollection : bool;
  saveCollectionsToPageelrc : Completion bool
}.

(** Truthiness of what [localStorage.getItem] returned. *)
Definition isSaved (saved : option string) : bool :=
  match saved with
  | Some text => Text.nonEmpty text
  | None => false
  end.

(** The end of [handleSaveSettings]: [setSaveSuccess(true)] unless an error
    reached the outer [catch], then the [finally]. *)
Definition saveEnds (success : bool) (w : AppState * Page) : AppState * Page :=
  onSettings (setIsSaving false) (if success then onSettings (setSaveSuccess true) w else w).

(** [handleSaveSettings] of the dashboard; [workspace] and [settings] are
    the values captured at render. The keys of [settings] are written in the
    order of [map_to_list]. *)
Definition handleSaveSettings `{Host} `{Indented} (gitService : Remote)
    (workspace : option Workspace) (repo_full_name : string) (settings : Settings)
    (w : AppState * Page) : Completion unit * (AppState * Page) :=
  let w := onSettings (fun st => setSaveSuccess false (setIsSaving true st)) w in
  let w :=
    onLocal (fun storage =>
               foldl (fun st kv => <[Dashboard.scoped kv.1 repo_full_name := String_ kv.2]> st)
                     storage (map_to_list settings)) w in
  let prefix := repo_full_name in
  let savedTemplate := localStorage w.2 !! Dashboard.scoped "postTemplate" prefix in
  let savedColumns := localStorage w.2 !! Dashboard.scoped "postTableColumns" prefix in
  let savedWidths := localStorage w.2 !! Dashboard.scoped "postTableColumnWidths" prefix in
  match workspace with
  | Some store =>
      let w := effect (UpdateSettings settings) w in
      let refreshed :=
        if hasActiveCollection store
           && (isSaved savedTemplate || isSaved savedColumns || isSaved savedWidths)
        then
          match parseSaved savedTemplate, parseSaved savedColumns, parseSaved savedWidths with
          | Some template, Some tableColumns, Some columnWidths =>
              Some (effect (RefreshActiveCollection template tableColumns columnWidths) w)
          | _, _, _ => None
          end
        else Some w in
      match refreshed with
      | None => (Resolved (), saveEnds false w)
      | Some w =>
          let '(c, w) :=
            withSyncLock
              (fun w => (saveCollectionsToPageelrc store,
                         effect (SaveCollectionsToPageelrc settings) w))
              (Some "Saving settings...") w in
          match c with
          | Pending => (Pending, w)
          | Rejected _ => (Resolved (), saveEnds false w)
          | Resolved success =>
              (Resolved (), saveEnds true (if success then effect HandleAction w else w))
          end
      end
  | None =>
      let w := effect (GetFileSha ".pageelrc.json") w in
      match getFileSha gitService with
      | Throws _ => (Resolved (), saveEnds true w)
      | Ok sha =>
          if isSaved sha then
            match parseSaved savedTemplate, parseSaved savedColumns with
            | Some frontmatter, Some tableColumns =>
                let content :=
                  JSON_stringify_indented
                    (Documents.legacyConfigObject settings frontmatter tableColumns) in
                let '(c, w) :=
                  withSyncLock
                    (fun w => (updateFileContent gitService,
                               effect (UpdateFileContent ".pageelrc.json" content
                                         "chore: update pageel-cms config"
                                         (default "" sha)) w))
                    (Some "Saving settings...") w in
                match c with
                | Pending => (Pending, w)
                | Rejected _ => (Resolved (), saveEnds true w)
                | Resolved _ => (Resolved (), saveEnds true (effect HandleAction w))
                end
            | _, _ => (Resolved (), saveEnds true w)
            end
          else (Resolved (), saveEnds true w)
      end
  end.

(** [SETTINGS_SCHEMA[key]] is truthy: the schema has the key, or
    [Object.prototype] has a member of that name. *)
Definition objectPrototypeKeys : list string :=
  ["constructor"; "hasOwnProperty"; "isPrototypeOf"; "propertyIsEnumerable";
   "toLocaleString"; "toString"; "valueOf"; "__proto__"; "__defineGetter__";
   "__defineSetter__"; "__lookupGetter__"; "__lookupSetter__"].

Definition schemaMember (key : string) : bool :=
  bool_decide (is_Some (SETTINGS_SCHEMA !! key)) || bool_decide (key ∈ objectPrototypeKeys).

(** One turn of the [forEach] that saves a legacy import to the cache. *)
Definition importOne `{Host} (prefix : string) (storage : gmap string string)
    (entry : string * Value) : gmap string string :=
  if negb (schemaMember entry.1) && negb (bool_decide (entry.1 = "pageel-cms-lang"))
  then storage
  else
    let storageKey :=
      if bool_decide (entry.1 = "pageel-cms-lang") then entry.1
      else Dashboard.scoped entry.1 prefix in
    <[storageKey := String_ entry.2]> storage.

(** The [forEach] that saves an accepted legacy import to the cache, on the
    entries of the imported value. It runs after the validation loop; the
    whole path is [cacheAfterImport]. *)
Definition importToCache `{Host} (prefix : string) (importedConfig : list (string * Value))
    (storage : gmap string string) : gmap string string :=
  foldl (importOne prefix) storage importedConfig.


End Handlers.

(** Effects on the collection store. *)
Definition touchesCollections (e : Handlers.Effect) : bool :=
  match e with
  | Handlers.InitWorkspace _ | Handlers.SetCollections _
  | Handlers.SetActiveCollection _ | Handlers.UpdateSettings _
  | Handlers.RefreshActiveCollection _ _ _ | Handlers.ResetWorkspace => true
  | _ => false
  end.

(** Writes to the repository. *)
Definition writesRepository (e : Handlers.Effect) : bool :=
  match e with
  | Handlers.CreateFileFromString _ _ _ | Handlers.UpdateFileContent _ _ _ _
  | Handlers.DeleteFile _ _ _ | Handlers.SaveCollectionsToPageelrc _ => true
  | _ => false
  end.

(** [handleDeleteConfig] gets past the repository: the file is absent, or
    the lock is free and the deletion resolves. *)
Definition deleteSucceeds (gitService : Handlers.Remote) (app : AppState) : bool :=
  match Handlers.getFileSha gitService with
  | Ok (Some sha) =>
      if Text.nonEmpty sha
      then negb (isSyncing app)
           && match Handlers.deleteFile gitService with Resolved _ => true | _ => false end
      else true
  | Ok None => true
  | Throws _ => false
  end.

(** The write to the repository that [saveSettings] attempts. *)
Definition savedRemotely `{Host} `{Handlers.Indented} (gitService : option Handlers.Remote)
    (settings : Settings) : list Handlers.Effect :=
  match gitService with
  | Some service =>
      match Handlers.getFileSha service with
      | Ok (Some sha) =>
          if Text.nonEmpty sha
          then [Handlers.UpdateFileContent ".pageelrc.json"
                  (Handlers.JSON_stringify_indented (Documents.storeConfigObject settings))
                  "chore: update pageel-core config" sha]
          else []
      | _ => []
      end
  | None => []
  end.

(** Every value that the legacy export takes from the cache passes the
    validator of its key, when the schema has one. *)
Definition exportedValid `{Host} (storage : gmap string string) (prefix : string) : bool :=
  forallb
    (fun key =>
       match storage !! scoped key prefix with
       | Some text => passes_or_unknown key (Documents.exportValue key text)
       | None => true
       end)
    Documents.repoScopedKeys
  && match storage !! "pageel-cms-lang" with
     | Some lang => negb (Text.nonEmpty lang) || passes_or_unknown "pageel-cms-lang" (Str lang)
     | None => true
     end.

(** The cached templates of the repository parse (or are absent). *)
Definition savedLayoutParses `{Host} (storage : gmap string string) (prefix : string) : bool :=
  bool_decide (is_Some (Handlers.parseSaved (storage !! scoped "postTemplate" prefix)))
  && bool_decide (is_Some (Handlers.parseSaved (storage !! scoped "postTableColumns" prefix)))
  && bool_decide (is_Some (Handlers.parseSaved (storage !! scoped "postTableColumnWidths" prefix))).



(** ** Concrete pages, services and hosts for the examples *)

Module TestPage.
Import Handlers.

Definition indented : Indented := {| JSON_stringify_indented := TestHost.stringify |}.

(** A repository that holds the file and accepts every write but the
    update. *)
Definition remote : Remote :=
  {| getFileSha := Ok (Some "3b18e5");
     createFileFromString := Resolved ();
     updateFileContent := Rejected (ErrorObj "409");
     deleteFile := Resolved ();
     workspacePresent := false |}.

(** The same repository, refusing the deletion. *)
Definition refusing : Remote :=
  {| getFileSha := Ok (Some "3b18e5");
     createFileFromString := Resolved ();
     updateFileContent := Rejected (ErrorObj "409");
     deleteFile := Rejected (ErrorObj "403");
     workspacePresent := false |}.

Definition page (storage : gmap string string) : AppState * Page :=
  (AppStore.initial "settings",
   {| settingsStore := SettingsStore.initial;
      localStorage := storage;
      sessionStorage := {["crypto_key" := "k"]};
      effects := [] |}).

(** Settings with which the setup can be finished. *)
Definition ready : Settings :=
  <["postsPath" := Str "src/content/blog"]>
    (<["domainUrl" := Str "https://example.com"]> DEFAULT_SETTINGS).

(** A collection store without an active collection whose save reports a
    failure. *)
Definition store : Workspace :=
  {| hasActiveCollection := false; saveCollectionsToPageelrc := Resolved false |}.

(** A repository whose content directories cannot be listed. *)
Definition failing : Dashboard.Services :=
  {| Dashboard.loadCollectionsFromPageelrc := fun _ => None;
     Dashboard.workspacePresent := true;
     Dashboard.getFileContent := fun _ => Throws (ErrorObj "Not Found");
     Dashboard.findProductionUrl := Ok None;
     Dashboard.scanForContentDirectories := Throws (ErrorObj "rate limit");
     Dashboard.scanForImageDirectories := Ok [] |}.

(** A cache with a post template and its table columns. *)
Definition cacheWithTemplate : gmap string string :=
  list_to_map [
    ("projectType_owner/site", "astro");
    ("postsPath_owner/site", "src/content/blog");
    ("postTemplate_owner/site", "{}");
    ("postTableColumns_owner/site", "[]")
  ].

(** A host that parses the two cached entries. *)
Definition parsing : Host :=
  {| Number := TestHost.number; String_ := TestHost.render;
     JSON_parse := fun content =>
       if bool_decide (content = "{}") then Some (Obj [])
       else if bool_decide (content = "[]") then Some (Arr [])
       else TestHost.parse content;
     JSON_stringify := TestHost.stringify |}.

(** A cache whose entries all pass their validators. *)
Definition validCache : gmap string string :=
  list_to_map [
    ("projectType_owner/site", "github");
    ("postsPath_owner/site", "src/content/blog");
    ("imagesPath_owner/site", "public/images");
    ("imageCompressionEnabled_owner/site", "true");
    ("maxImageSize_owner/site", "500")
  ].

(** A host that also parses the file named [export] as the legacy export of
    [cacheWithTemplate], [settings] as the one of [TestHost.fullCache] and
    [backup] as the one of [validCache]. *)
Definition importing : Host :=
  {| Number := TestHost.number; String_ := TestHost.render;
     JSON_parse := fun content =>
       if bool_decide (content = "export")
       then Some (Obj (@Documents.exportLegacy parsing cacheWithTemplate TestHost.repo))
       else if bool_decide (content = "settings")
       then Some (Obj (@Documents.exportLegacy parsing TestHost.fullCache TestHost.repo))
       else if bool_decide (content = "backup")
       then Some (Obj (@Documents.exportLegacy parsing validCache TestHost.repo))
       else @JSON_parse parsing content;
     JSON_stringify := TestHost.stringify |}.

(** A version 2 file without collections that names a project type. *)
Definition flatV2Document : Value :=
  Obj [("version", Num 2); ("projectType", Str "github"); ("collections", Arr [])].

(** A file with one collection and no version. *)
Definition unversionedDocument : Value :=
  Obj [("collections", Arr [Obj [("id", Str "collection-1"); ("name", Str "Blog")]])].

(** A host that parses the two files under their names. *)
Definition reading : Host :=
  {| Number := TestHost.number; String_ := TestHost.render;
     JSON_parse := fun content =>
       if bool_decide (content = "flatV2") then Some flatV2Document
       else if bool_decide (content = "unversioned") then Some unversionedDocument
       else TestHost.parse content;
     JSON_stringify := TestHost.stringify |}.

(** The repository holds the document named [content], and the loader of
    the collections answers as the spec says. *)
Definition specified (content : string) : Dashboard.Services :=
  {| Dashboard.loadCollectionsFromPageelrc :=
       fun _ => @specifiedLoader reading (TestHost.serving content);
     Dashboard.workspacePresent := true;
     Dashboard.getFileContent := fun _ => Ok content;
     Dashboard.findProductionUrl := Ok None;
     Dashboard.scanForContentDirectories := Ok [];
     Dashboard.scanForImageDirectories := Ok [] |}.

End TestPage.

(** * Properties *)

(** ** Schema and validation *)

Lemma passes_or_unknown_known key validator value :
  SETTINGS_SCHEMA !! key = Some validator ->
  passes_or_unknown key value = validator value.
Proof. intros Hk. unfold passes_or_unknown. by rewrite Hk. Qed.

Lemma passes_or_unknown_unknown key value :
  SETTINGS_SCHEMA !! key = None -> passes_or_unknown key value = true.
Proof. intros Hk. unfold passes_or_unknown. by rewrite Hk. Qed.

Lemma every_true (check : string -> Value -> Result bool) (l : list (string * Value)) :
  every check l = Ok true <->
  forall key value, (key, value) ∈ l -> check key value = Ok true.
Proof.
  induction l as [|[k v] l IH]; cbn [every].
  - split; [|done]. intros _ key value Hin. by apply elem_of_nil in Hin.
  - split.
    + intros Hall key value [Heq|Hin]%elem_of_cons.
      * injection Heq as -> ->. by destruct (check k v) as [[|]|].
      * apply IH; [|done]. by destruct (check k v) as [[|]|].
    + intros Hall. rewrite (Hall k v) by left. apply IH.
      intros key value Hin. apply Hall. by right.
Qed.

Lemma every_without_throw (check : string -> Value -> Result bool)
    (passes : string -> Value -> bool) (l : list (string * Value)) :
  (forall key value, (key, value) ∈ l -> check key value = Ok (passes key value)) ->
  every check l = Ok (forallb (fun kv => passes kv.1 kv.2) l).
Proof.
  induction l as [|[k v] l IH]; intros Hl; [done|].
  cbn [every forallb fst snd]. rewrite (Hl k v) by left.
  destruct (passes k v); [|done]. apply IH. intros key value Hin. apply Hl. by right.
Qed.

Lemma validateSettings_true (s : Settings) :
  validateSettings s = Ok true <->
  forall key value, s !! key = Some value -> checks key value = Ok true.
Proof.
  unfold validateSettings. rewrite every_true. split.
  - intros Hall key value Hs. by apply Hall, elem_of_map_to_list.
  - intros Hall key value Hin. by apply Hall, elem_of_map_to_list.
Qed.

Lemma checks_known key validator value :
  SETTINGS_SCHEMA !! key = Some validator -> checks key value = Ok (validator value).
Proof. intros Hk. unfold checks. by rewrite Hk. Qed.

Lemma checks_known_and_passes key value :
  known_and_passes key value = true -> checks key value = Ok true.
Proof.
  unfold known_and_passes, checks.
  destruct (SETTINGS_SCHEMA !! key); [by intros ->|done].
Qed.

Lemma checks_own key value :
  inherited key value = None -> checks key value = Ok (passes_or_unknown key value).
Proof.
  intros Hown. unfold checks, passes_or_unknown.
  destruct (SETTINGS_SCHEMA !! key); [done|]. by rewrite Hown.
Qed.

(** Away from the names that the schema inherits, [validateSettings] does
    what its every-validator walk says: it answers true exactly when every
    key with a validator holds a value the validator accepts, and a key
    without a validator never matters. *)
Lemma validateSettings_present_keys (s : Settings) :
  (forall key value, s !! key = Some value -> inherited key value = None) ->
  (validateSettings s = Ok true <->
   forall key value validator,
     s !! key = Some value -> SETTINGS_SCHEMA !! key = Some validator ->
     validator value = true)
  /\ (forall key value,
       SETTINGS_SCHEMA !! key = None -> inherited key value = None ->
       validateSettings (<[key := value]> s) = Ok true <-> validateSettings s = Ok true).
Proof.
  intros Hown. split.
  - rewrite validateSettings_true. split.
    + intros Hall key value validator Hs Hk.
      specialize (Hall key value Hs). rewrite (checks_known _ _ _ Hk) in Hall.
      by injection Hall.
    + intros Hall key value Hs. rewrite (checks_own _ _ (Hown _ _ Hs)).
      unfold passes_or_unknown.
      destruct (SETTINGS_SCHEMA !! key) as [validator|] eqn:Hk; [|done].
      by rewrite (Hall key value validator).
  - intros key value Hk Hplain.
    assert (checks key value = Ok true) as Hpass.
    { rewrite (checks_own _ _ Hplain). by rewrite passes_or_unknown_unknown. }
    rewrite !validateSettings_true. split.
    + intros Hall k v Hs. destruct (decide (k = key)) as [->|Hne].
      * rewrite (checks_own _ _ (Hown _ _ Hs)). by rewrite passes_or_unknown_unknown.
      * apply Hall. by rewrite lookup_insert_ne.
    + intros Hall k v. destruct (decide (k = key)) as [->|Hne].
      * rewrite lookup_insert_eq. by intros [= <-].
      * rewrite lookup_insert_ne by done. apply Hall.
Qed.

(** C7. A key that the schema does not have can still make [validateSettings]
    answer false, or throw: [SETTINGS_SCHEMA[key]] also finds what the schema
    object inherits. With a valid posts path and a string under
    [isPrototypeOf], a name the schema has no validator for, the answer is
    false, though it is true for the posts path alone; with a number under
    [hasOwnProperty] the call throws. *)
Theorem validateSettings_inherited_member :
  SETTINGS_SCHEMA !! "isPrototypeOf" = None
  /\ SETTINGS_SCHEMA !! "hasOwnProperty" = None
  /\ validateSettings {["postsPath" := Str "content"]} = Ok true
  /\ validateSettings {["postsPath" := Str "content"; "isPrototypeOf" := Str "x"]} = Ok false
  /\ validateSettings {["postsPath" := Str "content"; "hasOwnProperty" := Num 1]}
     = Throws typeError.
Proof. split_and!; by vm_compute. Qed.

(** C9. The defaults are valid: [validateSettings] accepts them, every one
    of their fields has a validator and passes it, the size and width lie in
    their ranges, the four commit templates are shorter than 200 characters,
    and the project type and the date source belong to their enumerations. *)
Theorem DEFAULT_SETTINGS_valid :
  validateSettings DEFAULT_SETTINGS = Ok true
  /\ Forall (fun kv => exists validator,
                SETTINGS_SCHEMA !! kv.1 = Some validator /\ validator kv.2 = true)
            DEFAULT_SETTINGS_entries
  /\ number_between 10 1024 (prop DEFAULT_SETTINGS "maxImageSize") = true
  /\ number_between 0 10000 (prop DEFAULT_SETTINGS "imageResizeMaxWidth") = true
  /\ Forall (fun key => string_shorter 200 (prop DEFAULT_SETTINGS key) = true)
            ["newPostCommit"; "updatePostCommit"; "newImageCommit"; "updateImageCommit"]
  /\ string_in ["astro"; "github"] (prop DEFAULT_SETTINGS "projectType") = true
  /\ string_in ["file"; "system"] (prop DEFAULT_SETTINGS "publishDateSource") = true.
Proof.
  split; [by vm_compute|].
  split; [repeat constructor; eexists; split; by vm_compute|].
  repeat split; try (by vm_compute).
  repeat constructor; by vm_compute.
Qed.

(** ** The settings store *)

(** C10. A partial patch leaves every settings field it does not mention at
    its previous value, and leaves the loading, saving, success and
    setup-complete flags alone. *)
Theorem setSettings_patch_frame (patch : Settings) (state : SettingsState) :
  (forall key, patch !! key = None ->
     settings (setSettings (Patch patch) state) !! key = settings state !! key)
  /\ isLoading (setSettings (Patch patch) state) = isLoading state
  /\ isSaving (setSettings (Patch patch) state) = isSaving state
  /\ saveSuccess (setSettings (Patch patch) state) = saveSuccess state
  /\ isSetupComplete (setSettings (Patch patch) state) = isSetupComplete state.
Proof.
  repeat split. intros key Hkey. simpl. unfold spread.
  by rewrite lookup_union_r.
Qed.

Lemma setSettings_patch_written (patch : Settings) (state : SettingsState) key value :
  patch !! key = Some value ->
  settings (setSettings (Patch patch) state) !! key = Some value.
Proof. intros Hkey. simpl. unfold spread. by apply lookup_union_Some_l. Qed.

(** ** The application store *)

(** C8, as the code has it. With an explicit progress the scan progress is
    that value; without one it is 50 for a phase that is a non-empty string,
    and 0 for a null phase and for the empty string. *)
Theorem setScanPhase_progress (state : AppState) :
  (forall phase p, scanProgress (setScanPhase phase (Some p) state) = p)
  /\ (forall message, message <> "" ->
        scanProgress (setScanPhase (Some message) None state) = 50%float)
  /\ scanProgress (setScanPhase None None state) = 0%float
  /\ scanProgress (setScanPhase (Some "") None state) = 0%float.
Proof.
  repeat split. intros message Hne. simpl.
  by rewrite bool_decide_eq_false_2.
Qed.

(** C8, as stated, fails: the empty string is a phase that is not null, and
    the progress it gets by default is 0, not 50. *)
Lemma setScanPhase_empty_message_is_zero :
  scanPhase (setScanPhase (Some "") None (AppStore.initial "dashboard")) = Some ""
  /\ scanProgress (setScanPhase (Some "") None (AppStore.initial "dashboard")) = 0%float
  /\ PrimFloat.eqb 0 50 = false.
Proof. repeat split. Qed.

(** ** The sync lock *)

Lemma startSync_locks message (state : AppState) :
  isSyncing (startSync message state) = true
  /\ syncMessage (startSync message state) = Some (messageOrDefault message).
Proof. done. Qed.

Lemma endSync_unlocks (state : AppState) :
  isSyncing (endSync state) = false /\ syncMessage (endSync state) = None.
Proof. done. Qed.

Lemma withSyncLock_busy {R T} (operation : Operation R T) message (w : AppState * R) :
  isSyncing w.1 = true ->
  withSyncLock operation message w = (Rejected busyError, w).
Proof. intros Hbusy. unfold withSyncLock. by rewrite Hbusy. Qed.

Lemma withSyncLock_free {R T} (operation : Operation R T) message (w : AppState * R) c w' :
  isSyncing w.1 = false ->
  operation (startSync message w.1, w.2) = (c, w') ->
  withSyncLock operation message w =
    (c, if settled c then (endSync w'.1, w'.2) else w').
Proof.
  intros Hfree Hop. unfold withSyncLock. rewrite Hfree, Hop. by destruct c.
Qed.

(** C1. A call that finds the flag set is rejected with the busy error and
    leaves everything as it was, whatever the operation would have done.
    A call that finds it clear runs the operation on the store with the flag
    set and the message in place; when the operation settles, by resolving or
    by rejecting, the call ends the same way with the flag and the message
    cleared, and the next call runs its own operation. *)
Theorem withSyncLock_exclusive {R T} (operation : Operation R T) message
    (w : AppState * R) :
  (isSyncing w.1 = true ->
     withSyncLock operation message w = (Rejected busyError, w))
  /\ (isSyncing w.1 = false ->
      forall c w', operation (startSync message w.1, w.2) = (c, w') ->
        isSyncing (startSync message w.1) = true
        /\ syncMessage (startSync message w.1) = Some (messageOrDefault message)
        /\ (settled c = true ->
            exists after,
              withSyncLock operation message w = (c, after)
              /\ after = (endSync w'.1, w'.2)
              /\ isSyncing after.1 = false
              /\ syncMessage after.1 = None
              /\ forall (T' : Type) (next : Operation R T') message',
                   (withSyncLock next message' after).1
                   = (next (startSync message' after.1, after.2)).1)).
Proof.
  split; [apply withSyncLock_busy|].
  intros Hfree c w' Hop. repeat split.
  intros Hsettled. exists (endSync w'.1, w'.2).
  rewrite (withSyncLock_free _ _ _ _ _ Hfree Hop), Hsettled.
  repeat split.
  intros T' next message'. unfold withSyncLock. simpl.
  destruct (next _) as [c2 w2]. by destruct c2.
Qed.

(** While an operation is in flight the flag it was given is set, so a
    second call made then is rejected and changes nothing. *)
Lemma withSyncLock_second_call_rejected {R T'} (second : Operation R T') message message'
    (state : AppState) (r : R) :
  withSyncLock second message' (startSync message state, r)
  = (Rejected busyError, (startSync message state, r)).
Proof. by apply withSyncLock_busy. Qed.

(** An operation that never settles keeps the lock. *)
Lemma withSyncLock_pending {R T} (operation : Operation R T) message (w : AppState * R) w' :
  isSyncing w.1 = false ->
  operation (startSync message w.1, w.2) = (Pending, w') ->
  withSyncLock operation message w = (Pending, w').
Proof. intros Hfree Hop. by rewrite (withSyncLock_free _ _ _ _ _ Hfree Hop). Qed.

(** ** Loading the cache *)

Section Cache.
Context `{Host}.

Lemma known_key_has_validator key value :
  key ∈ DEFAULT_SETTINGS_keys ->
  passes_or_unknown key value = known_and_passes key value.
Proof.
  intros Hin. unfold DEFAULT_SETTINGS_keys, DEFAULT_SETTINGS_entries in Hin.
  cbn [fmap list_fmap fst] in Hin.
  rewrite !elem_of_cons, elem_of_nil in Hin.
  destruct_or!; subst; try reflexivity; done.
Qed.

(** A [forEach] that stores the valid cached value of each key. *)
Lemma foldl_cached_lookup (storage : gmap string string) (storageKey : string -> string)
    (step : Settings -> string -> Settings) (l : list string) (acc : Settings) key :
  (forall acc k, step acc k =
     match cachedValid storage (storageKey k) k with
     | Some v => <[k := v]> acc
     | None => acc
     end) ->
  foldl step acc l !! key =
    match (if bool_decide (key ∈ l) then cachedValid storage (storageKey key) key else None) with
    | Some v => Some v
    | None => acc !! key
    end.
Proof.
  intros Hstep. revert acc. induction l as [|k l IH]; intros acc; simpl.
  - done.
  - rewrite IH, Hstep.
    destruct (decide (key = k)) as [->|Hne].
    + rewrite (bool_decide_eq_true_2 (k ∈ k :: l)) by left.
      destruct (cachedValid storage (storageKey k) k) as [v|] eqn:Hv.
      * rewrite lookup_insert_eq. by case_bool_decide.
      * by case_bool_decide.
    + assert (bool_decide (key ∈ k :: l) = bool_decide (key ∈ l)) as ->.
      { apply bool_decide_ext. rewrite elem_of_cons. split; [by intros [?|?] | by right]. }
      destruct (if bool_decide (key ∈ l) then _ else _); [done|].
      destruct (cachedValid storage (storageKey k) k); [|done].
      by rewrite lookup_insert_ne.
Qed.

Lemma loadOne_cached (storage : gmap string string) repoId acc k :
  loadOne storage repoId acc k =
    match cachedValid storage (storageKeyOf k repoId) k with
    | Some v => <[k := v]> acc
    | None => acc
    end.
Proof.
  unfold loadOne, cachedValid.
  destruct (storage !! _); [|done]. by destruct (passes_or_unknown _ _).
Qed.

Lemma cacheOne_cached (storage : gmap string string) prefix acc k :
  cacheOne storage prefix acc k =
    match cachedValid storage (scoped k prefix) k with
    | Some v => <[k := v]> acc
    | None => acc
    end.
Proof.
  unfold cacheOne, cachedValid.
  destruct (storage !! _); [|done]. by destruct (passes_or_unknown _ _).
Qed.

Lemma loadedFromCache_lookup (storage : gmap string string) repoId key :
  loadedFromCache storage repoId !! key =
    if bool_decide (key ∈ DEFAULT_SETTINGS_keys)
    then cachedValid storage (storageKeyOf key repoId) key
    else None.
Proof.
  unfold loadedFromCache.
  rewrite (foldl_cached_lookup storage (fun k => storageKeyOf k repoId))
    by apply loadOne_cached.
  rewrite lookup_empty. by destruct (if bool_decide _ then _ else _).
Qed.

Lemma readCache_lookup (storage : gmap string string) prefix key :
  readCache storage prefix !! key =
    if bool_decide (key ∈ keys)
    then cachedValid storage (scoped key prefix) key
    else None.
Proof.
  unfold readCache.
  rewrite (foldl_cached_lookup storage (fun k => scoped k prefix))
    by apply cacheOne_cached.
  rewrite lookup_empty. by destruct (if bool_decide _ then _ else _).
Qed.

Lemma loadSettings_settings (storage : gmap string string) repoId state :
  settings (loadSettings storage repoId state)
  = spread (settings state) (loadedFromCache storage repoId).
Proof. unfold loadSettings. simpl. by destruct (_ && _). Qed.

(** C6. [loadSettings] reads every key of the defaults under its storage key
    (scoped by the repository for the four repository keys, bare for the
    others), decodes the entry (the two boolean literals, then what converts
    to a number other than NaN and is not empty, else the string itself) and
    stores the decoded value exactly when the field's validator accepts it;
    every other field keeps its previous value, whatever the other entries
    hold. *)
Theorem loadSettings_valid_subset (storage : gmap string string) (repoId : string)
    (state : SettingsState) :
  (decode "true" = Bool true
   /\ decode "false" = Bool false
   /\ forall stored, stored <> "true" -> stored <> "false" ->
        decode stored =
          if negb (PrimFloat.is_nan (Number stored)) && negb (bool_decide (stored = ""))
          then Num (Number stored) else Str stored)
  /\ (forall key,
        storageKeyOf key repoId =
          if bool_decide (key ∈ ["projectType"; "postsPath"; "imagesPath"; "domainUrl"])
          then key +:+ "_" +:+ repoId else key)
  /\ (forall key,
        settings (loadSettings storage repoId state) !! key =
          if bool_decide (key ∈ DEFAULT_SETTINGS_keys) then
            match storage !! storageKeyOf key repoId with
            | Some stored =>
                if known_and_passes key (decode stored) then Some (decode stored)
                else settings state !! key
            | None => settings state !! key
            end
          else settings state !! key).
Proof.
  split; [|split].
  - repeat split. intros stored Ht Hf. unfold decode.
    rewrite (bool_decide_eq_false_2 (stored = "true")) by done.
    by rewrite (bool_decide_eq_false_2 (stored = "false")) by done.
  - done.
  - intros key. rewrite loadSettings_settings. unfold spread.
    rewrite lookup_union, loadedFromCache_lookup.
    case_bool_decide as Hin.
    + unfold cachedValid. destruct (storage !! _) as [stored|].
      * rewrite (known_key_has_validator _ _ Hin).
        destruct (known_and_passes _ _); simpl.
        -- by destruct (settings state !! key).
        -- by destruct (settings state !! key).
      * by destruct (settings state !! key).
    + by destruct (settings state !! key).
Qed.

End Cache.

(** ** The remote merge *)

Lemma applyIfValid_lookup_eq key value (d : Settings) :
  applyIfValid key value d !! key =
    if negb (is_undefined value) && known_and_passes key value then Some value
    else d !! key.
Proof.
  unfold applyIfValid. destruct (_ && _); [|done]. by rewrite lookup_insert_eq.
Qed.

Lemma applyIfValid_lookup_ne key value (d : Settings) k :
  k <> key -> applyIfValid key value d !! k = d !! k.
Proof.
  intros Hne. unfold applyIfValid. destruct (_ && _); [|done].
  by rewrite lookup_insert_ne.
Qed.

(** Reading a member of a missing object gives [undefined], as [?.] does. *)
Lemma get_opt_get v k : get_opt v k = get v k.
Proof. unfold get_opt. by destruct v. Qed.

(** The table, spelled out on one field of each kind. *)
Lemma remote_sources_spelled_out (config : Value) :
  (RemoteFields.remoteValue config "domainUrl" = get config "domainUrl"
   /\ RemoteFields.guardOpen config "domainUrl" = truthy (get config "domainUrl"))
  /\ (RemoteFields.remoteValue config "postsPath" = get_opt (get config "paths") "posts"
      /\ RemoteFields.guardOpen config "postsPath"
         = truthy (get_opt (get config "paths") "posts"))
  /\ (RemoteFields.remoteValue config "maxImageSize"
      = get_opt (get config "settings") "maxImageSize"
      /\ RemoteFields.guardOpen config "maxImageSize" = truthy (get config "settings"))
  /\ (RemoteFields.remoteValue config "newPostCommit"
      = get_opt (get config "commits") "newPost"
      /\ RemoteFields.guardOpen config "newPostCommit" = truthy (get config "commits"))
  /\ (RemoteFields.remoteValue config "postTemplate" = Undefined
      /\ RemoteFields.guardOpen config "postTemplate" = false).
Proof. repeat split; first [reflexivity | rewrite get_opt_get; reflexivity]. Qed.

Lemma mergeOne_group_open config (d : Settings) key group name :
  truthy (get config group) = true ->
  RemoteFields.mergeOne config d (key, RemoteFields.UnderGroup group name)
  = applyIfValid key (get (get config group) name) d.
Proof. intros Hg. unfold RemoteFields.mergeOne. simpl. by rewrite Hg. Qed.

Lemma mergeOne_group_closed config (d : Settings) key group name :
  truthy (get config group) = false ->
  RemoteFields.mergeOne config d (key, RemoteFields.UnderGroup group name) = d.
Proof. intros Hg. unfold RemoteFields.mergeOne. simpl. by rewrite Hg. Qed.

(** The three blocks of the source are the pass over the table. *)
Lemma mergeRemoteConfig_by_sources (config : Value) (draft : Settings) :
  mergeRemoteConfig config draft = RemoteFields.mergeBySources config draft.
Proof.
  unfold RemoteFields.mergeBySources, RemoteFields.sources. cbn [foldl].
  unfold mergeRemoteConfig, mergeCommits, mergeTechnical.
  change (mergePaths config draft) with
    (RemoteFields.mergeOne config
       (RemoteFields.mergeOne config
          (RemoteFields.mergeOne config
             (RemoteFields.mergeOne config draft
                ("projectType", RemoteFields.TopLevel "projectType"))
             ("postsPath", RemoteFields.UnderPaths "posts"))
          ("imagesPath", RemoteFields.UnderPaths "images"))
       ("domainUrl", RemoteFields.TopLevel "domainUrl")).
  destruct (truthy (get config "settings")) eqn:Hs;
    destruct (truthy (get config "commits")) eqn:Hc;
    rewrite ?(mergeOne_group_open _ _ _ "settings") by done;
    rewrite ?(mergeOne_group_closed _ _ _ "settings") by done;
    rewrite ?(mergeOne_group_open _ _ _ "commits") by done;
    rewrite ?(mergeOne_group_closed _ _ _ "commits") by done;
    reflexivity.
Qed.

Lemma foldl_mergeOne_lookup (config : Value) (l : list (string * RemoteFields.Source))
    (draft : Settings) key :
  NoDup l.*1 ->
  foldl (RemoteFields.mergeOne config) draft l !! key =
    match (list_to_map l : gmap string RemoteFields.Source) !! key with
    | Some src =>
        if RemoteFields.guardAt config src
           && negb (is_undefined (RemoteFields.valueAt config src))
           && known_and_passes key (RemoteFields.valueAt config src)
        then Some (RemoteFields.valueAt config src)
        else draft !! key
    | None => draft !! key
    end.
Proof.
  revert draft. induction l as [|[k src] l IH]; intros draft Hnodup.
  - done.
  - apply NoDup_cons in Hnodup as [Hfresh Hnodup].
    cbn [foldl list_to_map foldr]. rewrite (IH _ Hnodup).
    unfold RemoteFields.mergeOne at 1 2. cbn [fst snd].
    destruct (decide (key = k)) as [->|Hne].
    + rewrite lookup_insert_eq, (not_elem_of_list_to_map_1 _ _ Hfresh).
      destruct (RemoteFields.guardAt config src); [|done].
      by rewrite applyIfValid_lookup_eq.
    + rewrite lookup_insert_ne by done.
      assert ((if RemoteFields.guardAt config src
               then applyIfValid k (RemoteFields.valueAt config src) draft
               else draft) !! key = draft !! key) as ->; [|done].
      destruct (RemoteFields.guardAt config src); [|done].
      by apply applyIfValid_lookup_ne.
Qed.

Lemma sources_NoDup : NoDup RemoteFields.sources.*1.
Proof. apply (bool_decide_unpack _). by vm_compute. Qed.

(** The merge of the remote file, field by field (see [RemoteFields]). *)
Lemma mergeRemoteConfig_lookup (config : Value) (draft : Settings) (key : string) :
  mergeRemoteConfig config draft !! key =
    if RemoteFields.merged config key then Some (RemoteFields.remoteValue config key)
    else draft !! key.
Proof.
  rewrite mergeRemoteConfig_by_sources. unfold RemoteFields.mergeBySources.
  rewrite (foldl_mergeOne_lookup _ _ _ _ sources_NoDup).
  unfold RemoteFields.merged, RemoteFields.guardOpen, RemoteFields.remoteValue,
    RemoteFields.sourceOf.
  destruct (list_to_map RemoteFields.sources !! key) as [src|]; [|done].
  simpl. by destruct (RemoteFields.guardAt config src).
Qed.

(** C4, as the code has it. After the merge of the parsed remote file, a
    setting holds the remote value exactly when the guard in front of it is
    open (the value is truthy, for the project type, the two paths and the
    domain; the enclosing [settings] or [commits] object is truthy, for the
    others), the value is not undefined and the field's validator accepts it;
    otherwise it holds what the draft held. Each field is decided on its own
    value. *)
Theorem mergeRemoteConfig_field (config : Value) (draft : Settings) (key : string) :
  mergeRemoteConfig config draft !! key =
    if RemoteFields.merged config key then Some (RemoteFields.remoteValue config key)
    else draft !! key.
Proof.
  rewrite mergeRemoteConfig_by_sources. unfold RemoteFields.mergeBySources.
  rewrite (foldl_mergeOne_lookup _ _ _ _ sources_NoDup).
  unfold RemoteFields.merged, RemoteFields.guardOpen, RemoteFields.remoteValue,
    RemoteFields.sourceOf.
  destruct (list_to_map RemoteFields.sources !! key) as [src|]; [|done].
  simpl. by destruct (RemoteFields.guardAt config src).
Qed.

(** C4, as stated, fails: an empty domain in the remote file passes the
    validator of [domainUrl], yet the draft keeps its cached domain. *)
Lemma mergeRemoteConfig_skips_valid_empty_domain :
  known_and_passes "domainUrl" (get (Obj [("domainUrl", Str "")]) "domainUrl") = true
  /\ mergeRemoteConfig (Obj [("domainUrl", Str "")])
       {["domainUrl" := Str "https://old.example"]} !! "domainUrl"
     = Some (Str "https://old.example").
Proof. split; by vm_compute. Qed.

(** ** The bootstrap *)

Section Bootstrap.
Context `{Host}.

Lemma refreshCollections_calls (gitService : Services) repo (w : World) :
  exists extra,
    calls (refreshCollections gitService repo w) = (calls w ++ extra)%list
    /\ filter isScanCall extra = []
    /\ filter isSetCollections extra =
         match collectionsToInstall gitService repo with
         | Some cs => [SetCollections cs]
         | None => []
         end.
Proof.
  unfold refreshCollections, collectionsToInstall.
  destruct (loadCollectionsFromPageelrc gitService repo) as [d|]; simpl.
  - destruct (collections d) as [|c cs] eqn:Hcs; simpl.
    + eexists. rewrite <- !app_assoc. by split.
    + destruct (workspacePresent gitService); simpl.
      * destruct (sharedSettings d); simpl; eexists; rewrite <- !app_assoc; by split.
      * eexists. rewrite <- !app_assoc. by split.
  - eexists. rewrite <- !app_assoc. by split.
Qed.

Lemma refreshCollections_stores (gitService : Services) repo (w : World) :
  settingsStore (refreshCollections gitService repo w) = settingsStore w
  /\ localStorage (refreshCollections gitService repo w) = localStorage w.
Proof.
  unfold refreshCollections.
  destruct (loadCollectionsFromPageelrc gitService repo) as [d|]; [|done].
  destruct (bool_decide _); [|done].
  destruct (workspacePresent gitService); [|done].
  by destruct (sharedSettings d).
Qed.

Lemma scanSteps_setup (gitService : Services) settings (w : World) :
  isSetupComplete (settingsStore (scanSteps gitService settings w).2)
  = isSetupComplete (settingsStore w).
Proof.
  unfold scanSteps.
  destruct (truthy (prop settings "domainUrl")); simpl.
  - destruct (scanForContentDirectories gitService) as [[|? ?]|]; simpl; [| |done];
      by destruct (scanForImageDirectories gitService) as [[|? ?]|].
  - destruct (findProductionUrl gitService) as [[url|]|]; simpl; [| |done].
    + destruct (negb (bool_decide (url = ""))); simpl;
        destruct (scanForContentDirectories gitService) as [[|? ?]|]; simpl; try done;
        by destruct (scanForImageDirectories gitService) as [[|? ?]|].
    + destruct (scanForContentDirectories gitService) as [[|? ?]|]; simpl; [| |done];
        by destruct (scanForImageDirectories gitService) as [[|? ?]|].
Qed.

Lemma scanRepository_setup (gitService : Services) settings (w : World) :
  isSetupComplete (settingsStore (scanRepository gitService settings w))
  = isSetupComplete (settingsStore w).
Proof.
  unfold scanRepository. rewrite <- (scanSteps_setup gitService settings w).
  destruct (scanSteps gitService settings w) as [[?|?] ?]; done.
Qed.

Lemma scanRepository_not_cached (gitService : Services) settings (w : World) :
  scanPhase (appStore (scanRepository gitService settings w)) <> Some "Using cached settings".
Proof.
  unfold scanRepository, scanSteps.
  destruct (truthy (prop settings "domainUrl")); simpl.
  - destruct (scanForContentDirectories gitService) as [[|? ?]|]; simpl; [| |done];
      by destruct (scanForImageDirectories gitService) as [[|? ?]|].
  - destruct (findProductionUrl gitService) as [[url|]|]; simpl; [| |done].
    + destruct (negb (bool_decide (url = ""))); simpl;
        destruct (scanForContentDirectories gitService) as [[|? ?]|]; simpl; try done;
        by destruct (scanForImageDirectories gitService) as [[|? ?]|].
    + destruct (scanForContentDirectories gitService) as [[|? ?]|]; simpl; [| |done];
        by destruct (scanForImageDirectories gitService) as [[|? ?]|].
Qed.

Lemma scanRepository_success (gitService : Services) settings (w : World) :
  scanSucceeds gitService settings = true ->
  scanPhase (appStore (scanRepository gitService settings w)) = Some "Scan complete"
  /\ scanProgress (appStore (scanRepository gitService settings w)) = 100%float
  /\ isScanning (appStore (scanRepository gitService settings w)) = false.
Proof.
  unfold scanSucceeds, scanRepository, scanSteps.
  destruct (truthy (prop settings "domainUrl")); simpl.
  - destruct (scanForContentDirectories gitService) as [[|? ?]|]; simpl; [| |done];
      by destruct (scanForImageDirectories gitService) as [[|? ?]|].
  - destruct (findProductionUrl gitService) as [[url|]|]; simpl; [| |done].
    + destruct (negb (bool_decide (url = ""))); simpl;
        destruct (scanForContentDirectories gitService) as [[|? ?]|]; simpl; try done;
        by destruct (scanForImageDirectories gitService) as [[|? ?]|].
    + destruct (scanForContentDirectories gitService) as [[|? ?]|]; simpl; [| |done];
        by destruct (scanForImageDirectories gitService) as [[|? ?]|].
Qed.

Lemma call_assoc_tail (l extra : list Call) c : ((l ++ extra) ++ [c])%list = (l ++ (extra ++ [c]))%list.
Proof. by rewrite app_assoc. Qed.

Lemma beforeRemote_spec (gitService : Services) repo (w : World) :
  (beforeRemote gitService repo w).1 = withDefaultWidth (readCache (localStorage w) repo)
  /\ isSetupComplete (settingsStore (beforeRemote gitService repo w).2)
     = isSetupComplete (settingsStore w)
  /\ settings (settingsStore (beforeRemote gitService repo w).2)
     = spread (settings (settingsStore w)) (withDefaultWidth (readCache (localStorage w) repo))
  /\ exists extra,
       calls (beforeRemote gitService repo w).2 = (calls w ++ extra)%list
       /\ filter isScanCall extra = []
       /\ filter isSetCollections extra =
            match collectionsToInstall gitService repo with
            | Some cs => [SetCollections cs]
            | None => []
            end.
Proof.
  unfold beforeRemote, loadLocalSettings. simpl.
  destruct (refreshCollections_stores gitService repo w) as [-> ->].
  repeat split.
  destruct (refreshCollections_calls gitService repo w) as (extra & -> & Hscan & Hset).
  exists (extra ++ [GetFileContent ".pageelrc.json"])%list.
  rewrite call_assoc_tail, !filter_app, Hscan, Hset. repeat split.
  by destruct (collectionsToInstall gitService repo).
Qed.

Lemma loadSettingsAndScan_routes (gitService : Services) repo settings (w : World) :
  loadSettingsAndScan gitService repo settings w =
    let loadedSettings := (beforeRemote gitService repo w).1 in
    let w1 := (beforeRemote gitService repo w).2 in
    match readRemote gitService with
    | Some config =>
        if truthy config then loadFromConfig repo settings loadedSettings config w1
        else afterRemote gitService settings loadedSettings w1
    | None =>
        afterRemote gitService settings loadedSettings
          (phase "No configuration found, scanning repository..." 50 w1)
    end.
Proof.
  unfold loadSettingsAndScan, beforeRemote. cbv zeta.
  destruct (loadLocalSettings repo (refreshCollections gitService repo w)) as [loaded w1].
  cbn [fst snd]. reflexivity.
Qed.

Lemma withDefaultWidth_other (loaded : Settings) key :
  key <> "imageResizeMaxWidth" -> prop (withDefaultWidth loaded) key = prop loaded key.
Proof.
  intros Hne. unfold withDefaultWidth, prop.
  destruct (is_undefined _); [|done]. by rewrite lookup_insert_ne.
Qed.

Lemma afterRemote_sufficient (gitService : Services) settings (storage : gmap string string)
    repo (w : World) :
  afterRemote gitService settings (withDefaultWidth (readCache storage repo)) w =
    if cacheSufficient storage repo
    then onApp (setScanning false)
           (onSettings (setSetupComplete true) (phase "Using cached settings" 100 w))
    else scanRepository gitService settings w.
Proof.
  unfold afterRemote, cacheSufficient. by rewrite !withDefaultWidth_other.
Qed.

Lemma readCache_valid (storage : gmap string string) prefix key value :
  readCache storage prefix !! key = Some value -> known_and_passes key value = true.
Proof.
  rewrite readCache_lookup. case_bool_decide as Hin; [|done].
  unfold cachedValid. destruct (storage !! _) as [stored|]; [|done].
  destruct (passes_or_unknown key (decode stored)) eqn:Hok; [|done].
  intros [= <-]. by rewrite <- (known_key_has_validator _ _ Hin).
Qed.

Lemma truthy_path (loaded : Settings) key :
  (forall value, loaded !! key = Some value -> is_string value = true) ->
  truthy (prop loaded key) = true <-> suppliesNonEmpty loaded key.
Proof.
  intros Hstr. unfold prop, suppliesNonEmpty.
  destruct (loaded !! key) as [value|] eqn:Hv; simpl.
  - specialize (Hstr value eq_refl). destruct value; try done. simpl.
    rewrite negb_true_iff, bool_decide_eq_false. split.
    + intros Hne. by exists s.
    + by intros (s' & Hne & [= ->]).
  - split; [done|]. by intros (? & ? & ?).
Qed.

Lemma cacheSufficient_iff (storage : gmap string string) prefix :
  cacheSufficient storage prefix = true <->
  suppliesNonEmpty (readCache storage prefix) "projectType"
  /\ suppliesNonEmpty (readCache storage prefix) "postsPath"
  /\ suppliesNonEmpty (readCache storage prefix) "imagesPath".
Proof.
  unfold cacheSufficient. rewrite !andb_true_iff, !truthy_path; [tauto|..].
  all: intros value Hv; apply readCache_valid in Hv; by destruct value.
Qed.

(** C5, as the code has it. When no usable remote file exists, the
    bootstrap marks setup complete and stops before the scan exactly when
    the cache gave the project type, the posts path and the images path
    values that are not empty; otherwise it runs the scan and leaves the
    setup flag as it found it. *)
Theorem cache_fallback_iff_nonempty (gitService : Services) (repo : string)
    (settings : Settings) (w : World) :
  usableRemote gitService = false ->
  (cacheSufficient (localStorage w) repo = true <->
     suppliesNonEmpty (readCache (localStorage w) repo) "projectType"
     /\ suppliesNonEmpty (readCache (localStorage w) repo) "postsPath"
     /\ suppliesNonEmpty (readCache (localStorage w) repo) "imagesPath")
  /\ (cacheSufficient (localStorage w) repo = true ->
      isSetupComplete (settingsStore (loadSettingsAndScan gitService repo settings w)) = true
      /\ scanPhase (appStore (loadSettingsAndScan gitService repo settings w))
         = Some "Using cached settings"
      /\ filter isScanCall (calls (loadSettingsAndScan gitService repo settings w))
         = filter isScanCall (calls w))
  /\ (cacheSufficient (localStorage w) repo = false ->
      isSetupComplete (settingsStore (loadSettingsAndScan gitService repo settings w))
      = isSetupComplete (settingsStore w)
      /\ scanPhase (appStore (loadSettingsAndScan gitService repo settings w))
         <> Some "Using cached settings"
      /\ exists w1, loadSettingsAndScan gitService repo settings w
                    = scanRepository gitService settings w1).
Proof.
  intros Hremote. split; [apply cacheSufficient_iff|].
  rewrite loadSettingsAndScan_routes. cbv zeta.
  destruct (beforeRemote_spec gitService repo w)
    as (Hloaded & Hsetup & _ & extra & Hcalls & Hscan & _).
  destruct (beforeRemote gitService repo w) as [loaded w1].
  cbn [fst snd] in *. subst loaded. unfold usableRemote in Hremote.
  assert (filter isScanCall (calls w1) = filter isScanCall (calls w)) as Hsame.
  { by rewrite Hcalls, filter_app, Hscan, app_nil_r. }
  split; intros Hsuff.
  - destruct (readRemote gitService) as [config|]; [rewrite Hremote|];
      rewrite afterRemote_sufficient, Hsuff; by repeat split.
  - destruct (readRemote gitService) as [config|]; [rewrite Hremote|];
      rewrite afterRemote_sufficient, Hsuff;
      (split; [by rewrite scanRepository_setup|]);
      (split; [apply scanRepository_not_cached | by eexists]).
Qed.

Lemma cacheSufficient_empty (storage : gmap string string) prefix :
  (forall key, key ∈ keys -> storage !! scoped key prefix = None) ->
  cacheSufficient storage prefix = false.
Proof.
  intros Hempty. unfold cacheSufficient, prop.
  rewrite (readCache_lookup storage prefix "projectType").
  rewrite bool_decide_eq_true_2 by (unfold keys; set_solver).
  unfold cachedValid. rewrite Hempty by (unfold keys; set_solver). done.
Qed.

Lemma loadFromConfig_spec prefix settings loaded config (w : World) :
  isSetupComplete (settingsStore (loadFromConfig prefix settings loaded config w)) = true
  /\ isScanning (appStore (loadFromConfig prefix settings loaded config w)) = false
  /\ calls (loadFromConfig prefix settings loaded config w) = calls w
  /\ SettingsStore.settings (settingsStore (loadFromConfig prefix settings loaded config w))
     = spread (SettingsStore.settings (settingsStore w)) (mergeRemoteConfig config (spread settings loaded)).
Proof. done. Qed.

(** C2. With a usable remote file the bootstrap ends with setup complete and
    the scan indicator off, and its log gains no call to the three scan
    collaborators. With no remote file, nothing cached for the repository and
    a scan whose collaborators all answer, the bootstrap ends on
    "Scan complete" and the setup flag is what it was before: the scan never
    sets it. *)
Theorem setup_gate (gitService : Services) (repo : string) (settings : Settings)
    (w : World) :
  (usableRemote gitService = true ->
     isSetupComplete (settingsStore (loadSettingsAndScan gitService repo settings w)) = true
     /\ isScanning (appStore (loadSettingsAndScan gitService repo settings w)) = false
     /\ filter isScanCall (calls (loadSettingsAndScan gitService repo settings w))
        = filter isScanCall (calls w))
  /\ (isOk (getFileContent gitService ".pageelrc.json") = false ->
      (forall key, key ∈ keys -> localStorage w !! scoped key repo = None) ->
      scanSucceeds gitService settings = true ->
      isSetupComplete (settingsStore (loadSettingsAndScan gitService repo settings w))
      = isSetupComplete (settingsStore w)
      /\ scanPhase (appStore (loadSettingsAndScan gitService repo settings w))
         = Some "Scan complete"
      /\ scanProgress (appStore (loadSettingsAndScan gitService repo settings w)) = 100%float
      /\ isScanning (appStore (loadSettingsAndScan gitService repo settings w)) = false).
Proof.
  rewrite loadSettingsAndScan_routes. cbv zeta.
  destruct (beforeRemote_spec gitService repo w)
    as (Hloaded & Hsetup & _ & extra & Hcalls & Hscan & _).
  destruct (beforeRemote gitService repo w) as [loaded w1].
  cbn [fst snd] in *. subst loaded. split.
  - unfold usableRemote. intros Husable.
    destruct (readRemote gitService) as [config|]; [|done]. rewrite Husable.
    destruct (loadFromConfig_spec repo settings
                (withDefaultWidth (readCache (localStorage w) repo)) config w1)
      as (-> & -> & -> & _).
    by rewrite Hcalls, filter_app, Hscan, app_nil_r.
  - intros Hfetch Hempty Hscanok.
    assert (readRemote gitService = None) as ->.
    { unfold readRemote. by destruct (getFileContent gitService ".pageelrc.json"). }
    rewrite afterRemote_sufficient, (cacheSufficient_empty _ _ Hempty).
    rewrite scanRepository_setup.
    split; [done|]. by apply scanRepository_success.
Qed.

(** *** Which documents count as version 2 *)

Lemma assoc_put_ne k k' v props : k <> k' -> assoc k (put k' v props) = assoc k props.
Proof.
  intros Hne. induction props as [|[k0 v0] props IH]; simpl.
  - by rewrite bool_decide_eq_false_2.
  - case_bool_decide as Hk0; simpl.
    + subst k0. by rewrite !(bool_decide_eq_false_2 (k = k')).
    + by rewrite IH.
Qed.

Lemma assoc_filter_ne k k' props :
  k <> k' -> assoc k (filter (fun kv => kv.1 <> k') props) = assoc k props.
Proof.
  intros Hne. induction props as [|[k0 v0] props IH]; [done|].
  rewrite filter_cons. simpl. case_decide as Hk0; simpl.
  - by rewrite IH.
  - simpl in Hk0. subst k0. by rewrite bool_decide_eq_false_2.
Qed.

Lemma hasCollections_iff doc :
  hasCollections doc = true <-> exists first rest, get doc "collections" = Arr (first :: rest).
Proof.
  unfold hasCollections. destruct (get doc "collections") as [| | | | |[|first rest]|]; simpl;
    split; try done; try (by intros (? & ? & ?)).
  intros _. by exists first, rest.
Qed.

Lemma scanRepository_collections (gitService : Services) settings (w : World) :
  filter isSetCollections (calls (scanRepository gitService settings w))
  = filter isSetCollections (calls w).
Proof.
  unfold scanRepository, scanSteps.
  destruct (truthy (prop settings "domainUrl")); simpl.
  - destruct (scanForContentDirectories gitService) as [[|? ?]|]; simpl;
      [| |by rewrite filter_app, app_nil_r];
      destruct (scanForImageDirectories gitService) as [[|? ?]|]; simpl;
      by rewrite !filter_app, !app_nil_r.
  - destruct (findProductionUrl gitService) as [[url|]|]; simpl;
      [| |by rewrite filter_app, app_nil_r].
    + destruct (negb (bool_decide (url = ""))); simpl;
        destruct (scanForContentDirectories gitService) as [[|? ?]|]; simpl;
        try (by rewrite !filter_app, !app_nil_r);
        destruct (scanForImageDirectories gitService) as [[|? ?]|]; simpl;
        by rewrite !filter_app, !app_nil_r.
    + destruct (scanForContentDirectories gitService) as [[|? ?]|]; simpl;
        try (by rewrite !filter_app, !app_nil_r);
        destruct (scanForImageDirectories gitService) as [[|? ?]|]; simpl;
        by rewrite !filter_app, !app_nil_r.
Qed.

Lemma loadSettingsAndScan_installs (gitService : Services) repo settings (w : World) :
  filter isSetCollections (calls (loadSettingsAndScan gitService repo settings w))
  = (filter isSetCollections (calls w)
     ++ match collectionsToInstall gitService repo with
        | Some cs => [SetCollections cs]
        | None => []
        end)%list.
Proof.
  rewrite loadSettingsAndScan_routes. cbv zeta.
  destruct (beforeRemote_spec gitService repo w)
    as (Hloaded & _ & _ & extra & Hcalls & _ & Hset).
  destruct (beforeRemote gitService repo w) as [loaded w1].
  cbn [fst snd] in *. subst loaded.
  assert (filter isSetCollections (calls w1)
          = (filter isSetCollections (calls w)
             ++ match collectionsToInstall gitService repo with
                | Some cs => [SetCollections cs]
                | None => []
                end)%list) as Hsame.
  { by rewrite Hcalls, filter_app, Hset. }
  destruct (readRemote gitService) as [config|].
  - destruct (truthy config); [done|].
    rewrite afterRemote_sufficient. destruct (cacheSufficient _ _); [done|].
    by rewrite scanRepository_collections.
  - rewrite afterRemote_sufficient. destruct (cacheSufficient _ _); [done|].
    by rewrite scanRepository_collections.
Qed.

(** What the bootstrap installs when the loader answers as the spec says. *)
Lemma collectionsToInstall_specified (gitService : Services) repo :
  loaderAsSpecified gitService repo ->
  collectionsToInstall gitService repo =
    match readRemote gitService with
    | Some config =>
        match get config "collections" with
        | Arr (first :: rest) =>
            if workspacePresent gitService then Some (first :: rest) else None
        | _ => None
        end
    | None => None
    end.
Proof.
  intros Hspec. unfold collectionsToInstall. rewrite Hspec. unfold specifiedLoader.
  destruct (readRemote gitService) as [config|]; [|done].
  unfold hasCollections.
  destruct (get config "collections") as [| | | | |[|first rest]|]; try done;
    cbn [isArray nonEmptyArray andb items collections];
    rewrite ?bool_decide_eq_true_2 by done; by destruct (workspacePresent gitService).
Qed.

(** C3. On import, a parsed document takes the version 2 route exactly when
    its [collections] member is a non-empty array; setting or removing its
    [version] member changes nothing, and a document whose [collections] is
    the empty array goes through the legacy validation and route. In the
    bootstrap, with the loader of the collections answering as the spec says,
    the collections of the remote document are installed exactly when its
    [collections] member is a non-empty array (and the workspace exists),
    a member that setting or removing [version] leaves as it is; and every
    usable remote document, with or without collections and whatever its
    version, ends the bootstrap with setup complete and its flat fields
    merged, each one under its guard and its validator. *)
Theorem v2_by_collections :
  (forall content doc, JSON_parse content = Some doc ->
     (exists configToSave, handleFileImport content = ImportV2 configToSave) <->
     (exists first rest, get doc "collections" = Arr (first :: rest)))
  /\ (forall props version,
        hasCollections (Obj (put "version" version props)) = hasCollections (Obj props))
  /\ (forall props,
        hasCollections (Obj (filter (fun kv => kv.1 <> "version") props))
        = hasCollections (Obj props))
  /\ (forall content props,
        JSON_parse content = Some (Obj props) ->
        get (Obj props) "collections" = Arr [] ->
        handleFileImport content =
          if legacyValid (Obj props) then ImportLegacy (Obj props)
          else ImportValidationError)
  /\ (forall (gitService : Services) repo settings (w : World),
        loaderAsSpecified gitService repo ->
        filter isSetCollections (calls (loadSettingsAndScan gitService repo settings w))
        = (filter isSetCollections (calls w)
           ++ match readRemote gitService with
              | Some config =>
                  match get config "collections" with
                  | Arr (first :: rest) =>
                      if workspacePresent gitService then [SetCollections (first :: rest)]
                      else []
                  | _ => []
                  end
              | None => []
              end)%list)
  /\ (forall props version,
        get (Obj (put "version" version props)) "collections" = get (Obj props) "collections")
  /\ (forall props,
        get (Obj (filter (fun kv => kv.1 <> "version") props)) "collections"
        = get (Obj props) "collections")
  /\ (forall (gitService : Services) repo settings (w : World) config key,
        readRemote gitService = Some config -> truthy config = true ->
        isSetupComplete (settingsStore (loadSettingsAndScan gitService repo settings w)) = true
        /\ SettingsStore.settings
             (settingsStore (loadSettingsAndScan gitService repo settings w)) !! key
           = if RemoteFields.merged config key
             then Some (RemoteFields.remoteValue config key)
             else spread (spread (SettingsStore.settings (settingsStore w))
                            (withDefaultWidth (readCache (localStorage w) repo)))
                    (spread settings (withDefaultWidth (readCache (localStorage w) repo)))
                  !! key).
Proof.
  split_and!.
  - intros content doc Hparse. rewrite <- hasCollections_iff.
    unfold handleFileImport. rewrite Hparse. unfold member.
    destruct (is_nullish doc) eqn:Hnull.
    + split; [by intros [? ?]|]. by destruct doc.
    + destruct (hasCollections doc); [split; [done|by eexists]|].
      split; [|done]. intros [cfg Hcfg]. by destruct (legacyValid doc).
  - intros props version. unfold hasCollections, get.
    by rewrite assoc_put_ne.
  - intros props. unfold hasCollections, get. by rewrite assoc_filter_ne.
  - intros content props Hparse Hcs. unfold handleFileImport.
    rewrite Hparse. unfold member, hasCollections. simpl is_nullish. cbv iota.
    by rewrite Hcs.
  - intros gitService repo settings w Hspec.
    rewrite loadSettingsAndScan_installs, (collectionsToInstall_specified _ _ Hspec).
    destruct (readRemote gitService) as [config|]; [|done].
    destruct (get config "collections") as [| | | | |[|first rest]|]; try done;
      by destruct (workspacePresent gitService).
  - intros props version. unfold get. by rewrite assoc_put_ne.
  - intros props. unfold get. by rewrite assoc_filter_ne.
  - intros gitService repo settings w config key Hremote Htruthy.
    rewrite loadSettingsAndScan_routes. cbv zeta. rewrite Hremote, Htruthy.
    destruct (beforeRemote_spec gitService repo w) as (-> & _ & Hsettings & _).
    destruct (loadFromConfig_spec repo settings
                (withDefaultWidth (readCache (localStorage w) repo)) config
                (beforeRemote gitService repo w).2) as (Hsetup & _ & _ & ->).
    split; [exact Hsetup|]. rewrite Hsettings.
    unfold spread at 1. rewrite lookup_union, mergeRemoteConfig_lookup.
    destruct (RemoteFields.merged config key).
    + by rewrite union_Some_l.
    + unfold spread at 3. by rewrite lookup_union.
Qed.

End Bootstrap.

(** The setup check of the store's own [loadSettings] looks at the merged
    settings, so a field the cache lacks may come from the previous state. *)
Lemma loadSettings_setup_check `{Host} (storage : gmap string string) repoId
    (state : SettingsState) :
  isSetupComplete (loadSettings storage repoId state) =
    if truthy (prop (spread (settings state) (loadedFromCache storage repoId)) "projectType")
       && truthy (prop (spread (settings state) (loadedFromCache storage repoId)) "postsPath")
       && truthy (prop (spread (settings state) (loadedFromCache storage repoId)) "imagesPath")
    then true
    else isSetupComplete state.
Proof. unfold loadSettings. simpl. by destruct (_ && _). Qed.

(** ** The model at work *)

(** C5, as stated, fails: this cache holds valid entries for the three
    mandatory fields, the posts path being the empty string; with no remote
    file the bootstrap does not mark setup complete and runs the scan. *)
Lemma cache_with_empty_path_is_scanned :
  @readCache TestHost.host TestHost.cacheWithEmptyPath TestHost.repo !! "projectType"
    = Some (Str "astro")
  /\ @readCache TestHost.host TestHost.cacheWithEmptyPath TestHost.repo !! "postsPath"
    = Some (Str "")
  /\ @readCache TestHost.host TestHost.cacheWithEmptyPath TestHost.repo !! "imagesPath"
    = Some (Str "public/images")
  /\ @usableRemote TestHost.host TestHost.offline = false
  /\ isSetupComplete
       (settingsStore
          (@loadSettingsAndScan TestHost.host TestHost.offline TestHost.repo DEFAULT_SETTINGS
             (TestHost.fresh TestHost.cacheWithEmptyPath))) = false
  /\ calls
       (@loadSettingsAndScan TestHost.host TestHost.offline TestHost.repo DEFAULT_SETTINGS
          (TestHost.fresh TestHost.cacheWithEmptyPath))
     = [InitWorkspace "owner/site"; LoadCollectionsFromPageelrc "owner/site";
        GetFileContent ".pageelrc.json"; FindProductionUrl;
        ScanForContentDirectories; ScanForImageDirectories].
Proof. repeat split; by vm_compute. Qed.

Lemma cache_fallback_iff_nonempty_witness :
  @usableRemote TestHost.host TestHost.offline = false
  /\ @cacheSufficient TestHost.host TestHost.fullCache TestHost.repo = true
  /\ isSetupComplete
       (settingsStore
          (@loadSettingsAndScan TestHost.host TestHost.offline TestHost.repo DEFAULT_SETTINGS
             (TestHost.fresh TestHost.fullCache))) = true.
Proof.
  assert (@usableRemote TestHost.host TestHost.offline = false) as Hremote
    by (vm_compute; reflexivity).
  assert (@cacheSufficient TestHost.host TestHost.fullCache TestHost.repo = true) as Hcache
    by (vm_compute; reflexivity).
  split; [exact Hremote|]. split; [exact Hcache|].
  exact (proj1 (proj1 (proj2 (@cache_fallback_iff_nonempty TestHost.host TestHost.offline
                                TestHost.repo DEFAULT_SETTINGS
                                (TestHost.fresh TestHost.fullCache) Hremote)) Hcache)).
Defined.

Lemma setup_gate_witness :
  @usableRemote TestHost.host (TestHost.serving "v1") = true
  /\ isSetupComplete
       (settingsStore
          (@loadSettingsAndScan TestHost.host (TestHost.serving "v1") TestHost.repo
             DEFAULT_SETTINGS (TestHost.fresh ∅))) = true
  /\ scanSucceeds TestHost.offline DEFAULT_SETTINGS = true
  /\ isSetupComplete
       (settingsStore
          (@loadSettingsAndScan TestHost.host TestHost.offline TestHost.repo
             DEFAULT_SETTINGS (TestHost.fresh ∅))) = false.
Proof.
  assert (@usableRemote TestHost.host (TestHost.serving "v1") = true) as Hremote
    by (vm_compute; reflexivity).
  assert (scanSucceeds TestHost.offline DEFAULT_SETTINGS = true) as Hscan
    by (vm_compute; reflexivity).
  split; [exact Hremote|]. split.
  - exact (proj1 (proj1 (@setup_gate TestHost.host (TestHost.serving "v1") TestHost.repo
                           DEFAULT_SETTINGS (TestHost.fresh ∅)) Hremote)).
  - split; [exact Hscan|].
    exact (proj1 (proj2 (@setup_gate TestHost.host TestHost.offline TestHost.repo
                           DEFAULT_SETTINGS (TestHost.fresh ∅))
                    eq_refl (fun key _ => lookup_empty _) Hscan)).
Defined.

Lemma v2_by_collections_witness :
  @JSON_parse TestHost.host "emptyV2" = Some TestHost.emptyV2Document
  /\ get TestHost.emptyV2Document "version" = Num 2
  /\ get TestHost.emptyV2Document "collections" = Arr []
  /\ @handleFileImport TestHost.host "emptyV2" = ImportLegacy TestHost.emptyV2Document
  /\ @loaderAsSpecified TestPage.reading (TestPage.specified "flatV2") TestHost.repo
  /\ filter isSetCollections
       (calls (@loadSettingsAndScan TestPage.reading (TestPage.specified "flatV2")
                 TestHost.repo DEFAULT_SETTINGS (TestHost.fresh ∅)))
     = []
  /\ SettingsStore.settings
       (settingsStore
          (@loadSettingsAndScan TestPage.reading (TestPage.specified "flatV2")
             TestHost.repo DEFAULT_SETTINGS (TestHost.fresh ∅)))
       !! "projectType"
     = Some (Str "github")
  /\ @loaderAsSpecified TestPage.reading (TestPage.specified "unversioned") TestHost.repo
  /\ filter isSetCollections
       (calls (@loadSettingsAndScan TestPage.reading (TestPage.specified "unversioned")
                 TestHost.repo DEFAULT_SETTINGS (TestHost.fresh ∅)))
     = [SetCollections (items (get TestPage.unversionedDocument "collections"))].
Proof.
  assert (@JSON_parse TestHost.host "emptyV2" = Some TestHost.emptyV2Document) as Hparse
    by (vm_compute; reflexivity).
  assert (@loaderAsSpecified TestPage.reading (TestPage.specified "flatV2") TestHost.repo)
    as Hflat by (vm_compute; reflexivity).
  assert (@loaderAsSpecified TestPage.reading (TestPage.specified "unversioned")
            TestHost.repo) as Hunversioned by (vm_compute; reflexivity).
  pose proof (@v2_by_collections TestHost.host) as (_ & _ & _ & Himport & _).
  pose proof (@v2_by_collections TestPage.reading)
    as (_ & _ & _ & _ & Hinstalls & _ & _ & Hmerge).
  split; [exact Hparse|]. split; [reflexivity|]. split; [reflexivity|].
  split; [exact (Himport "emptyV2" _ Hparse eq_refl)|].
  split; [exact Hflat|].
  split.
  { rewrite (Hinstalls (TestPage.specified "flatV2") TestHost.repo DEFAULT_SETTINGS
               (TestHost.fresh ∅) Hflat).
    vm_compute; reflexivity. }
  split.
  { rewrite (proj2 (Hmerge (TestPage.specified "flatV2") TestHost.repo DEFAULT_SETTINGS
                      (TestHost.fresh ∅) TestPage.flatV2Document "projectType"
                      eq_refl eq_refl)).
    vm_compute; reflexivity. }
  split; [exact Hunversioned|].
  rewrite (Hinstalls (TestPage.specified "unversioned") TestHost.repo DEFAULT_SETTINGS
             (TestHost.fresh ∅) Hunversioned).
  vm_compute; reflexivity.
Defined.

Lemma withSyncLock_exclusive_witness :
  isSyncing (AppStore.initial "dashboard") = false
  /\ (exists after,
        withSyncLock (fun w : AppState * unit => (Resolved 7, w)) (Some "Saving settings...")
          (AppStore.initial "dashboard", ())
        = (Resolved 7, after)
        /\ isSyncing after.1 = false /\ syncMessage after.1 = None)
  /\ withSyncLock (fun w : AppState * unit => (Resolved 7, w)) None
       (startSync (Some "Saving settings...") (AppStore.initial "dashboard"), ())
     = (Rejected busyError,
        (startSync (Some "Saving settings...") (AppStore.initial "dashboard"), ())).
Proof.
  split; [reflexivity|]. split.
  - destruct (proj2 (withSyncLock_exclusive
                       (fun w : AppState * unit => (Resolved 7, w))
                       (Some "Saving settings...") (AppStore.initial "dashboard", ()))
                eq_refl _ _ eq_refl) as (_ & _ & Hsettled).
    destruct (Hsettled eq_refl) as (after & Hrun & _ & Hflag & Hmessage & _).
    exists after. split; [exact Hrun|]. split; [exact Hflag | exact Hmessage].
  - exact (proj1 (withSyncLock_exclusive
                    (fun w : AppState * unit => (Resolved 7, w)) None
                    (startSync (Some "Saving settings...") (AppStore.initial "dashboard"), ()))
             eq_refl).
Defined.

Lemma validateSettings_present_keys_witness :
  validateSettings {["postsPath" := Str "content"; "theme" := Num 1]} = Ok true
  /\ is_string (Str "content") = true.
Proof.
  assert (validateSettings {["postsPath" := Str "content"; "theme" := Num 1]} = Ok true)
    as Hvalid by (vm_compute; reflexivity).
  assert (forall key value,
            ({["postsPath" := Str "content"; "theme" := Num 1]} : Settings) !! key
            = Some value -> inherited key value = None) as Hown.
  { intros key value Hkey.
    destruct (decide (key = "postsPath")) as [->|Hp]; [reflexivity|].
    rewrite lookup_insert_ne in Hkey by done.
    destruct (decide (key = "theme")) as [->|Ht]; [reflexivity|].
    by rewrite lookup_singleton_ne in Hkey. }
  split; [exact Hvalid|].
  exact (proj1 (proj1 (validateSettings_present_keys
                         {["postsPath" := Str "content"; "theme" := Num 1]} Hown))
           Hvalid "postsPath" (Str "content") is_string eq_refl eq_refl).
Defined.

Lemma setSettings_patch_frame_witness :
  ({["postsPath" := Str "blog"]} : Settings) !! "imagesPath" = None
  /\ settings (setSettings (Patch {["postsPath" := Str "blog"]}) SettingsStore.initial)
       !! "imagesPath"
     = settings SettingsStore.initial !! "imagesPath".
Proof.
  split; [reflexivity|].
  exact (proj1 (setSettings_patch_frame {["postsPath" := Str "blog"]} SettingsStore.initial)
           "imagesPath" eq_refl).
Defined.

Lemma setScanPhase_progress_witness :
  "Scan complete" <> ""
  /\ scanProgress (setScanPhase (Some "Scan complete") None (AppStore.initial "dashboard"))
     = 50%float.
Proof.
  assert ("Scan complete" <> "") as Hne by discriminate.
  split; [exact Hne|].
  exact (proj1 (proj2 (setScanPhase_progress (AppStore.initial "dashboard")))
           "Scan complete" Hne).
Defined.

Lemma loadSettings_valid_subset_witness :
  TestHost.fullCache !! storageKeyOf "maxImageSize" TestHost.repo = None
  /\ TestHost.fullCache !! storageKeyOf "postsPath" TestHost.repo = Some "src/content/blog"
  /\ settings (@loadSettings TestHost.host TestHost.fullCache TestHost.repo SettingsStore.initial)
       !! "postsPath"
     = Some (Str "src/content/blog")
  /\ settings (@loadSettings TestHost.host TestHost.fullCache TestHost.repo SettingsStore.initial)
       !! "maxImageSize"
     = Some (Num 500).
Proof.
  split; [vm_compute; reflexivity|]. split; [vm_compute; reflexivity|].
  split.
  - rewrite (proj2 (proj2 (@loadSettings_valid_subset TestHost.host TestHost.fullCache
                             TestHost.repo SettingsStore.initial)) "postsPath").
    vm_compute. reflexivity.
  - rewrite (proj2 (proj2 (@loadSettings_valid_subset TestHost.host TestHost.fullCache
                             TestHost.repo SettingsStore.initial)) "maxImageSize").
    vm_compute. reflexivity.
Defined.

(** * More of the code *)

(** ** URLs of repository files *)

Section Urls.
Import Text Github.

Lemma under_public p :
  nonEmpty ("public/" +:+ p) = true
  /\ startsWith ("public/" +:+ p) "http" = false
  /\ startsWith ("public/" +:+ p) "data:" = false
  /\ startsWith ("public/" +:+ p) "/" = false
  /\ startsWith ("public/" +:+ p) "public/" = true
  /\ substring 7 ("public/" +:+ p) = p.
Proof. repeat split; by vm_compute. Qed.

Lemma under_slash p :
  nonEmpty ("/" +:+ p) = true
  /\ startsWith ("/" +:+ p) "http" = false
  /\ startsWith ("/" +:+ p) "data:" = false
  /\ startsWith ("/" +:+ p) "/" = true
  /\ startsWith ("/" +:+ p) "public/" = false
  /\ substring 1 ("/" +:+ p) = p.
Proof. repeat split; by vm_compute. Qed.

Lemma under_slash_public p :
  nonEmpty ("/public/" +:+ p) = true
  /\ startsWith ("/public/" +:+ p) "http" = false
  /\ startsWith ("/public/" +:+ p) "/" = true
  /\ substring 1 ("/public/" +:+ p) = "public/" +:+ p.
Proof. repeat split; by vm_compute. Qed.

Lemma rawUrl_of_plain repo p t :
  nonEmpty p = true -> startsWith p "http" = false ->
  startsWith p "/" = false -> startsWith p "public/" = false ->
  getRawGithubUrl repo p t =
    "https://raw.githubusercontent.com/" +:+ full_name repo +:+ "/refs/heads/"
      +:+ branchOf repo +:+ "/public/" +:+ p.
Proof.
  intros Hne Hhttp Hslash Hpublic. unfold getRawGithubUrl.
  rewrite Hne, Hhttp, Hslash. cbv zeta. rewrite Hpublic. reflexivity.
Qed.

(** X1. Let [p] be a non-empty path that starts with neither a slash nor
    [public/]. Its three spellings [/p], [public/p] and [/public/p] have one
    raw URL, whatever the project type: [public/p] on the default branch of
    the repository ([main] when it names none). [p] itself has the same raw
    URL unless it starts with [http], in which case it is returned as it
    is. *)
Theorem getRawGithubUrl_spellings repo p t t' :
  nonEmpty p = true -> startsWith p "/" = false -> startsWith p "public/" = false ->
  let url :=
    "https://raw.githubusercontent.com/" +:+ full_name repo +:+ "/refs/heads/"
      +:+ branchOf repo +:+ "/public/" +:+ p in
  getRawGithubUrl repo ("/" +:+ p) t' = url
  /\ getRawGithubUrl repo ("public/" +:+ p) t' = url
  /\ getRawGithubUrl repo ("/public/" +:+ p) t' = url
  /\ getRawGithubUrl repo p t = if startsWith p "http" then p else url.
Proof.
  intros Hne Hslash Hpublic. cbv zeta.
  destruct (under_slash p) as (S1 & S2 & _ & S3 & _ & S4).
  destruct (under_public p) as (P1 & P2 & _ & P3 & P4 & _).
  destruct (under_slash_public p) as (Q1 & Q2 & Q3 & Q4).
  split_and!.
  - unfold getRawGithubUrl. rewrite S1, S2, S3, S4. cbv zeta. rewrite Hpublic. reflexivity.
  - unfold getRawGithubUrl. rewrite P1, P2, P3. cbv zeta. rewrite P4. reflexivity.
  - unfold getRawGithubUrl. rewrite Q1, Q2, Q3, Q4. cbv zeta. rewrite P4. reflexivity.
  - destruct (startsWith p "http") eqn:Hhttp.
    + unfold getRawGithubUrl. by rewrite Hne, Hhttp.
    + by apply rawUrl_of_plain.
Qed.

Lemma getRawGithubUrl_spellings_witness :
  getRawGithubUrl {| full_name := "owner/site"; default_branch := None |}
    "/public/images/a.png" "astro"
  = "https://raw.githubusercontent.com/owner/site/refs/heads/main/public/images/a.png"
  /\ getRawGithubUrl {| full_name := "owner/site"; default_branch := None |}
       "/httpd/logo.png" "astro"
     = "https://raw.githubusercontent.com/owner/site/refs/heads/main/public/httpd/logo.png"
  /\ getRawGithubUrl {| full_name := "owner/site"; default_branch := None |}
       "httpd/logo.png" "astro"
     = "httpd/logo.png".
Proof.
  split_and!.
  - exact (eq_trans
             (proj1 (proj2 (proj2 (getRawGithubUrl_spellings
                {| full_name := "owner/site"; default_branch := None |}
                "images/a.png" "github" "astro" eq_refl eq_refl eq_refl))))
             eq_refl).
  - exact (eq_trans
             (proj1 (getRawGithubUrl_spellings
                {| full_name := "owner/site"; default_branch := None |}
                "httpd/logo.png" "github" "astro" eq_refl eq_refl eq_refl))
             eq_refl).
  - exact (eq_trans
             (proj2 (proj2 (proj2 (getRawGithubUrl_spellings
                {| full_name := "owner/site"; default_branch := None |}
                "httpd/logo.png" "astro" "astro" eq_refl eq_refl eq_refl))))
             eq_refl).
Defined.

Lemma rawUrl_is_http rest :
  nonEmpty ("https://raw.githubusercontent.com/" +:+ rest) = true
  /\ startsWith ("https://raw.githubusercontent.com/" +:+ rest) "http" = true.
Proof. split; by vm_compute. Qed.

Lemma getRawGithubUrl_shape repo path t :
  getRawGithubUrl repo path t = ""
  \/ (getRawGithubUrl repo path t = path
      /\ nonEmpty path = true /\ startsWith path "http" = true)
  \/ exists rest,
       getRawGithubUrl repo path t = "https://raw.githubusercontent.com/" +:+ rest.
Proof.
  unfold getRawGithubUrl.
  destruct (nonEmpty path) eqn:Hne; [|by left].
  destruct (startsWith path "http") eqn:Hhttp; [by right; left|].
  right; right. by eexists.
Qed.

(** X2. A raw URL is a fixed point: building the raw URL of a raw URL gives
    it back, for every path and every repository. *)
Theorem getRawGithubUrl_idempotent repo path t t' :
  getRawGithubUrl repo (getRawGithubUrl repo path t) t' = getRawGithubUrl repo path t.
Proof.
  destruct (getRawGithubUrl_shape repo path t) as [-> | [(-> & Hne & Hhttp) | [rest ->]]].
  - reflexivity.
  - unfold getRawGithubUrl. by rewrite Hne, Hhttp.
  - unfold getRawGithubUrl. by destruct (rawUrl_is_http rest) as [-> ->].
Qed.

(** X3. For an Astro project with a non-empty production domain, let [p] be
    a non-empty path that starts with neither a slash nor [public/]. The
    spellings [/p] and [public/p] resolve to the domain without its trailing
    slash, a slash, [p]; the spelling [/public/p] keeps the prefix: the
    domain, then [/public/], then [p]. [p] itself resolves like the first
    two spellings unless it starts with [http] or [data:], in which case it
    is returned as it is. *)
Theorem resolveImageSource_astro repo p domain :
  nonEmpty p = true -> startsWith p "/" = false -> startsWith p "public/" = false ->
  nonEmpty domain = true ->
  let url := dropTrailingSlash domain +:+ "/" +:+ p in
  resolveImageSource ("/" +:+ p) repo "astro" (Some domain) = url
  /\ resolveImageSource ("public/" +:+ p) repo "astro" (Some domain) = url
  /\ resolveImageSource ("/public/" +:+ p) repo "astro" (Some domain)
     = dropTrailingSlash domain +:+ "/public/" +:+ p
  /\ resolveImageSource p repo "astro" (Some domain)
     = if startsWith p "http" || startsWith p "data:" then p else url.
Proof.
  intros Hne Hslash Hpublic Hdomain. cbv zeta.
  destruct (under_slash p) as (S1 & S2 & S3 & S4 & S5 & _).
  destruct (under_public p) as (P1 & P2 & P3 & _ & P4 & P5).
  destruct (under_slash ("public/" +:+ p)) as (Q1 & Q2 & Q3 & Q4 & Q5 & _).
  unfold resolveImageSource. rewrite Hdomain.
  rewrite (bool_decide_eq_true_2 ("astro" = "astro")) by done. split_and!.
  - rewrite S1, S2, S3. cbv beta iota zeta delta [negb orb andb].
    by rewrite S5, S4.
  - rewrite P1, P2, P3. cbv beta iota zeta delta [negb orb andb].
    by rewrite P4, P5, Hslash.
  - change ("/public/" +:+ p) with ("/" +:+ ("public/" +:+ p)).
    rewrite Q1, Q2, Q3. cbv beta iota zeta delta [negb orb andb].
    by rewrite Q5, Q4.
  - rewrite Hne. cbv beta iota zeta delta [negb].
    destruct (startsWith p "http" || startsWith p "data:"); [done|].
    cbv beta iota zeta delta [negb orb andb]. by rewrite Hpublic, Hslash.
Qed.

Lemma resolveImageSource_astro_witness :
  resolveImageSource "public/images/a.png"
    {| full_name := "owner/site"; default_branch := None |} "astro"
    (Some "https://example.com/")
  = "https://example.com/images/a.png"
  /\ resolveImageSource "/public/images/a.png"
       {| full_name := "owner/site"; default_branch := None |} "astro"
       (Some "https://example.com/")
     = "https://example.com/public/images/a.png".
Proof.
  split.
  - exact (eq_trans
             (proj1 (proj2 (resolveImageSource_astro
                {| full_name := "owner/site"; default_branch := None |}
                "images/a.png" "https://example.com/"
                eq_refl eq_refl eq_refl eq_refl)))
             eq_refl).
  - exact (eq_trans
             (proj1 (proj2 (proj2 (resolveImageSource_astro
                {| full_name := "owner/site"; default_branch := None |}
                "images/a.png" "https://example.com/"
                eq_refl eq_refl eq_refl eq_refl))))
             eq_refl).
Defined.

Lemma dropTrailingSlash_app_slash d : dropTrailingSlash (d +:+ "/") = d.
Proof.
  induction d as [|c d IH]; [reflexivity|].
  simpl. rewrite IH. by destruct d.
Qed.

Lemma dropTrailingSlash_without d :
  (forall d', d <> d' +:+ "/") -> dropTrailingSlash d = d.
Proof.
  induction d as [|c d IH]; intros Hno; [reflexivity|].
  destruct d as [|c' d].
  - simpl. case_bool_decide as Hc; [|reflexivity].
    destruct (Hno ""). by rewrite Hc.
  - change (String c (dropTrailingSlash (String c' d)) = String c (String c' d)).
    rewrite IH; [reflexivity|]. intros d' Hd'. apply (Hno (String c d')).
    simpl. by rewrite Hd'.
Qed.

(** X4. One trailing slash on the production domain makes no difference to
    the resolved URL, provided the domain is not empty and does not already
    end in a slash. *)
Theorem resolveImageSource_trailing_slash path repo projectType domain :
  nonEmpty domain = true -> (forall d', domain <> d' +:+ "/") ->
  resolveImageSource path repo projectType (Some (domain +:+ "/"))
  = resolveImageSource path repo projectType (Some domain).
Proof.
  intros Hdomain Hno. unfold resolveImageSource.
  rewrite dropTrailingSlash_app_slash, (dropTrailingSlash_without _ Hno), Hdomain.
  assert (nonEmpty (domain +:+ "/") = true) as ->; [by destruct domain|].
  reflexivity.
Qed.

Lemma resolveImageSource_trailing_slash_witness :
  resolveImageSource "images/a.png"
    {| full_name := "owner/site"; default_branch := None |} "astro"
    (Some "https://example.com/")
  = resolveImageSource "images/a.png"
      {| full_name := "owner/site"; default_branch := None |} "astro"
      (Some "https://example.com").
Proof.
  apply (resolveImageSource_trailing_slash "images/a.png"
           {| full_name := "owner/site"; default_branch := None |} "astro"
           "https://example.com" eq_refl).
  intros d' Hd'. pose proof (f_equal dropTrailingSlash Hd') as Hdrop.
  rewrite dropTrailingSlash_app_slash in Hdrop. vm_compute in Hdrop. subst d'.
  vm_compute in Hd'. discriminate Hd'.
Defined.

End Urls.

(** ** Logging out, and the view of the URL *)

Lemma lookup_foldl_delete {A} (m : gmap string A) (l : list string) key :
  foldl (fun storage k => delete k storage) m l !! key =
    if bool_decide (key ∈ l) then None else m !! key.
Proof.
  revert m. induction l as [|k l IH]; intros m; simpl; [done|].
  rewrite IH. destruct (decide (key = k)) as [->|Hne].
  - rewrite (bool_decide_eq_true_2 (k ∈ k :: l)) by left.
    rewrite lookup_delete_eq. by case_bool_decide.
  - rewrite lookup_delete_ne by done.
    apply (f_equal (fun b : bool => if b then None else m !! key)).
    apply bool_decide_ext. rewrite elem_of_cons. split; [by right | by intros [?|?]].
Qed.

(** X5. [clearAuth] logs out: afterwards [isAuthenticated] is false, the five
    credentials entries are gone from the session storage, every other entry
    of it is as before, and the loading flag is not touched. *)
Theorem clearAuth_logs_out {U R G S} (w : gmap string string * AuthStore.AuthState U R G S) :
  AuthStore.isAuthenticated (AuthStore.clearAuth w).2 = false
  /\ (forall key, (AuthStore.clearAuth w).1 !! key =
        if bool_decide (key ∈ AuthStore.sessionKeys) then None else w.1 !! key)
  /\ AuthStore.isLoading (AuthStore.clearAuth w).2 = AuthStore.isLoading w.2.
Proof.
  split; [done|]. split; [|done].
  intros key. apply lookup_foldl_delete.
Qed.

(** X6. The view taken from the URL is always one of the six views: a valid
    name is kept, and anything else (no parameter, an empty or unknown name)
    gives the dashboard. *)
Theorem getInitialView_valid (view : option string) :
  Navigation.getInitialView view ∈ Navigation.VALID_VIEWS
  /\ (forall v, v ∈ Navigation.VALID_VIEWS -> Navigation.getInitialView (Some v) = v)
  /\ (forall v, v ∉ Navigation.VALID_VIEWS -> Navigation.getInitialView (Some v) = "dashboard")
  /\ Navigation.getInitialView None = "dashboard".
Proof.
  split_and!.
  - destruct view as [v|]; simpl; [|by left].
    destruct (Text.nonEmpty v); simpl; [|by left].
    case_bool_decide; [done | by left].
  - intros v Hv. simpl. rewrite (bool_decide_eq_true_2 _ Hv).
    unfold Navigation.VALID_VIEWS in Hv. rewrite !elem_of_cons, elem_of_nil in Hv.
    destruct_or!; subst; done.
  - intros v Hv. simpl. rewrite (bool_decide_eq_false_2 _ Hv).
    by rewrite andb_false_r.
  - done.
Qed.

(** ** Validity of the settings, kept *)

Lemma validateSettings_spread (a b : Settings) :
  validateSettings a = Ok true -> validateSettings b = Ok true ->
  validateSettings (spread a b) = Ok true.
Proof.
  rewrite !validateSettings_true. intros Ha Hb key value. unfold spread.
  rewrite lookup_union_Some_raw. intros [Hkey | [_ Hkey]]; eauto.
Qed.

Lemma validateSettings_insert (m : Settings) key value :
  validateSettings m = Ok true -> checks key value = Ok true ->
  validateSettings (<[key := value]> m) = Ok true.
Proof.
  rewrite !validateSettings_true. intros Hm Hv k v.
  destruct (decide (k = key)) as [->|Hne].
  - rewrite lookup_insert_eq. by intros [= <-].
  - rewrite lookup_insert_ne by done. apply Hm.
Qed.

Lemma known_and_passes_or_unknown key value :
  known_and_passes key value = true -> passes_or_unknown key value = true.
Proof. unfold known_and_passes, passes_or_unknown. by destruct (SETTINGS_SCHEMA !! key). Qed.

Lemma applyIfValid_valid key value (m : Settings) :
  validateSettings m = Ok true -> validateSettings (applyIfValid key value m) = Ok true.
Proof.
  intros Hm. unfold applyIfValid.
  destruct (negb (is_undefined value)); cbn [andb]; [|exact Hm].
  destruct (known_and_passes key value) eqn:Hv; [|exact Hm].
  by apply validateSettings_insert, checks_known_and_passes.
Qed.

Lemma mergeBySources_valid config (l : list (string * RemoteFields.Source)) (m : Settings) :
  validateSettings m = Ok true ->
  validateSettings (foldl (RemoteFields.mergeOne config) m l) = Ok true.
Proof.
  revert m. induction l as [|entry l IH]; intros m Hm; simpl; [done|].
  apply IH. unfold RemoteFields.mergeOne.
  destruct (RemoteFields.guardAt config entry.2); [|done].
  by apply applyIfValid_valid.
Qed.

Section Validity.
Context `{Host}.

Lemma readCache_validates (storage : gmap string string) prefix :
  validateSettings (readCache storage prefix) = Ok true.
Proof.
  apply validateSettings_true. intros key value Hkey.
  by apply checks_known_and_passes, (readCache_valid storage prefix).
Qed.

Lemma loadedFromCache_validates (storage : gmap string string) repoId :
  validateSettings (loadedFromCache storage repoId) = Ok true.
Proof.
  apply validateSettings_true. intros key value.
  rewrite loadedFromCache_lookup. case_bool_decide as Hkey; [|done].
  unfold cachedValid. destruct (storage !! _) as [stored|]; [|done].
  destruct (passes_or_unknown key (decode stored)) eqn:Hok; [|done].
  intros [= <-]. apply checks_known_and_passes.
  by rewrite <- (known_key_has_validator key (decode stored) Hkey).
Qed.

Lemma withDefaultWidth_valid (m : Settings) :
  validateSettings m = Ok true -> validateSettings (withDefaultWidth m) = Ok true.
Proof.
  intros Hm. unfold withDefaultWidth. destruct (is_undefined _); [|done].
  by apply validateSettings_insert.
Qed.

Lemma scanSteps_valid (gitService : Services) settings (w : World) :
  validateSettings (SettingsStore.settings (settingsStore w)) = Ok true ->
  validateSettings
    (SettingsStore.settings (settingsStore (scanSteps gitService settings w).2)) = Ok true.
Proof.
  intros Hw. unfold scanSteps.
  assert (forall key s (m : Settings),
            key ∈ ["domainUrl"; "postsPath"; "imagesPath"] ->
            validateSettings m = Ok true ->
            validateSettings (<[key := Str s]> m) = Ok true) as Hins.
  { intros key s m Hkey Hm. apply validateSettings_insert; [done|].
    rewrite !elem_of_cons, elem_of_nil in Hkey. destruct_or!; subst; done. }
  destruct (truthy (prop settings "domainUrl")); simpl.
  - destruct (scanForContentDirectories gitService) as [[|? ?]|]; simpl; [| |done];
      destruct (scanForImageDirectories gitService) as [[|? ?]|]; simpl;
      repeat (apply Hins; [set_solver|]); done.
  - destruct (findProductionUrl gitService) as [[url|]|]; simpl; [| |done].
    + destruct (negb (bool_decide (url = ""))); simpl;
        destruct (scanForContentDirectories gitService) as [[|? ?]|]; simpl;
        try destruct (scanForImageDirectories gitService) as [[|? ?]|]; simpl;
        repeat (apply Hins; [set_solver|]); done.
    + destruct (scanForContentDirectories gitService) as [[|? ?]|]; simpl; [| |done];
        destruct (scanForImageDirectories gitService) as [[|? ?]|]; simpl;
        repeat (apply Hins; [set_solver|]); done.
Qed.

Lemma scanRepository_valid (gitService : Services) settings (w : World) :
  validateSettings (SettingsStore.settings (settingsStore w)) = Ok true ->
  validateSettings
    (SettingsStore.settings (settingsStore (scanRepository gitService settings w))) = Ok true.
Proof.
  intros Hw. unfold scanRepository.
  pose proof (scanSteps_valid gitService settings w Hw) as Hsteps.
  by destruct (scanSteps gitService settings w) as [[?|?] ?].
Qed.

(** X7. The bootstrap keeps the settings valid. When the settings of the
    store and the settings captured by the effect pass [validateSettings],
    so do the settings of the store after [loadSettingsAndScan], whatever the
    cache and the remote file hold and however the scan ends. *)
Theorem loadSettingsAndScan_keeps_valid (gitService : Services) (repo : string)
    (settings : Settings) (w : World) :
  validateSettings (SettingsStore.settings (settingsStore w)) = Ok true ->
  validateSettings settings = Ok true ->
  validateSettings
    (SettingsStore.settings (settingsStore (loadSettingsAndScan gitService repo settings w)))
  = Ok true.
Proof.
  intros Hstore Hcaptured.
  rewrite loadSettingsAndScan_routes. cbv zeta.
  destruct (beforeRemote_spec gitService repo w) as (Hloaded & _ & Hsettings & _).
  destruct (beforeRemote gitService repo w) as [loaded w1].
  cbn [fst snd] in *. subst loaded.
  pose proof (withDefaultWidth_valid _ (readCache_validates (localStorage w) repo)) as Hcache.
  assert (validateSettings (SettingsStore.settings (settingsStore w1)) = Ok true) as Hw1.
  { rewrite Hsettings. by apply validateSettings_spread. }
  destruct (readRemote gitService) as [config|].
  - destruct (truthy config).
    + destruct (loadFromConfig_spec repo settings
                  (withDefaultWidth (readCache (localStorage w) repo)) config w1)
        as (_ & _ & _ & ->).
      apply validateSettings_spread; [done|].
      rewrite mergeRemoteConfig_by_sources. apply mergeBySources_valid.
      by apply validateSettings_spread.
    + rewrite afterRemote_sufficient. destruct (cacheSufficient _ _); [done|].
      by apply scanRepository_valid.
  - rewrite afterRemote_sufficient. destruct (cacheSufficient _ _); [done|].
    by apply scanRepository_valid.
Qed.

(** X8. The actions of the settings store keep the settings valid: a valid
    patch on valid settings, a load from any cache, and a reset all leave
    settings that pass [validateSettings]. *)
Theorem settings_store_keeps_valid (state : SettingsState) (patch : Settings)
    (storage : gmap string string) (repoId : string) :
  validateSettings (SettingsStore.settings state) = Ok true ->
  (validateSettings patch = Ok true ->
     validateSettings (SettingsStore.settings (setSettings (Patch patch) state)) = Ok true)
  /\ validateSettings (SettingsStore.settings (loadSettings storage repoId state)) = Ok true
  /\ validateSettings (SettingsStore.settings (resetSettings state)) = Ok true.
Proof.
  intros Hstate. split_and!.
  - intros Hpatch. by apply validateSettings_spread.
  - rewrite loadSettings_settings.
    apply validateSettings_spread; [done | apply loadedFromCache_validates].
  - by vm_compute.
Qed.

(** X9. Loading the settings twice from the same cache is the same as loading
    them once. *)
Theorem loadSettings_idempotent (storage : gmap string string) (repoId : string)
    (state : SettingsState) :
  loadSettings storage repoId (loadSettings storage repoId state)
  = loadSettings storage repoId state.
Proof.
  assert (forall (s l : Settings), spread (spread s l) l = spread s l) as Hspread.
  { intros s l. unfold spread. rewrite (assoc_L (∪)). f_equal. apply map_union_idemp. }
  unfold loadSettings. generalize (loadedFromCache storage repoId). intros loaded.
  cbv zeta. destruct state as [s l sv ok done].
  unfold set_settings, setSetupComplete. cbn [SettingsStore.settings].
  destruct (truthy (prop (spread s loaded) "projectType") && _ && _) eqn:Hcheck;
    cbn [SettingsStore.settings isLoading isSaving saveSuccess isSetupComplete];
    rewrite Hspread, Hcheck; reflexivity.
Qed.

End Validity.

(** ** The cache written by the bootstrap, read back *)

Lemma append_cons c s t : String c s +:+ t = String c (s +:+ t).
Proof. reflexivity. Qed.

Lemma length_append s t : String.length (s +:+ t) = String.length s + String.length t.
Proof. induction s as [|c s IH]; [done|]. rewrite append_cons. simpl. by rewrite IH. Qed.

Lemma append_inv_tail s1 s2 t : s1 +:+ t = s2 +:+ t -> s1 = s2.
Proof.
  revert s2. induction s1 as [|c s1 IH]; intros [|c' s2] Heq.
  - done.
  - apply (f_equal String.length) in Heq. rewrite !length_append in Heq.
    simpl in Heq. lia.
  - apply (f_equal String.length) in Heq. rewrite !length_append in Heq.
    simpl in Heq. lia.
  - rewrite !append_cons in Heq. injection Heq as -> Heq. by rewrite (IH _ Heq).
Qed.

Lemma scoped_inj key key' prefix : scoped key prefix = scoped key' prefix -> key = key'.
Proof. apply append_inv_tail. Qed.

Section CacheRoundTrip.
Context `{Host}.

Lemma refreshCache_lookup prefix (newSettings : Settings) (storage : gmap string string) key :
  refreshCache prefix newSettings storage !! scoped key prefix =
    if bool_decide (key ∈ keys) && negb (is_undefined (prop newSettings key))
    then Some (String_ (prop newSettings key))
    else storage !! scoped key prefix.
Proof.
  unfold refreshCache. generalize keys. intros l. revert storage.
  induction l as [|k l IH]; intros storage; [done|].
  cbn [foldl]. rewrite IH.
  destruct (decide (key = k)) as [->|Hne].
  - rewrite (bool_decide_eq_true_2 (k ∈ k :: l)) by left. cbn [andb].
    destruct (negb (is_undefined (prop newSettings k))) eqn:Hdef.
    + by rewrite andb_true_r, lookup_insert_eq, Tauto.if_same.
    + by rewrite andb_false_r.
  - assert (bool_decide (key ∈ k :: l) = bool_decide (key ∈ l)) as ->.
    { apply bool_decide_ext. rewrite elem_of_cons. split; [by intros [?|?] | by right]. }
    destruct (bool_decide (key ∈ l) && _); [done|].
    destruct (negb (is_undefined (prop newSettings k))); [|done].
    rewrite lookup_insert_ne; [done|]. intros Heq. by apply scoped_inj in Heq.
Qed.

(** X10. A text setting written to the cache by the bootstrap is read back
    from it unchanged, provided the text is not [true] or [false], does not
    read as a number, and passes the field's validator. ([String] of a
    string is that string.) *)
Theorem cache_round_trip prefix (newSettings : Settings) (storage : gmap string string)
    key s :
  (forall t, String_ (Str t) = t) ->
  key ∈ keys ->
  newSettings !! key = Some (Str s) ->
  s <> "true" -> s <> "false" ->
  PrimFloat.is_nan (Number s) = true \/ s = "" ->
  known_and_passes key (Str s) = true ->
  readCache (refreshCache prefix newSettings storage) prefix !! key = Some (Str s).
Proof.
  intros Hstring Hkey Hvalue Htrue Hfalse Hplain Hvalid.
  rewrite readCache_lookup, (bool_decide_eq_true_2 _ Hkey).
  unfold cachedValid. rewrite refreshCache_lookup, (bool_decide_eq_true_2 _ Hkey).
  unfold prop. rewrite Hvalue. cbn [default from_option id is_undefined negb andb]. rewrite Hstring.
  assert (decode s = Str s) as ->.
  { unfold decode. rewrite (bool_decide_eq_false_2 _ Htrue), (bool_decide_eq_false_2 _ Hfalse).
    destruct Hplain as [-> | ->]; [done|]. by rewrite andb_false_r. }
  by rewrite (known_key_has_validator key (Str s) Hkey), Hvalid.
Qed.

(** X11. A posts path, images path or domain whose text is [true] or
    [false], or reads as a number, is written to the cache by the bootstrap
    and rejected when the cache is read: it decodes to a boolean or a number,
    which the field's validator refuses. *)
Theorem cache_drops_literal_text prefix (newSettings : Settings)
    (storage : gmap string string) key s :
  (forall t, String_ (Str t) = t) ->
  key ∈ ["postsPath"; "imagesPath"; "domainUrl"] ->
  newSettings !! key = Some (Str s) ->
  s = "true" \/ s = "false" \/ (PrimFloat.is_nan (Number s) = false /\ s <> "") ->
  refreshCache prefix newSettings storage !! scoped key prefix = Some s
  /\ readCache (refreshCache prefix newSettings storage) prefix !! key = None.
Proof.
  intros Hstring Hkey Hvalue Hliteral.
  assert (key ∈ keys) as Hin.
  { rewrite !elem_of_cons, elem_of_nil in Hkey. unfold keys. rewrite !elem_of_cons.
    destruct_or!; subst; auto 20. }
  assert (refreshCache prefix newSettings storage !! scoped key prefix = Some s) as Hwritten.
  { rewrite refreshCache_lookup, (bool_decide_eq_true_2 _ Hin). unfold prop.
    rewrite Hvalue. cbn [default from_option id is_undefined negb andb]. by rewrite Hstring. }
  split; [exact Hwritten|].
  rewrite readCache_lookup, (bool_decide_eq_true_2 _ Hin).
  unfold cachedValid. rewrite Hwritten.
  assert (is_string (decode s) = false) as Hdecoded.
  { unfold decode. destruct Hliteral as [-> | [-> | [Hnum Hne]]]; [done | done |].
    repeat case_bool_decide; try done. by rewrite Hnum. }
  assert (passes_or_unknown key (decode s) = false) as ->; [|done].
  rewrite !elem_of_cons, elem_of_nil in Hkey.
  destruct_or!; subst; try done; exact Hdecoded.
Qed.

End CacheRoundTrip.

(** ** The scan *)

Lemma scanRepository_frame (gitService : Services) settings (w : World) key :
  key ∉ ["domainUrl"; "postsPath"; "imagesPath"] ->
  SettingsStore.settings (settingsStore (scanRepository gitService settings w)) !! key
  = SettingsStore.settings (settingsStore w) !! key.
Proof.
  intros Hkey.
  assert (key <> "domainUrl" /\ key <> "postsPath" /\ key <> "imagesPath")
    as (Hd & Hp & Hi) by set_solver.
  unfold scanRepository, scanSteps.
  destruct (truthy (prop settings "domainUrl")); simpl.
  - destruct (scanForContentDirectories gitService) as [[|? ?]|]; simpl; [| |done];
      destruct (scanForImageDirectories gitService) as [[|? ?]|]; simpl;
      by rewrite ?lookup_insert_ne.
  - destruct (findProductionUrl gitService) as [[url|]|]; simpl; [| |done].
    + destruct (negb (bool_decide (url = ""))); simpl;
        destruct (scanForContentDirectories gitService) as [[|? ?]|]; simpl;
        try destruct (scanForImageDirectories gitService) as [[|? ?]|]; simpl;
        by rewrite ?lookup_insert_ne.
    + destruct (scanForContentDirectories gitService) as [[|? ?]|]; simpl; [| |done];
        destruct (scanForImageDirectories gitService) as [[|? ?]|]; simpl;
        by rewrite ?lookup_insert_ne.
Qed.

Lemma scanSteps_firstFailure (gitService : Services) settings (w : World) error :
  firstFailure gitService settings = Some error ->
  (scanSteps gitService settings w).1 = Throws error.
Proof.
  unfold firstFailure, scanSteps.
  destruct (truthy (prop settings "domainUrl")); simpl.
  - destruct (scanForContentDirectories gitService) as [[|? ?]|]; simpl;
      [| |by intros [= ->]];
      destruct (scanForImageDirectories gitService) as [[|? ?]|]; simpl;
      try done; by intros [= ->].
  - destruct (findProductionUrl gitService) as [[url|]|]; [| |by intros [= ->]]; simpl.
    + destruct (negb (bool_decide (url = ""))); simpl;
        destruct (scanForContentDirectories gitService) as [[|? ?]|]; simpl;
        try (by intros [= ->]);
        destruct (scanForImageDirectories gitService) as [[|? ?]|]; simpl;
        try done; by intros [= ->].
    + destruct (scanForContentDirectories gitService) as [[|? ?]|]; simpl;
        [| |by intros [= ->]];
        destruct (scanForImageDirectories gitService) as [[|? ?]|]; simpl;
        try done; by intros [= ->].
Qed.

(** X12. A scan in which a collaborator that is asked throws ends with the
    phase [Error: ] followed by the message of what the first such
    collaborator threw ([Unknown error] when that is not an error object),
    progress 0 and the scan indicator off; the setup flag is not changed. *)
Theorem scan_failure (gitService : Services) (settings : Settings) (w : World)
    (error : Thrown) :
  firstFailure gitService settings = Some error ->
  scanPhase (appStore (scanRepository gitService settings w))
  = Some ("Error: " +:+ errorMessage error)
  /\ scanProgress (appStore (scanRepository gitService settings w)) = 0%float
  /\ isScanning (appStore (scanRepository gitService settings w)) = false
  /\ isSetupComplete (settingsStore (scanRepository gitService settings w))
     = isSetupComplete (settingsStore w).
Proof.
  intros Hfail. split_and!; [| | |apply scanRepository_setup].
  all: pose proof (scanSteps_firstFailure gitService settings w error Hfail) as Herror.
  all: unfold scanRepository.
  all: destruct (scanSteps gitService settings w) as [r w'].
  all: cbn [fst] in Herror; subst r.
  all: done.
Qed.

(** X13. A scan whose collaborators all answer exposes the two lists of
    directories as suggestions and takes the first of each as the posts path
    and the images path; an empty list leaves the path as it was. *)
Theorem scan_suggestions (gitService : Services) (settings : Settings) (w : World)
    contentDirs imageDirs :
  truthy (prop settings "domainUrl") || isOk (findProductionUrl gitService) = true ->
  scanForContentDirectories gitService = Ok contentDirs ->
  scanForImageDirectories gitService = Ok imageDirs ->
  suggestedPostPaths (scanRepository gitService settings w) = contentDirs
  /\ suggestedImagePaths (scanRepository gitService settings w) = imageDirs
  /\ SettingsStore.settings (settingsStore (scanRepository gitService settings w)) !! "postsPath"
     = match contentDirs with
       | first :: _ => Some (Str first)
       | [] => SettingsStore.settings (settingsStore w) !! "postsPath"
       end
  /\ SettingsStore.settings (settingsStore (scanRepository gitService settings w)) !! "imagesPath"
     = match imageDirs with
       | first :: _ => Some (Str first)
       | [] => SettingsStore.settings (settingsStore w) !! "imagesPath"
       end.
Proof.
  intros Hfind Hcontent Himages. unfold scanRepository, scanSteps.
  rewrite Hcontent, Himages.
  destruct (truthy (prop settings "domainUrl")); simpl.
  - destruct contentDirs, imageDirs; simpl; split_and!; try done;
      by repeat (rewrite lookup_insert_eq || rewrite lookup_insert_ne by done).
  - destruct (findProductionUrl gitService) as [[url|]|]; [| |done]; simpl.
    + destruct (negb (bool_decide (url = ""))); simpl;
        destruct contentDirs, imageDirs; simpl; split_and!; try done;
        by repeat (rewrite lookup_insert_eq || rewrite lookup_insert_ne by done).
    + destruct contentDirs, imageDirs; simpl; split_and!; try done;
        by repeat (rewrite lookup_insert_eq || rewrite lookup_insert_ne by done).
Qed.

(** X14. When no usable remote file exists, the image width of the store
    after the bootstrap is the valid width of the cache, or 1024 when the
    cache has none: the width the store held before is not kept. *)
Theorem bootstrap_width `{Host} (gitService : Services) (repo : string)
    (settings : Settings) (w : World) :
  usableRemote gitService = false ->
  SettingsStore.settings (settingsStore (loadSettingsAndScan gitService repo settings w))
    !! "imageResizeMaxWidth"
  = Some (default (Num 1024)
            (cachedValid (localStorage w) (scoped "imageResizeMaxWidth" repo)
               "imageResizeMaxWidth")).
Proof.
  intros Hremote. rewrite loadSettingsAndScan_routes. cbv zeta.
  destruct (beforeRemote_spec gitService repo w) as (Hloaded & _ & Hsettings & _).
  destruct (beforeRemote gitService repo w) as [loaded w1].
  cbn [fst snd] in *. subst loaded.
  assert (SettingsStore.settings (settingsStore w1) !! "imageResizeMaxWidth"
          = Some (default (Num 1024)
                    (cachedValid (localStorage w) (scoped "imageResizeMaxWidth" repo)
                       "imageResizeMaxWidth"))) as Hwidth.
  { rewrite Hsettings.
    pose proof (readCache_lookup (localStorage w) repo "imageResizeMaxWidth") as Hread.
    rewrite bool_decide_eq_true_2 in Hread by (unfold keys; rewrite !elem_of_cons; auto 20).
    destruct (cachedValid _ _ _) as [v|] eqn:Hv; cbn [default from_option id].
    - pose proof (readCache_valid _ _ _ _ Hread) as Hvalid.
      unfold spread, withDefaultWidth, prop. rewrite Hread.
      cbn [default from_option id].
      assert (is_undefined v = false) as -> by (by destruct v).
      by apply lookup_union_Some_l.
    - unfold spread, withDefaultWidth, prop. rewrite Hread.
      cbn [default from_option id is_undefined].
      apply lookup_union_Some_l. by rewrite lookup_insert_eq. }
  assert (forall w', SettingsStore.settings (settingsStore w') !! "imageResizeMaxWidth"
                     = SettingsStore.settings (settingsStore w1) !! "imageResizeMaxWidth" ->
            SettingsStore.settings
              (settingsStore
                 (afterRemote gitService settings
                    (withDefaultWidth (readCache (localStorage w) repo)) w'))
              !! "imageResizeMaxWidth"
            = SettingsStore.settings (settingsStore w1) !! "imageResizeMaxWidth") as Hafter.
  { intros w' Hw'. rewrite afterRemote_sufficient.
    destruct (cacheSufficient _ _); [exact Hw'|].
    rewrite scanRepository_frame; [exact Hw'|].
    rewrite !not_elem_of_cons. split_and!; try discriminate. apply not_elem_of_nil. }
  unfold usableRemote in Hremote.
  destruct (readRemote gitService) as [config|]; [rewrite Hremote|];
    by rewrite Hafter.
Qed.

(** ** The documents the code writes, read by the bootstrap *)

Lemma known_and_passes_defined key value :
  known_and_passes key value = true -> is_undefined value = false.
Proof.
  destruct value; try done. unfold known_and_passes.
  destruct (SETTINGS_SCHEMA !! key) as [validator|] eqn:Hk; [|done].
  intros Hv. exfalso. revert Hk Hv.
  unfold SETTINGS_SCHEMA. intros Hk%elem_of_list_to_map_2.
  rewrite !elem_of_cons, elem_of_nil in Hk.
  destruct_or!; try done; injection Hk as _ Hval; intros Hv; subst validator;
    vm_compute in Hv; discriminate Hv.
Qed.

(** X15. The version 1 document that the dashboard writes when it saves
    without a workspace is read back by the bootstrap's merge: every setting
    whose value passes its validator (and, for the project type, the two
    paths and the domain, is not empty) is restored into any draft; the
    others keep the draft's value. *)
Theorem legacy_document_round_trip (settings draft : Settings) (frontmatter tableColumns : Value)
    (key : string) :
  key ∈ keys ->
  mergeRemoteConfig (Documents.legacyConfigObject settings frontmatter tableColumns) draft !! key
  = if known_and_passes key (prop settings key)
       && implb (bool_decide (key ∈ ["projectType"; "postsPath"; "imagesPath"; "domainUrl"]))
                (truthy (prop settings key))
    then Some (prop settings key)
    else draft !! key.
Proof.
  intros Hkey. rewrite mergeRemoteConfig_lookup.
  unfold keys in Hkey. rewrite !elem_of_cons, elem_of_nil in Hkey.
  unfold RemoteFields.merged.
  destruct_or!; subst; try done.
  all: match goal with
       | |- context [RemoteFields.remoteValue ?doc ?k] =>
           change (RemoteFields.remoteValue doc k) with (prop settings k);
           first [ change (RemoteFields.guardOpen doc k) with (truthy (prop settings k))
                 | change (RemoteFields.guardOpen doc k) with true ]
       end.
  all: match goal with
       | |- context [bool_decide (?k ∈ ?l)] =>
           let b := eval vm_compute in (bool_decide (k ∈ l)) in
           replace (bool_decide (k ∈ l)) with b by (by vm_compute)
       end.
  all: cbn [implb andb].
  all: destruct (known_and_passes _ (prop settings _)) eqn:Hvalid;
         rewrite ?andb_false_r, ?andb_true_r; try done.
  all: rewrite (known_and_passes_defined _ _ Hvalid); cbn [negb andb];
         rewrite ?andb_true_r; done.
Qed.

Lemma legacy_document_round_trip_witness :
  mergeRemoteConfig (Documents.legacyConfigObject DEFAULT_SETTINGS Undefined Undefined) ∅
    !! "imagesPath"
  = Some (Str "public/images").
Proof.
  rewrite (legacy_document_round_trip DEFAULT_SETTINGS ∅ Undefined Undefined "imagesPath").
  - by vm_compute.
  - unfold keys. rewrite !elem_of_cons. auto 20.
Defined.

(** X16. The document that the settings store writes is not the shape the
    bootstrap reads: its paths are top-level members, its compression
    settings are nested and its commit templates are under [commitMessages],
    so the bootstrap's merge leaves the draft's paths, compression settings
    and commit templates as they are. *)
Theorem store_document_not_read_back (settings draft : Settings) (key : string) :
  key ∈ ["postsPath"; "imagesPath"; "imageCompressionEnabled"; "maxImageSize";
         "imageResizeMaxWidth"; "newPostCommit"; "updatePostCommit"; "newImageCommit";
         "updateImageCommit"] ->
  mergeRemoteConfig (Documents.storeConfigObject settings) draft !! key = draft !! key.
Proof.
  intros Hkey. rewrite mergeRemoteConfig_lookup.
  rewrite !elem_of_cons, elem_of_nil in Hkey.
  assert (RemoteFields.merged (Documents.storeConfigObject settings) key = false) as ->;
    [|done].
  unfold RemoteFields.merged.
  destruct_or!; subst; try done.
Qed.

Lemma store_document_not_read_back_witness :
  mergeRemoteConfig (Documents.storeConfigObject DEFAULT_SETTINGS)
    {["postsPath" := Str "old"]} !! "postsPath"
  = Some (Str "old").
Proof.
  rewrite (store_document_not_read_back DEFAULT_SETTINGS {["postsPath" := Str "old"]}
             "postsPath").
  - by vm_compute.
  - rewrite !elem_of_cons. auto 20.
Defined.

(** X17. Of the version 2 document written when setup is finished, the
    bootstrap's merge takes the six technical settings, when valid; the
    project type, the domain, the two paths and the four commit templates of
    the draft are left as they are. *)
Theorem workspace_document_flat_merge (settings draft : Settings) (collection : Value)
    (key : string) :
  (key ∈ ["projectType"; "postsPath"; "imagesPath"; "domainUrl"; "newPostCommit";
          "updatePostCommit"; "newImageCommit"; "updateImageCommit"] ->
   mergeRemoteConfig (Documents.workspaceConfig settings collection) draft !! key
   = draft !! key)
  /\ (key ∈ ["postFileTypes"; "imageFileTypes"; "publishDateSource";
            "imageCompressionEnabled"; "maxImageSize"; "imageResizeMaxWidth"] ->
      mergeRemoteConfig (Documents.workspaceConfig settings collection) draft !! key
      = if known_and_passes key (prop settings key) then Some (prop settings key)
        else draft !! key).
Proof.
  rewrite mergeRemoteConfig_lookup. split; intros Hkey;
    rewrite !elem_of_cons, elem_of_nil in Hkey.
  - assert (RemoteFields.merged (Documents.workspaceConfig settings collection) key = false)
      as ->; [|done].
    unfold RemoteFields.merged. destruct_or!; subst; try done.
  - unfold RemoteFields.merged. destruct_or!; subst; try done.
    all: match goal with
         | |- context [RemoteFields.remoteValue ?doc ?k] =>
             change (RemoteFields.remoteValue doc k) with (prop settings k);
             change (RemoteFields.guardOpen doc k) with true
         end.
    all: cbn [andb].
    all: destruct (known_and_passes _ (prop settings _)) eqn:Hvalid;
           rewrite ?andb_false_r; try done.
    all: by rewrite (known_and_passes_defined _ _ Hvalid).
Qed.

Lemma workspace_document_flat_merge_witness :
  mergeRemoteConfig
    (Documents.workspaceConfig (<["projectType" := Str "github"]> DEFAULT_SETTINGS) Null)
    DEFAULT_SETTINGS !! "projectType"
  = Some (Str "astro").
Proof.
  rewrite (proj1 (workspace_document_flat_merge
                    (<["projectType" := Str "github"]> DEFAULT_SETTINGS) DEFAULT_SETTINGS
                    Null "projectType")).
  - by vm_compute.
  - rewrite !elem_of_cons. auto 20.
Defined.

(** ** Finishing the setup and deleting the configuration *)

Section HandlerProps.
Context `{Host} `{Handlers.Indented}.



(** X19. [handleFinishSetup] installs the new collection in the collection
    store only after the file was written: with the lock held or a cached
    template that does not parse nothing is called at all, and after a
    rejected write the collection store is not touched. After a resolved
    write one collection is installed and made active, its id built from
    the clock reading and its paths taken from the settings. *)
Theorem handleFinishSetup_installs_after_write (gitService : Handlers.Remote) (repo : string)
    (settings : Settings) (collectionName now createdAt updatedAt : string)
    (w : AppState * Handlers.Page) :
  Handlers.isReady settings = true ->
  let r := Handlers.handleFinishSetup gitService repo settings collectionName now
             createdAt updatedAt w in
  (isSyncing w.1 = true \/ savedLayoutParses (Handlers.localStorage w.2) repo = false ->
   Handlers.effects r.2.2 = Handlers.effects w.2)
  /\ ((exists e, Handlers.createFileFromString gitService = Rejected e) ->
      filter touchesCollections (Handlers.effects r.2.2)
      = filter touchesCollections (Handlers.effects w.2))
  /\ (isSyncing w.1 = false ->
      savedLayoutParses (Handlers.localStorage w.2) repo = true ->
      Handlers.createFileFromString gitService = Resolved () ->
      exists content collection,
        Handlers.effects r.2.2
        = (Handlers.effects w.2
           ++ [Handlers.CreateFileFromString ".pageelrc.json" content
                 "chore: add pageel-cms config"]
           ++ (if Handlers.workspacePresent gitService then []
               else [Handlers.InitWorkspace repo])
           ++ [Handlers.SetCollections [collection];
               Handlers.SetActiveCollection ("collection-" +:+ now);
               Handlers.UpdateSettings (Handlers.sharedSettingsOf settings);
               Handlers.HandleAction])%list
        /\ get collection "id" = Str ("collection-" +:+ now)
        /\ get collection "postsPath" = prop settings "postsPath"
        /\ get collection "imagesPath" = prop settings "imagesPath").
Proof.
  intros Hready. destruct w as [app page]. cbv zeta.
  unfold Handlers.handleFinishSetup, savedLayoutParses. rewrite Hready. cbv zeta.
  cbn [fst snd].
  destruct (Handlers.parseSaved _) as [template|];
    [|split_and!; [done | done | intros _ Hparses; discriminate Hparses]].
  destruct (Handlers.parseSaved _) as [tableColumns|];
    [|split_and!; [done | done | intros _ Hparses; discriminate Hparses]].
  destruct (Handlers.parseSaved _) as [columnWidths|];
    [|split_and!; [done | done | intros _ Hparses; discriminate Hparses]].
  unfold withSyncLock. cbn [fst snd].
  destruct (isSyncing app) eqn:Hbusy; [by split_and!|].
  split_and!.
  - intros [Hlocked | Hparses]; [discriminate Hlocked | discriminate Hparses].
  - intros [e ->]. cbn. rewrite filter_app. cbn. by rewrite app_nil_r.
  - intros _ _ ->.
    eexists _, (Handlers.newCollection settings collectionName now createdAt updatedAt
                  template tableColumns columnWidths).
    split_and!; [|reflexivity..].
    destruct (Handlers.workspacePresent gitService); cbn; by rewrite <- ?app_assoc.
Qed.

Lemma includes_refl s : Text.includes s s = true.
Proof.
  assert (Text.startsWith s s = true) as Hs.
  { induction s as [|c s IH]; [done|]. simpl. by rewrite Ascii.eqb_refl. }
  destruct s; simpl in *; by rewrite ?Hs.
Qed.

Lemma includes_append s t : Text.includes (s +:+ t) t = true.
Proof.
  induction s as [|c s IH]; [apply includes_refl|].
  change (String c s +:+ t) with (String c (s +:+ t)).
  cbn [Text.includes]. rewrite IH. apply orb_true_r.
Qed.

Lemma append_assoc (s t u : string) : (s +:+ t) +:+ u = s +:+ (t +:+ u).
Proof.
  induction s as [|c s IH]; [done|].
  change (String c s +:+ t) with (String c (s +:+ t)).
  change (String c (s +:+ t) +:+ u) with (String c ((s +:+ t) +:+ u)).
  by rewrite IH.
Qed.

Lemma includes_scoped key prefix : Text.includes (scoped key prefix) prefix = true.
Proof.
  unfold scoped. rewrite <- append_assoc. apply includes_append.
Qed.

Lemma purgeLocal_lookup prefix (storage : gmap string string) key :
  Handlers.purgeLocal prefix storage !! key =
    if Text.includes key prefix
       || bool_decide (key = "pageel-settings") || bool_decide (key = "pageel-collections")
    then None else storage !! key.
Proof.
  unfold Handlers.purgeLocal. cbv zeta.
  destruct (decide (key = "pageel-collections")) as [->|Hc].
  { rewrite lookup_delete_eq. by rewrite orb_true_r. }
  rewrite lookup_delete_ne by done.
  destruct (decide (key = "pageel-settings")) as [->|Hs].
  { rewrite lookup_delete_eq. by rewrite orb_true_r. }
  rewrite lookup_delete_ne by done.
  rewrite (bool_decide_eq_false_2 _ Hc), (bool_decide_eq_false_2 _ Hs), !orb_false_r.
  rewrite lookup_foldl_delete.
  destruct (Text.includes key prefix) eqn:Hin.
  - destruct (bool_decide _); [done|].
    apply map_lookup_filter_None. right. intros value _. simpl. by rewrite Hin.
  - rewrite bool_decide_eq_false_2.
    + destruct (storage !! key) as [value|] eqn:Hv.
      * apply map_lookup_filter_Some. by split.
      * apply map_lookup_filter_None. by left.
    + unfold Handlers.repoSpecificKeys. intros (k & -> & _)%list_elem_of_fmap.
      by rewrite includes_scoped in Hin.
Qed.

(** X20. When [handleDeleteConfig] gets past the repository (no file, or the
    file deleted under a free lock), every entry of the local storage whose
    key contains the repository name is gone, in particular every scoped
    key; the other entries, the two persisted stores apart, are kept; the
    five session keys are gone; the setup flag and the saving flag are off;
    and the page is reloaded after the collection store was reset. *)
Theorem handleDeleteConfig_purges (gitService : Handlers.Remote) (repo : string)
    (w : AppState * Handlers.Page) :
  deleteSucceeds gitService w.1 = true ->
  let r := Handlers.handleDeleteConfig gitService repo w in
  r.1 = Resolved ()
  /\ (forall key, Text.includes key repo = true -> Handlers.localStorage r.2.2 !! key = None)
  /\ (forall key, Handlers.localStorage r.2.2 !! scoped key repo = None)
  /\ (forall key, Text.includes key repo = false ->
        key <> "pageel-settings" -> key <> "pageel-collections" ->
        Handlers.localStorage r.2.2 !! key = Handlers.localStorage w.2 !! key)
  /\ (forall key, Handlers.sessionStorage r.2.2 !! key
                  = if bool_decide (key ∈ AuthStore.sessionKeys) then None
                    else Handlers.sessionStorage w.2 !! key)
  /\ isSetupComplete (Handlers.settingsStore r.2.2) = false
  /\ isSaving (Handlers.settingsStore r.2.2) = false
  /\ SettingsStore.settings (Handlers.settingsStore r.2.2)
     = SettingsStore.settings (Handlers.settingsStore w.2)
  /\ isSyncing r.2.1 = isSyncing w.1
  /\ exists calls, Handlers.effects r.2.2
                   = (Handlers.effects w.2 ++ calls
                      ++ [Handlers.ResetWorkspace; Handlers.Reload])%list
                   /\ filter touchesCollections calls = [].
Proof.
  intros Hok. destruct w as [app page]. cbv zeta.
  assert (exists c w',
            Handlers.handleDeleteConfig gitService repo (app, page)
            = (Resolved (), Handlers.onSettings (setIsSaving false)
                 (Handlers.effect Handlers.Reload
                    (Handlers.onSettings (setSetupComplete false)
                       (Handlers.effect Handlers.ResetWorkspace
                          (Handlers.onSession
                             (fun st => foldl (fun st key => delete key st) st
                                          AuthStore.sessionKeys)
                             (Handlers.onLocal (Handlers.purgeLocal repo) w'))))))
            /\ w'.1 = c /\ isSyncing c = isSyncing app
            /\ Handlers.settingsStore w'.2 = setIsSaving true (Handlers.settingsStore page)
            /\ Handlers.localStorage w'.2 = Handlers.localStorage page
            /\ Handlers.sessionStorage w'.2 = Handlers.sessionStorage page
            /\ exists calls, Handlers.effects w'.2 = (Handlers.effects page ++ calls)%list
                             /\ filter touchesCollections calls = [])
    as (c & w' & -> & Hc & Hsync & Hst & Hlocal & Hsession & calls & Heffects & Hcalls).
  { unfold deleteSucceeds in Hok. unfold Handlers.handleDeleteConfig. cbv zeta.
    cbn [fst] in Hok.
    destruct (Handlers.getFileSha gitService) as [[sha|]|]; [| |done].
    - destruct (Text.nonEmpty sha).
      + unfold withSyncLock. cbn [fst snd Handlers.onSettings Handlers.effect].
        destruct (isSyncing app) eqn:Hbusy; [done|].
        destruct (Handlers.deleteFile gitService); [|done..].
        eexists _, _. split; [reflexivity|]. cbn.
        split_and!; try done. eexists. rewrite <- app_assoc. split; [reflexivity|done].
      + eexists _, _. split; [reflexivity|]. cbn.
        split_and!; try done. eexists. split; [reflexivity|done].
    - eexists _, _. split; [reflexivity|]. cbn.
      split_and!; try done. eexists. split; [reflexivity|done]. }
  destruct w' as [app' page']. cbn [fst snd] in *. subst c.
  cbn [fst snd Handlers.onSettings Handlers.effect Handlers.onSession Handlers.onLocal
       Handlers.settingsStore Handlers.localStorage Handlers.sessionStorage Handlers.effects].
  rewrite Hlocal, Hsession, Hst, Heffects.
  split_and!; try done.
  - intros key Hin. rewrite purgeLocal_lookup. by rewrite Hin.
  - intros key. rewrite purgeLocal_lookup. by rewrite includes_scoped.
  - intros key Hout Hs Hc. rewrite purgeLocal_lookup.
    by rewrite Hout, (bool_decide_eq_false_2 _ Hs), (bool_decide_eq_false_2 _ Hc).
  - intros key. apply lookup_foldl_delete.
  - exists calls. split; [|done]. by rewrite <- !app_assoc.
Qed.

(** X21. When the lookup throws, the lock is held or the deletion is rejected,
    [handleDeleteConfig] swallows the error: it resolves, shows the alert as
    its last act, clears the saving flag, and leaves the two storages, the
    setup flag and the collection store alone; the page is not reloaded. *)
Theorem handleDeleteConfig_failure (gitService : Handlers.Remote) (repo : string)
    (w : AppState * Handlers.Page) :
  deleteSucceeds gitService w.1 = false ->
  Handlers.deleteFile gitService <> Pending ->
  let r := Handlers.handleDeleteConfig gitService repo w in
  r.1 = Resolved ()
  /\ Handlers.localStorage r.2.2 = Handlers.localStorage w.2
  /\ Handlers.sessionStorage r.2.2 = Handlers.sessionStorage w.2
  /\ isSetupComplete (Handlers.settingsStore r.2.2)
     = isSetupComplete (Handlers.settingsStore w.2)
  /\ isSaving (Handlers.settingsStore r.2.2) = false
  /\ isSyncing r.2.1 = isSyncing w.1
  /\ exists calls, Handlers.effects r.2.2
                   = (Handlers.effects w.2 ++ calls
                      ++ [Handlers.Alert "Failed to delete .pageelrc.json. Please try again."])%list
                   /\ (Handlers.Reload ∉ calls)
                   /\ filter touchesCollections calls = [].
Proof.
  intros Hfail Hsettles. destruct w as [app page]. cbv zeta.
  unfold deleteSucceeds in Hfail. unfold Handlers.handleDeleteConfig. cbv zeta.
  cbn [fst] in Hfail.
  destruct (Handlers.getFileSha gitService) as [[sha|]|]; [|done|].
  - destruct (Text.nonEmpty sha); [|done].
    unfold withSyncLock. cbn [fst snd Handlers.onSettings Handlers.effect].
    destruct (isSyncing app) eqn:Hbusy.
    + cbn -[Datatypes.app]. split_and!; try done.
      eexists [_]. rewrite <- ?app_assoc. split; [reflexivity|]. split; [|done].
      rewrite list_elem_of_singleton. discriminate.
    + destruct (Handlers.deleteFile gitService); [done| |done].
      cbn -[Datatypes.app]. split_and!; try done.
      eexists [_; _]. rewrite <- !app_assoc. split; [reflexivity|]. split; [|done].
        rewrite !elem_of_cons, elem_of_nil. intros [?|[?|?]]; done.
  - cbn -[Datatypes.app]. split_and!; try done.
    eexists [_]. rewrite <- ?app_assoc. split; [reflexivity|]. split; [|done].
    rewrite list_elem_of_singleton. discriminate.
Qed.

End HandlerProps.

(** ** Saving the settings of the store *)

Lemma storageKeyOf_inj repoId k k' :
  k ∈ DEFAULT_SETTINGS_keys -> k' ∈ DEFAULT_SETTINGS_keys ->
  storageKeyOf k repoId = storageKeyOf k' repoId -> k = k'.
Proof.
  intros Hk Hk'. unfold DEFAULT_SETTINGS_keys, DEFAULT_SETTINGS_entries in *.
  cbn [fmap list_fmap fst] in *.
  rewrite !elem_of_cons, elem_of_nil in Hk, Hk'.
  destruct_or!; subst; try done; intros Heq; cbv in Heq; discriminate Heq.
Qed.

Section Stored.
Context (f : string -> string) (g : Value -> string).

Lemma foldl_store_other (l : list (string * Value)) (storage : gmap string string) x :
  (forall kv, kv ∈ l -> f kv.1 <> x) ->
  foldl (fun st kv => <[f kv.1 := g kv.2]> st) storage l !! x = storage !! x.
Proof.
  revert storage. induction l as [|kv l IH]; intros storage Hx; [done|].
  cbn [foldl]. rewrite IH.
  - apply lookup_insert_ne. apply Hx. left.
  - intros kv' Hin. apply Hx. by right.
Qed.

Lemma foldl_store_lookup (l : list (string * Value)) (storage : gmap string string) key v :
  NoDup l.*1 ->
  (forall k k', k ∈ l.*1 -> k' ∈ l.*1 -> f k = f k' -> k = k') ->
  (key, v) ∈ l ->
  foldl (fun st kv => <[f kv.1 := g kv.2]> st) storage l !! f key = Some (g v).
Proof.
  revert storage. induction l as [|[k u] l IH]; intros storage Hnodup Hinj Hin.
  - by apply elem_of_nil in Hin.
  - cbn [fmap list_fmap fst] in Hnodup. apply NoDup_cons in Hnodup as [Hfresh Hnodup].
    cbn [foldl]. apply elem_of_cons in Hin as [Heq|Hin].
    + injection Heq as <- <-. rewrite foldl_store_other.
      * apply lookup_insert_eq.
      * intros [k' u'] Hin' Hsame. simpl in Hsame. apply Hfresh.
        assert (k' = key) as <-.
        { apply Hinj; [right | left | done]. apply list_elem_of_fmap. by exists (k', u'). }
        apply list_elem_of_fmap. by exists (k', u').
    + apply IH; [done | | done].
      intros a b Ha Hb. apply Hinj; by right.
Qed.

End Stored.

Section SaveProps.
Context `{Host} `{Handlers.Indented}.

Lemma saveSettings_localStorage gitService repoId (w : AppState * Handlers.Page) :
  Handlers.localStorage (Handlers.saveSettings gitService repoId w).2.2
  = foldl (fun st kv => <[storageKeyOf kv.1 repoId := String_ kv.2]> st)
      (Handlers.localStorage w.2)
      (map_to_list (SettingsStore.settings (Handlers.settingsStore w.2))).
Proof.
  destruct w as [app page]. unfold Handlers.saveSettings. cbv zeta.
  destruct gitService as [service|]; [|done].
  destruct (Handlers.getFileSha service) as [[sha|]|]; [|done..].
  destruct (Text.nonEmpty sha); [|done].
  by destruct (Handlers.updateFileContent service).
Qed.

(** X22. [saveSettings] of the settings store ends with the saving flag off
    and the success flag on whenever the remote update settles, also when
    the lookup threw or the update was rejected. The settings, the setup
    flag, the application store and the session storage are as before, and
    the only write to the repository is the update of an existing file. *)
Theorem saveSettings_reports_success (gitService : option Handlers.Remote) (repoId : string)
    (w : AppState * Handlers.Page) :
  (forall service, gitService = Some service ->
     Handlers.updateFileContent service <> Pending) ->
  let r := Handlers.saveSettings gitService repoId w in
  r.1 = Resolved ()
  /\ isSaving (Handlers.settingsStore r.2.2) = false
  /\ saveSuccess (Handlers.settingsStore r.2.2) = true
  /\ SettingsStore.settings (Handlers.settingsStore r.2.2)
     = SettingsStore.settings (Handlers.settingsStore w.2)
  /\ isSetupComplete (Handlers.settingsStore r.2.2)
     = isSetupComplete (Handlers.settingsStore w.2)
  /\ r.2.1 = w.1
  /\ Handlers.sessionStorage r.2.2 = Handlers.sessionStorage w.2
  /\ filter writesRepository (Handlers.effects r.2.2)
     = (filter writesRepository (Handlers.effects w.2)
        ++ savedRemotely gitService (SettingsStore.settings (Handlers.settingsStore w.2)))%list.
Proof.
  intros Hsettles. destruct w as [app page]. cbv zeta.
  unfold Handlers.saveSettings, savedRemotely. cbv zeta.
  destruct gitService as [service|].
  - specialize (Hsettles service eq_refl).
    destruct (Handlers.getFileSha service) as [[sha|]|].
    + destruct (Text.nonEmpty sha).
      * destruct (Handlers.updateFileContent service); [| |done];
          cbn -[Datatypes.app]; split_and!; try done;
          rewrite !filter_app; cbn -[Datatypes.app];
          by rewrite ?app_nil_r, <- ?app_assoc.
      * cbn -[Datatypes.app]. split_and!; try done. rewrite !filter_app; cbn -[Datatypes.app];
          by rewrite ?app_nil_r, <- ?app_assoc.
    + cbn -[Datatypes.app]. split_and!; try done. rewrite !filter_app; cbn -[Datatypes.app];
          by rewrite ?app_nil_r, <- ?app_assoc.
    + cbn -[Datatypes.app]. split_and!; try done. rewrite !filter_app; cbn -[Datatypes.app];
          by rewrite ?app_nil_r, <- ?app_assoc.
  - cbn -[Datatypes.app]. split_and!; try done. by rewrite app_nil_r.
Qed.

(** X23. What [saveSettings] of the store writes to the cache, [loadSettings]
    reads back: a setting of the store whose value passes its validator and
    whose text decodes to the value itself is restored into any state,
    provided the store holds only the known settings. *)
Theorem save_load_round_trip (gitService : option Handlers.Remote) (repoId : string)
    (w : AppState * Handlers.Page) (state : SettingsState) (key : string) (value : Value) :
  (forall k, is_Some (SettingsStore.settings (Handlers.settingsStore w.2) !! k) ->
             k ∈ DEFAULT_SETTINGS_keys) ->
  SettingsStore.settings (Handlers.settingsStore w.2) !! key = Some value ->
  decode (String_ value) = value ->
  known_and_passes key value = true ->
  SettingsStore.settings
    (loadSettings (Handlers.localStorage (Handlers.saveSettings gitService repoId w).2.2)
       repoId state) !! key
  = Some value.
Proof.
  intros Hdom Hvalue Hdecode Hvalid.
  assert (key ∈ DEFAULT_SETTINGS_keys) as Hkey by (apply Hdom; by eexists).
  rewrite loadSettings_settings. unfold spread. apply lookup_union_Some_l.
  rewrite loadedFromCache_lookup, (bool_decide_eq_true_2 _ Hkey).
  unfold cachedValid. rewrite saveSettings_localStorage.
  rewrite (foldl_store_lookup (fun k => storageKeyOf k repoId) String_ _ _ key value).
  - by rewrite Hdecode, (known_key_has_validator _ _ Hkey), Hvalid.
  - apply NoDup_fst_map_to_list.
  - intros k k' Hk Hk'. apply storageKeyOf_inj; apply Hdom.
    + apply list_elem_of_fmap in Hk as ([? v] & -> & Hk%elem_of_map_to_list). by exists v.
    + apply list_elem_of_fmap in Hk' as ([? v] & -> & Hk'%elem_of_map_to_list). by exists v.
  - by apply elem_of_map_to_list.
Qed.

End SaveProps.

(** ** The legacy export, read by the import *)

Lemma assoc_put_eq k v props : assoc k (put k v props) = Some v.
Proof.
  induction props as [|[k0 v0] props IH]; simpl.
  - by rewrite bool_decide_eq_true_2.
  - case_bool_decide as Hk0; simpl.
    + by rewrite bool_decide_eq_true_2.
    + by rewrite (bool_decide_eq_false_2 _ Hk0).
Qed.

Lemma put_keys k v props :
  (put k v props).*1 = if bool_decide (k ∈ props.*1) then props.*1 else (props.*1 ++ [k])%list.
Proof.
  induction props as [|[k0 v0] props IH]; [done|].
  cbn [put fmap list_fmap fst]. destruct (decide (k = k0)) as [<-|Hk0].
  - rewrite (bool_decide_eq_true_2 (k = k)) by done.
    by rewrite (bool_decide_eq_true_2 (k ∈ k :: _)) by left.
  - rewrite (bool_decide_eq_false_2 (k = k0)) by done.
    cbn [fmap list_fmap fst]. fold (fmap (M:=list) (@fst string Value)). rewrite IH.
    assert (bool_decide (k ∈ k0 :: props.*1) = bool_decide (k ∈ props.*1)) as ->.
    { apply bool_decide_ext. rewrite elem_of_cons. split; [by intros [?|?] | by right]. }
    by destruct (bool_decide _).
Qed.

Lemma put_NoDup k v props : NoDup props.*1 -> NoDup (put k v props).*1.
Proof.
  intros Hnodup. rewrite put_keys. case_bool_decide as Hk; [done|].
  apply NoDup_app. split_and!; [done | | apply NoDup_singleton].
  intros x Hx Hx'%list_elem_of_singleton. by subst.
Qed.

Lemma assoc_elem_of k v props : assoc k props = Some v -> (k, v) ∈ props.
Proof.
  induction props as [|[k0 v0] props IH]; [done|]. simpl.
  case_bool_decide as Hk0.
  - intros [= ->]. subst. left.
  - intros Hv. right. by apply IH.
Qed.

Lemma elem_of_assoc k v props : NoDup props.*1 -> (k, v) ∈ props -> assoc k props = Some v.
Proof.
  induction props as [|[k0 v0] props IH]; intros Hnodup Hin.
  - by apply elem_of_nil in Hin.
  - cbn [fmap list_fmap fst] in Hnodup. apply NoDup_cons in Hnodup as [Hfresh Hnodup].
    simpl. apply elem_of_cons in Hin as [Heq|Hin].
    + injection Heq as <- <-. by rewrite bool_decide_eq_true_2.
    + rewrite bool_decide_eq_false_2; [by apply IH|].
      intros ->. apply Hfresh. apply list_elem_of_fmap. by exists (k0, v).
Qed.

Lemma forallb_elem_of {A} (f : A -> bool) (l : list A) :
  forallb f l = true <-> forall x, x ∈ l -> f x = true.
Proof.
  induction l as [|a l IH].
  - split; [|done]. intros _ x Hin. by apply elem_of_nil in Hin.
  - cbn [forallb]. rewrite andb_true_iff, IH. split.
    + intros [Hhead Htail] x [->|Hin]%elem_of_cons; [done | by apply Htail].
    + intros Hall. split; [apply Hall; left|]. intros x Hin. apply Hall. by right.
Qed.

Lemma legacyValid_forall props :
  legacyValid (Obj props) = true <->
  forall k v, (k, v) ∈ props -> passes_or_unknown k v = true.
Proof.
  unfold legacyValid. rewrite forallb_elem_of. split.
  - intros Hall k v Hin. apply (Hall (k, v) Hin).
  - intros Hall [k v] Hin. by apply Hall.
Qed.

Lemma lang_not_scoped : bool_decide ("pageel-cms-lang" ∈ Documents.repoScopedKeys) = false.
Proof. by vm_compute. Qed.

Lemma collections_not_scoped : bool_decide ("collections" ∈ Documents.repoScopedKeys) = false.
Proof. by vm_compute. Qed.

Lemma template_scoped : bool_decide ("postTemplate" ∈ Documents.repoScopedKeys) = true.
Proof. by vm_compute. Qed.

Section ExportImport.
Context `{Host}.

Lemma foldl_exportOne_lookup storage prefix (l : list string) acc key :
  assoc key (foldl (Documents.exportOne storage prefix) acc l) =
    match (if bool_decide (key ∈ l) then storage !! scoped key prefix else None) with
    | Some text => Some (Documents.exportValue key text)
    | None => assoc key acc
    end.
Proof.
  revert acc. induction l as [|k l IH]; intros acc; [done|].
  cbn [foldl]. rewrite IH. unfold Documents.exportOne.
  destruct (decide (key = k)) as [->|Hne].
  - rewrite (bool_decide_eq_true_2 (k ∈ k :: l)) by left.
    destruct (storage !! scoped k prefix) as [text|].
    + rewrite assoc_put_eq. by destruct (bool_decide _).
    + by destruct (bool_decide _).
  - assert (bool_decide (key ∈ k :: l) = bool_decide (key ∈ l)) as ->.
    { apply bool_decide_ext. rewrite elem_of_cons. split; [by intros [?|?] | by right]. }
    destruct (if bool_decide (key ∈ l) then _ else _); [done|].
    destruct (storage !! scoped k prefix); [|done]. by apply assoc_put_ne.
Qed.

Lemma foldl_exportOne_NoDup storage prefix (l : list string) acc :
  NoDup acc.*1 -> NoDup (foldl (Documents.exportOne storage prefix) acc l).*1.
Proof.
  revert acc. induction l as [|k l IH]; intros acc Hacc; [done|].
  cbn [foldl]. apply IH. unfold Documents.exportOne.
  destruct (storage !! scoped k prefix); [by apply put_NoDup | done].
Qed.

Lemma exportLegacy_NoDup storage prefix : NoDup (Documents.exportLegacy storage prefix).*1.
Proof.
  unfold Documents.exportLegacy. cbv zeta.
  pose proof (foldl_exportOne_NoDup storage prefix Documents.repoScopedKeys [])
    as Hnodup.
  specialize (Hnodup (NoDup_nil_2)).
  destruct (storage !! "pageel-cms-lang") as [lang|]; [|done].
  destruct (Text.nonEmpty lang); [by apply put_NoDup | done].
Qed.

Lemma exportLegacy_lookup storage prefix key :
  assoc key (Documents.exportLegacy storage prefix) =
    if bool_decide (key = "pageel-cms-lang")
    then match storage !! "pageel-cms-lang" with
         | Some lang => if Text.nonEmpty lang then Some (Str lang) else None
         | None => None
         end
    else if bool_decide (key ∈ Documents.repoScopedKeys)
         then Documents.exportValue key <$> storage !! scoped key prefix
         else None.
Proof.
  assert (assoc key (foldl (Documents.exportOne storage prefix) [] Documents.repoScopedKeys)
          = if bool_decide (key ∈ Documents.repoScopedKeys)
            then Documents.exportValue key <$> storage !! scoped key prefix
            else None) as Hscoped.
  { rewrite foldl_exportOne_lookup. destruct (bool_decide _); [|done].
    by destruct (storage !! scoped key prefix). }
  unfold Documents.exportLegacy. cbv zeta.
  destruct (decide (key = "pageel-cms-lang")) as [->|Hlang].
  - rewrite (bool_decide_eq_true_2 ("pageel-cms-lang" = "pageel-cms-lang")) by done.
    destruct (storage !! "pageel-cms-lang") as [lang|].
    + destruct (Text.nonEmpty lang); [apply assoc_put_eq|].
      rewrite Hscoped. by rewrite lang_not_scoped.
    + rewrite Hscoped. by rewrite lang_not_scoped.
  - rewrite (bool_decide_eq_false_2 _ Hlang), <- Hscoped.
    destruct (storage !! "pageel-cms-lang") as [lang|]; [|done].
    destruct (Text.nonEmpty lang); [|done]. by rewrite assoc_put_ne.
Qed.

Lemma exportLegacy_valid storage prefix :
  legacyValid (Obj (Documents.exportLegacy storage prefix)) = exportedValid storage prefix.
Proof.
  apply eq_true_iff_eq. rewrite legacyValid_forall. unfold exportedValid.
  rewrite andb_true_iff, forallb_elem_of. split.
  - intros Hall. split.
    + intros key Hkey.
      destruct (storage !! scoped key prefix) as [text|] eqn:Htext; [|done].
      apply Hall, assoc_elem_of. rewrite exportLegacy_lookup.
      rewrite bool_decide_eq_false_2, (bool_decide_eq_true_2 _ Hkey), Htext; [done|].
      intros ->. apply (bool_decide_eq_true_2 _) in Hkey.
      by rewrite lang_not_scoped in Hkey.
    + destruct (storage !! "pageel-cms-lang") as [lang|] eqn:Hlang; [|done].
      destruct (Text.nonEmpty lang) eqn:Hne; [|done]. cbn [negb orb].
      apply Hall, assoc_elem_of. rewrite exportLegacy_lookup.
      by rewrite bool_decide_eq_true_2, Hlang, Hne.
  - intros [Hscoped Hlang] key value Hin.
    apply (elem_of_assoc _ _ _ (exportLegacy_NoDup storage prefix)) in Hin.
    rewrite exportLegacy_lookup in Hin.
    destruct (decide (key = "pageel-cms-lang")) as [->|Hkey].
    + rewrite (bool_decide_eq_true_2 ("pageel-cms-lang" = "pageel-cms-lang")) in Hin by done.
      destruct (storage !! "pageel-cms-lang") as [lang|]; [|done].
      destruct (Text.nonEmpty lang); [|done]. injection Hin as <-. exact Hlang.
    + rewrite (bool_decide_eq_false_2 _ Hkey) in Hin.
      destruct (decide (key ∈ Documents.repoScopedKeys)) as [Hin'|Hout];
        [|by rewrite (bool_decide_eq_false_2 _ Hout) in Hin].
      rewrite (bool_decide_eq_true_2 _ Hin') in Hin.
      specialize (Hscoped key Hin').
      destruct (storage !! scoped key prefix) as [text|]; [|done].
      injection Hin as <-. exact Hscoped.
Qed.

Lemma exportLegacy_flat storage prefix :
  hasCollections (Obj (Documents.exportLegacy storage prefix)) = false.
Proof.
  unfold hasCollections, get. rewrite exportLegacy_lookup.
  rewrite bool_decide_eq_false_2 by done.
  by rewrite collections_not_scoped.
Qed.

Lemma template_export_refused (storage : gmap string string)
    (prefix content text : string) (template : Value) :
  storage !! scoped "postTemplate" prefix = Some text ->
  JSON_parse text = Some template ->
  is_string template = false ->
  JSON_parse content = Some (Obj (Documents.exportLegacy storage prefix)) ->
  handleFileImport content = ImportValidationError.
Proof.
  intros Htext Htemplate Hobject Hparse. unfold handleFileImport. rewrite Hparse.
  cbn [member is_nullish]. rewrite exportLegacy_flat.
  assert (legacyValid (Obj (Documents.exportLegacy storage prefix)) = false) as ->; [|done].
  apply not_true_is_false. rewrite legacyValid_forall. intros Hall.
  assert (passes_or_unknown "postTemplate" template = true) as Hpass;
    [|change (is_string template = true) in Hpass; congruence].
  apply Hall, assoc_elem_of. rewrite exportLegacy_lookup.
  rewrite bool_decide_eq_false_2 by done.
  rewrite template_scoped, Htext. cbn [fmap option_fmap option_map].
  unfold Documents.exportValue.
  rewrite bool_decide_eq_false_2 by done.
  change (bool_decide ("postTemplate" ∈ ["maxImageSize"; "imageResizeMaxWidth"])) with false.
  change (bool_decide
            ("postTemplate" ∈ ["postTemplate"; "postTableColumns"; "postTableColumnWidths"]))
    with true.
  by rewrite Htemplate.
Qed.

(** X24. The legacy export read back by the import: the file is taken as a
    legacy import exactly when every exported value passes the validator of
    its key, and is refused with the validation error otherwise. In
    particular the export of a cache whose post template parses to anything
    but a string is refused: it carries the parsed template, which the
    validator of [postTemplate] does not accept. *)
Theorem legacy_export_importable (storage : gmap string string) (prefix content : string) :
  JSON_parse content = Some (Obj (Documents.exportLegacy storage prefix)) ->
  handleFileImport content
  = (if exportedValid storage prefix
     then ImportLegacy (Obj (Documents.exportLegacy storage prefix))
     else ImportValidationError)
  /\ (forall text template,
        storage !! scoped "postTemplate" prefix = Some text ->
        JSON_parse text = Some template ->
        is_string template = false ->
        handleFileImport content = ImportValidationError).
Proof.
  intros Hparse. split.
  - unfold handleFileImport. rewrite Hparse.
    cbn [member is_nullish]. by rewrite exportLegacy_flat, exportLegacy_valid.
  - intros text template Htext Htemplate Hobject.
    by apply (template_export_refused storage prefix content text template).
Qed.

End ExportImport.

(** ** Saving from the dashboard *)

Lemma scoped_not_bare prefix k key :
  k ∈ DEFAULT_SETTINGS_keys -> key ∈ DEFAULT_SETTINGS_keys -> scoped k prefix <> key.
Proof.
  intros Hk Hkey. unfold DEFAULT_SETTINGS_keys, DEFAULT_SETTINGS_entries in *.
  cbn [fmap list_fmap fst] in *.
  rewrite !elem_of_cons, elem_of_nil in Hk, Hkey.
  destruct_or!; subst; try done; intros Heq; cbv in Heq; discriminate Heq.
Qed.

Section DashboardSave.
Context `{Host} `{Handlers.Indented}.

Lemma handleSaveSettings_localStorage gitService workspace repo settings
    (w : AppState * Handlers.Page) :
  Handlers.localStorage (Handlers.handleSaveSettings gitService workspace repo settings w).2.2
  = foldl (fun st kv => <[scoped kv.1 repo := String_ kv.2]> st)
      (Handlers.localStorage w.2) (map_to_list settings).
Proof.
  destruct w as [app page]. unfold Handlers.handleSaveSettings. cbv zeta.
  destruct workspace as [store|].
  - destruct (Handlers.hasActiveCollection store && _).
    + destruct (Handlers.parseSaved _) as [template|]; [|done].
      destruct (Handlers.parseSaved _) as [tableColumns|]; [|done].
      destruct (Handlers.parseSaved _) as [columnWidths|]; [|done].
      unfold withSyncLock.
      cbn [fst snd Handlers.effect Handlers.onLocal Handlers.onSettings].
      destruct (isSyncing app); [done|].
      by destruct (Handlers.saveCollectionsToPageelrc store) as [[|]| |].
    + unfold withSyncLock.
      cbn [fst snd Handlers.effect Handlers.onLocal Handlers.onSettings].
      destruct (isSyncing app); [done|].
      by destruct (Handlers.saveCollectionsToPageelrc store) as [[|]| |].
  - destruct (Handlers.getFileSha gitService) as [sha|]; [|done].
    destruct (Handlers.isSaved sha); [|done].
    destruct (Handlers.parseSaved _) as [frontmatter|]; [|done].
    destruct (Handlers.parseSaved _) as [tableColumns|]; [|done].
    unfold withSyncLock.
      cbn [fst snd Handlers.effect Handlers.onLocal Handlers.onSettings].
    destruct (isSyncing app); [done|].
    by destruct (Handlers.updateFileContent gitService).
Qed.

Lemma handleSaveSettings_cached gitService workspace repo settings
    (w : AppState * Handlers.Page) key :
  Handlers.localStorage (Handlers.handleSaveSettings gitService workspace repo settings w).2.2
    !! scoped key repo
  = match settings !! key with
    | Some value => Some (String_ value)
    | None => Handlers.localStorage w.2 !! scoped key repo
    end.
Proof.
  rewrite handleSaveSettings_localStorage.
  destruct (settings !! key) as [value|] eqn:Hvalue.
  - apply (foldl_store_lookup (fun k => scoped k repo) String_).
    + apply NoDup_fst_map_to_list.
    + intros k k' _ _. apply scoped_inj.
    + by apply elem_of_map_to_list.
  - apply (foldl_store_other (fun k => scoped k repo) String_).
    intros [k v] Hin%elem_of_map_to_list Heq. apply scoped_inj in Heq.
    simpl in Heq. subst k. congruence.
Qed.

(** X25. What [handleSaveSettings] writes to the cache, the bootstrap reads
    back: a setting whose value passes its validator and whose text decodes
    to the value itself is found by [readCache] under the same repository. *)
Theorem dashboard_save_round_trip (gitService : Handlers.Remote)
    (workspace : option Handlers.Workspace) (repo : string) (settings : Settings)
    (w : AppState * Handlers.Page) (key : string) (value : Value) :
  key ∈ keys ->
  settings !! key = Some value ->
  decode (String_ value) = value ->
  known_and_passes key value = true ->
  readCache
    (Handlers.localStorage (Handlers.handleSaveSettings gitService workspace repo settings w).2.2)
    repo !! key
  = Some value.
Proof.
  intros Hkey Hvalue Hdecode Hvalid.
  rewrite readCache_lookup, (bool_decide_eq_true_2 _ Hkey).
  unfold cachedValid. rewrite handleSaveSettings_cached, Hvalue, Hdecode.
  by rewrite (known_key_has_validator key value Hkey), Hvalid.
Qed.

(** X26. [handleSaveSettings] scopes every key by the repository, while
    [loadSettings] of the store reads the settings that are not repository
    specific under their bare key: when the saved settings hold only the
    known keys, what [loadSettings] finds for such a setting is the same
    before and after the dashboard saved. *)
Theorem dashboard_save_not_loaded_by_store (gitService : Handlers.Remote)
    (workspace : option Handlers.Workspace) (repo : string) (settings : Settings)
    (w : AppState * Handlers.Page) (key : string) :
  (forall k, is_Some (settings !! k) -> k ∈ DEFAULT_SETTINGS_keys) ->
  key ∉ REPO_SPECIFIC_KEYS ->
  loadedFromCache
    (Handlers.localStorage (Handlers.handleSaveSettings gitService workspace repo settings w).2.2)
    repo !! key
  = loadedFromCache (Handlers.localStorage w.2) repo !! key.
Proof.
  intros Hdom Hshared. rewrite !loadedFromCache_lookup.
  case_bool_decide as Hkey; [|done].
  unfold cachedValid. rewrite handleSaveSettings_localStorage.
  rewrite (foldl_store_other (fun k => scoped k repo) String_); [done|].
  intros [k v] Hin%elem_of_map_to_list. simpl.
  unfold storageKeyOf, getStorageKey. rewrite (bool_decide_eq_false_2 _ Hshared).
  apply scoped_not_bare; [|done]. apply Hdom. by exists v.
Qed.

(** X27. Without a workspace, [handleSaveSettings] reports success whenever
    the update settles: the success flag is on and the saving flag off, also
    when the lock was held or the lookup threw, in which cases nothing was
    written to the repository. *)
Theorem handleSaveSettings_legacy_reports_success (gitService : Handlers.Remote)
    (repo : string) (settings : Settings) (w : AppState * Handlers.Page) :
  Handlers.updateFileContent gitService <> Pending ->
  let r := Handlers.handleSaveSettings gitService None repo settings w in
  r.1 = Resolved ()
  /\ isSaving (Handlers.settingsStore r.2.2) = false
  /\ saveSuccess (Handlers.settingsStore r.2.2) = true
  /\ isSyncing r.2.1 = isSyncing w.1
  /\ (isSyncing w.1 = true ->
      filter writesRepository (Handlers.effects r.2.2)
      = filter writesRepository (Handlers.effects w.2))
  /\ ((exists e, Handlers.getFileSha gitService = Throws e) ->
      filter writesRepository (Handlers.effects r.2.2)
      = filter writesRepository (Handlers.effects w.2)).
Proof.
  intros Hsettles. destruct w as [app page]. cbv zeta.
  unfold Handlers.handleSaveSettings. cbv zeta.
  destruct (Handlers.getFileSha gitService) as [sha|].
  - destruct (Handlers.isSaved sha).
    + destruct (Handlers.parseSaved _) as [frontmatter|].
      * destruct (Handlers.parseSaved _) as [tableColumns|].
        -- unfold withSyncLock.
      cbn [fst snd Handlers.effect Handlers.onLocal Handlers.onSettings].
           destruct (isSyncing app) eqn:Hbusy.
           ++ cbn -[Datatypes.app]. split_and!; try done.
              ** intros _. rewrite filter_app. cbn. by rewrite app_nil_r.
              ** by intros [? ?].
           ++ destruct (Handlers.updateFileContent gitService); [| |done];
                cbn -[Datatypes.app]; split_and!; try done; by intros [? ?].
        -- cbn -[Datatypes.app]. split_and!; try done;
             intros _; rewrite filter_app; cbn; by rewrite app_nil_r.
      * cbn -[Datatypes.app]. split_and!; try done;
          intros _; rewrite filter_app; cbn; by rewrite app_nil_r.
    + cbn -[Datatypes.app]. split_and!; try done;
        intros _; rewrite filter_app; cbn; by rewrite app_nil_r.
  - cbn -[Datatypes.app]. split_and!; try done;
      intros _; rewrite filter_app; cbn; by rewrite app_nil_r.
Qed.

(** X28. With a workspace, [handleSaveSettings] attempts the save when the
    lock is free and the cached templates of an active collection parse; it
    reports success exactly when the attempted save resolved, whether it
    resolved to [true] or to [false], and the saving flag ends off. *)
Theorem handleSaveSettings_workspace_outcome (gitService : Handlers.Remote)
    (store : Handlers.Workspace) (repo : string) (settings : Settings)
    (w : AppState * Handlers.Page) :
  Handlers.saveCollectionsToPageelrc store <> Pending ->
  let r := Handlers.handleSaveSettings gitService (Some store) repo settings w in
  let attempted :=
    (negb (Handlers.hasActiveCollection store)
     || savedLayoutParses (Handlers.localStorage r.2.2) repo)
    && negb (isSyncing w.1) in
  r.1 = Resolved ()
  /\ isSaving (Handlers.settingsStore r.2.2) = false
  /\ isSyncing r.2.1 = isSyncing w.1
  /\ saveSuccess (Handlers.settingsStore r.2.2)
     = attempted
       && match Handlers.saveCollectionsToPageelrc store with
          | Resolved _ => true
          | _ => false
          end
  /\ filter writesRepository (Handlers.effects r.2.2)
     = (filter writesRepository (Handlers.effects w.2)
        ++ (if attempted then [Handlers.SaveCollectionsToPageelrc settings] else []))%list.
Proof.
  intros Hsettles. cbv zeta. rewrite handleSaveSettings_localStorage.
  destruct w as [app page].
  unfold Handlers.handleSaveSettings, savedLayoutParses. cbv zeta.
  cbv beta iota delta [fst snd Handlers.effect Handlers.onLocal Handlers.onSettings
                       Handlers.localStorage Handlers.settingsStore Handlers.effects
                       Handlers.sessionStorage].
  destruct page as [store0 local0 session0 effects0].
  set (storage := foldl _ local0 _).
  assert (forall page',
            Handlers.effects page' = (effects0 ++ [Handlers.UpdateSettings settings])%list
            \/ (exists t c d, Handlers.effects page'
                 = (effects0 ++ [Handlers.UpdateSettings settings]
                    ++ [Handlers.RefreshActiveCollection t c d])%list) ->
            Handlers.settingsStore page'
            = setSaveSuccess false (setIsSaving true store0) ->
            let r := (let '(c, w) :=
                        withSyncLock
                          (fun w => (Handlers.saveCollectionsToPageelrc store,
                                     Handlers.effect (Handlers.SaveCollectionsToPageelrc settings) w))
                          (Some "Saving settings...") (app, page') in
                      match c with
                      | Pending => (Pending, w)
                      | Rejected _ => (Resolved (), Handlers.saveEnds false w)
                      | Resolved success =>
                          (Resolved (),
                           Handlers.saveEnds true
                             (if success then Handlers.effect Handlers.HandleAction w else w))
                      end) in
            r.1 = Resolved ()
            /\ isSaving (Handlers.settingsStore r.2.2) = false
            /\ isSyncing r.2.1 = isSyncing app
            /\ saveSuccess (Handlers.settingsStore r.2.2)
               = negb (isSyncing app)
                 && match Handlers.saveCollectionsToPageelrc store with
                    | Resolved _ => true
                    | _ => false
                    end
            /\ filter writesRepository (Handlers.effects r.2.2)
               = (filter writesRepository effects0
                  ++ (if negb (isSyncing app)
                      then [Handlers.SaveCollectionsToPageelrc settings] else []))%list)
    as Hlocked.
  { intros page' Heffects Hstore. cbv zeta. unfold withSyncLock. cbn [fst snd].
    assert (filter writesRepository (Handlers.effects page')
            = filter writesRepository effects0) as Hfilter.
    { destruct Heffects as [-> | (t & c & d & ->)]; rewrite !filter_app; cbn;
        by rewrite app_nil_r. }
    destruct (isSyncing app) eqn:Hbusy.
    - cbn -[Datatypes.app]. rewrite Hstore, Hfilter, app_nil_r. by split_and!.
    - destruct (Handlers.saveCollectionsToPageelrc store) as [[|]| |]; [| | |done];
        cbn -[Datatypes.app]; rewrite ?Hstore, ?filter_app, ?Hfilter;
        cbn -[Datatypes.app]; rewrite ?app_nil_r; by split_and!. }
  destruct (Handlers.hasActiveCollection store); cbn [andb negb orb].
  - destruct (Handlers.isSaved _ || _ || _) eqn:Hsaved.
    + destruct (Handlers.parseSaved (storage !! scoped "postTemplate" repo)) as [template|].
      * destruct (Handlers.parseSaved (storage !! scoped "postTableColumns" repo))
          as [tableColumns|].
        -- destruct (Handlers.parseSaved (storage !! scoped "postTableColumnWidths" repo))
             as [columnWidths|].
           ++ rewrite !bool_decide_eq_true_2 by (by eexists). cbn [andb].
              apply Hlocked; [|done]. right. eexists _, _, _. cbn [Handlers.effects].
              by rewrite <- app_assoc.
           ++ rewrite (bool_decide_eq_false_2 (is_Some None)) by (by intros [? ?]).
              rewrite !andb_false_r. cbn -[Datatypes.app].
              rewrite filter_app. cbn -[Datatypes.app]. by rewrite !app_nil_r.
        -- rewrite (bool_decide_eq_false_2 (is_Some None)) by (by intros [? ?]).
           rewrite !andb_false_r. cbn -[Datatypes.app].
              rewrite filter_app. cbn -[Datatypes.app]. by rewrite !app_nil_r.
      * rewrite (bool_decide_eq_false_2 (is_Some None)) by (by intros [? ?]).
        cbn -[Datatypes.app].
              rewrite filter_app. cbn -[Datatypes.app]. by rewrite !app_nil_r.
    + assert (forall saved, Handlers.isSaved saved = false ->
                            Handlers.parseSaved saved = Some Undefined) as Hnone.
      { intros [text|] Hs; [|done]. simpl in Hs. unfold Handlers.parseSaved. by rewrite Hs. }
      apply orb_false_iff in Hsaved as [[Ht Hc]%orb_false_iff Hd].
      rewrite (Hnone _ Ht), (Hnone _ Hc), (Hnone _ Hd).
      rewrite !bool_decide_eq_true_2 by (by eexists). cbn [andb].
      apply Hlocked; [by left | done].
  - apply Hlocked; [by left | done].
Qed.

End DashboardSave.

(** ** The cache written by the import *)


Section ImportCache.
Context `{Host}.

Lemma importToCache_other prefix (props : list (string * Value)) (target : gmap string string)
    key :
  Handlers.schemaMember key = false ->
  scoped key prefix <> "pageel-cms-lang" ->
  Handlers.importToCache prefix props target !! scoped key prefix
  = target !! scoped key prefix.
Proof.
  intros Hunknown Hlang. unfold Handlers.importToCache. revert target.
  induction props as [|[k v] props IH]; intros target; [done|].
  cbn [foldl]. rewrite IH. unfold Handlers.importOne. cbn [fst snd].
  destruct (negb (Handlers.schemaMember k) && _) eqn:Hskip; [done|]. cbv zeta.
  apply lookup_insert_ne. destruct (decide (k = "pageel-cms-lang")) as [->|Hk].
  - by rewrite (bool_decide_eq_true_2 ("pageel-cms-lang" = "pageel-cms-lang")) by done.
  - rewrite (bool_decide_eq_false_2 _ Hk) in *.
    intros Heq%scoped_inj. subst k. by rewrite Hunknown in Hskip.
Qed.





(** X30. The table columns and their widths are exported, parsed when they
    parse, but no import writes them to the cache: the schema does not know
    their keys. *)
Theorem exported_columns_not_imported (storage target : gmap string string)
    (prefix key text : string) (importedConfig : list (string * Value)) :
  key ∈ ["postTableColumns"; "postTableColumnWidths"] ->
  storage !! scoped key prefix = Some text ->
  assoc key (Documents.exportLegacy storage prefix)
  = Some (default (Str text) (JSON_parse text))
  /\ Handlers.importToCache prefix importedConfig target !! scoped key prefix
     = target !! scoped key prefix.
Proof.
  intros Hkey Htext. rewrite !elem_of_cons, elem_of_nil in Hkey. split.
  - rewrite exportLegacy_lookup.
    destruct_or!; subst; try done; by rewrite Htext.
  - apply importToCache_other.
    + destruct_or!; subst; try done.
    + destruct_or!; subst; try done; intros Heq; cbv in Heq; discriminate Heq.
Qed.

End ImportCache.

(** ** Examples *)

Lemma DEFAULT_SETTINGS_known k :
  is_Some (DEFAULT_SETTINGS !! k) -> k ∈ DEFAULT_SETTINGS_keys.
Proof.
  intros [v Hv]. apply elem_of_list_to_map_2 in Hv.
  apply list_elem_of_fmap. by exists (k, v).
Qed.

Lemma loadSettingsAndScan_keeps_valid_witness :
  validateSettings
    (SettingsStore.settings
       (settingsStore
          (@loadSettingsAndScan TestHost.host TestHost.offline TestHost.repo DEFAULT_SETTINGS
             (TestHost.fresh TestHost.fullCache))))
  = Ok true.
Proof.
  apply (@loadSettingsAndScan_keeps_valid TestHost.host TestHost.offline TestHost.repo
           DEFAULT_SETTINGS (TestHost.fresh TestHost.fullCache));
    vm_compute; reflexivity.
Defined.

Lemma settings_store_keeps_valid_witness :
  validateSettings
    (SettingsStore.settings
       (@loadSettings TestHost.host TestHost.fullCache TestHost.repo SettingsStore.initial))
  = Ok true.
Proof.
  assert (validateSettings (SettingsStore.settings SettingsStore.initial) = Ok true) as Hvalid
    by (vm_compute; reflexivity).
  exact (proj1 (proj2 (@settings_store_keeps_valid TestHost.host SettingsStore.initial ∅
                         TestHost.fullCache TestHost.repo Hvalid))).
Defined.

Lemma cache_round_trip_witness :
  @readCache TestHost.host
    (@refreshCache TestHost.host TestHost.repo {["postsPath" := Str "src/content/blog"]} ∅)
    TestHost.repo !! "postsPath"
  = Some (Str "src/content/blog").
Proof.
  apply (@cache_round_trip TestHost.host TestHost.repo
           {["postsPath" := Str "src/content/blog"]} ∅ "postsPath" "src/content/blog").
  - intros t. reflexivity.
  - unfold keys. rewrite !elem_of_cons. auto 20.
  - vm_compute; reflexivity.
  - discriminate.
  - discriminate.
  - left. vm_compute; reflexivity.
  - vm_compute; reflexivity.
Defined.

Lemma cache_drops_literal_text_witness :
  @refreshCache TestHost.host TestHost.repo {["postsPath" := Str "2024"]} ∅
    !! scoped "postsPath" TestHost.repo = Some "2024"
  /\ @readCache TestHost.host
       (@refreshCache TestHost.host TestHost.repo {["postsPath" := Str "2024"]} ∅)
       TestHost.repo !! "postsPath"
     = None.
Proof.
  apply (@cache_drops_literal_text TestHost.host TestHost.repo
           {["postsPath" := Str "2024"]} ∅ "postsPath" "2024").
  - intros t. reflexivity.
  - rewrite !elem_of_cons. auto.
  - vm_compute; reflexivity.
  - right. right. split; [vm_compute; reflexivity | discriminate].
Defined.

Lemma scan_failure_witness :
  scanPhase (appStore (scanRepository TestPage.failing DEFAULT_SETTINGS (TestHost.fresh ∅)))
  = Some "Error: rate limit"
  /\ scanProgress (appStore (scanRepository TestPage.failing DEFAULT_SETTINGS (TestHost.fresh ∅)))
     = 0%float.
Proof.
  assert (firstFailure TestPage.failing DEFAULT_SETTINGS = Some (ErrorObj "rate limit"))
    as Hfail by (vm_compute; reflexivity).
  pose proof (scan_failure TestPage.failing DEFAULT_SETTINGS (TestHost.fresh ∅)
                (ErrorObj "rate limit") Hfail)
    as (Hphase & Hprogress & _).
  exact (conj Hphase Hprogress).
Defined.

Lemma scan_suggestions_witness :
  suggestedPostPaths (scanRepository TestHost.offline DEFAULT_SETTINGS (TestHost.fresh ∅))
  = ["src/content/blog"]
  /\ SettingsStore.settings
       (settingsStore (scanRepository TestHost.offline DEFAULT_SETTINGS (TestHost.fresh ∅)))
       !! "postsPath"
     = Some (Str "src/content/blog").
Proof.
  assert (truthy (prop DEFAULT_SETTINGS "domainUrl")
          || isOk (findProductionUrl TestHost.offline) = true) as Hfind
    by (vm_compute; reflexivity).
  pose proof (scan_suggestions TestHost.offline DEFAULT_SETTINGS (TestHost.fresh ∅)
                ["src/content/blog"] [] Hfind eq_refl eq_refl)
    as (Hposts & _ & Hpath & _).
  exact (conj Hposts Hpath).
Defined.

Lemma bootstrap_width_witness :
  SettingsStore.settings
    (settingsStore
       (@loadSettingsAndScan TestHost.host TestHost.offline TestHost.repo
          (<["imageResizeMaxWidth" := Num 640]> DEFAULT_SETTINGS)
          (TestHost.fresh TestHost.fullCache)))
    !! "imageResizeMaxWidth"
  = Some (Num 1024).
Proof.
  assert (@usableRemote TestHost.host TestHost.offline = false) as Hremote
    by (vm_compute; reflexivity).
  rewrite (@bootstrap_width TestHost.host TestHost.offline TestHost.repo
             (<["imageResizeMaxWidth" := Num 640]> DEFAULT_SETTINGS)
             (TestHost.fresh TestHost.fullCache) Hremote).
  vm_compute; reflexivity.
Defined.


Lemma handleFinishSetup_installs_after_write_witness :
  filter touchesCollections
    (Handlers.effects
       (@Handlers.handleFinishSetup TestHost.host TestPage.indented TestPage.refusing
          TestHost.repo TestPage.ready "Blog" "1700000000000" "2023-11-14" "2023-11-14"
          (startSync None (TestPage.page ∅).1, (TestPage.page ∅).2)).2.2)
  = [].
Proof.
  assert (Handlers.isReady TestPage.ready = true) as Hready by (vm_compute; reflexivity).
  pose proof (proj1 (@handleFinishSetup_installs_after_write TestHost.host TestPage.indented
                       TestPage.refusing TestHost.repo TestPage.ready "Blog"
                       "1700000000000" "2023-11-14" "2023-11-14"
                       (startSync None (TestPage.page ∅).1, (TestPage.page ∅).2) Hready)
                (or_introl eq_refl)) as Heffects.
  cbv zeta in Heffects. rewrite Heffects. reflexivity.
Defined.

Lemma handleDeleteConfig_purges_witness :
  Handlers.localStorage
    (Handlers.handleDeleteConfig TestPage.remote TestHost.repo
       (TestPage.page TestHost.fullCache)).2.2
    !! scoped "postsPath" TestHost.repo
  = None
  /\ isSetupComplete
       (Handlers.settingsStore
          (Handlers.handleDeleteConfig TestPage.remote TestHost.repo
             (TestPage.page TestHost.fullCache)).2.2)
     = false.
Proof.
  assert (deleteSucceeds TestPage.remote (TestPage.page TestHost.fullCache).1 = true) as Hok
    by (vm_compute; reflexivity).
  pose proof (handleDeleteConfig_purges TestPage.remote TestHost.repo
                (TestPage.page TestHost.fullCache) Hok)
    as (_ & _ & Hscoped & _ & _ & Hsetup & _).
  exact (conj (Hscoped "postsPath") Hsetup).
Defined.

Lemma handleDeleteConfig_failure_witness :
  Handlers.localStorage
    (Handlers.handleDeleteConfig TestPage.refusing TestHost.repo
       (TestPage.page TestHost.fullCache)).2.2
  = TestHost.fullCache
  /\ isSaving
       (Handlers.settingsStore
          (Handlers.handleDeleteConfig TestPage.refusing TestHost.repo
             (TestPage.page TestHost.fullCache)).2.2)
     = false.
Proof.
  assert (deleteSucceeds TestPage.refusing (TestPage.page TestHost.fullCache).1 = false)
    as Hfail by (vm_compute; reflexivity).
  assert (Handlers.deleteFile TestPage.refusing <> Pending) as Hsettles by discriminate.
  pose proof (handleDeleteConfig_failure TestPage.refusing TestHost.repo
                (TestPage.page TestHost.fullCache) Hfail Hsettles)
    as (_ & Hlocal & _ & _ & Hsaving & _).
  exact (conj Hlocal Hsaving).
Defined.

Lemma saveSettings_reports_success_witness :
  saveSuccess
    (Handlers.settingsStore
       (@Handlers.saveSettings TestHost.host TestPage.indented (Some TestPage.remote)
          TestHost.repo (TestPage.page ∅)).2.2)
  = true.
Proof.
  assert (forall service, Some TestPage.remote = Some service ->
                          Handlers.updateFileContent service <> Pending) as Hsettles.
  { intros service Heq. injection Heq as <-. discriminate. }
  exact (proj1 (proj2 (proj2 (@saveSettings_reports_success TestHost.host TestPage.indented
                                (Some TestPage.remote) TestHost.repo (TestPage.page ∅)
                                Hsettles)))).
Defined.

Lemma save_load_round_trip_witness :
  SettingsStore.settings
    (@loadSettings TestHost.host
       (Handlers.localStorage
          (@Handlers.saveSettings TestHost.host TestPage.indented None TestHost.repo
             (TestPage.page ∅)).2.2)
       TestHost.repo (resetSettings SettingsStore.initial))
    !! "maxImageSize"
  = Some (Num 500).
Proof.
  apply (@save_load_round_trip TestHost.host TestPage.indented None TestHost.repo
           (TestPage.page ∅) (resetSettings SettingsStore.initial) "maxImageSize" (Num 500)).
  - apply DEFAULT_SETTINGS_known.
  - vm_compute; reflexivity.
  - vm_compute; reflexivity.
  - vm_compute; reflexivity.
Defined.

Lemma legacy_export_importable_witness :
  @handleFileImport TestPage.importing "settings" = ImportValidationError
  /\ @handleFileImport TestPage.importing "export" = ImportValidationError.
Proof.
  split.
  - rewrite (proj1 (@legacy_export_importable TestPage.importing TestHost.fullCache
                      TestHost.repo "settings" eq_refl)).
    vm_compute; reflexivity.
  - apply (proj2 (@legacy_export_importable TestPage.importing TestPage.cacheWithTemplate
                    TestHost.repo "export" eq_refl) "{}" (Obj []));
      vm_compute; reflexivity.
Defined.

Lemma dashboard_save_round_trip_witness :
  @readCache TestHost.host
    (Handlers.localStorage
       (@Handlers.handleSaveSettings TestHost.host TestPage.indented TestPage.remote None
          TestHost.repo DEFAULT_SETTINGS (TestPage.page ∅)).2.2)
    TestHost.repo !! "maxImageSize"
  = Some (Num 500).
Proof.
  apply (@dashboard_save_round_trip TestHost.host TestPage.indented TestPage.remote None
           TestHost.repo DEFAULT_SETTINGS (TestPage.page ∅) "maxImageSize" (Num 500)).
  - unfold keys. rewrite !elem_of_cons. auto 20.
  - vm_compute; reflexivity.
  - vm_compute; reflexivity.
  - vm_compute; reflexivity.
Defined.

Lemma dashboard_save_not_loaded_by_store_witness :
  @loadedFromCache TestHost.host
    (Handlers.localStorage
       (@Handlers.handleSaveSettings TestHost.host TestPage.indented TestPage.remote None
          TestHost.repo (<["maxImageSize" := Num 800]> DEFAULT_SETTINGS)
          (TestPage.page ∅)).2.2)
    TestHost.repo !! "maxImageSize"
  = None.
Proof.
  rewrite (@dashboard_save_not_loaded_by_store TestHost.host TestPage.indented
             TestPage.remote None TestHost.repo
             (<["maxImageSize" := Num 800]> DEFAULT_SETTINGS) (TestPage.page ∅)
             "maxImageSize").
  - vm_compute; reflexivity.
  - intros k Hk. apply DEFAULT_SETTINGS_known.
    destruct (decide (k = "maxImageSize")) as [->|Hne]; [by eexists|].
    by rewrite lookup_insert_ne in Hk.
  - unfold REPO_SPECIFIC_KEYS. rewrite !not_elem_of_cons.
    split_and!; try discriminate. apply not_elem_of_nil.
Defined.

Lemma handleSaveSettings_legacy_reports_success_witness :
  saveSuccess
    (Handlers.settingsStore
       (@Handlers.handleSaveSettings TestHost.host TestPage.indented TestPage.remote None
          TestHost.repo DEFAULT_SETTINGS (TestPage.page ∅)).2.2)
  = true.
Proof.
  assert (Handlers.updateFileContent TestPage.remote <> Pending) as Hsettles by discriminate.
  exact (proj1 (proj2 (proj2 (@handleSaveSettings_legacy_reports_success TestHost.host
                                TestPage.indented TestPage.remote TestHost.repo
                                DEFAULT_SETTINGS (TestPage.page ∅) Hsettles)))).
Defined.

Lemma handleSaveSettings_workspace_outcome_witness :
  saveSuccess
    (Handlers.settingsStore
       (@Handlers.handleSaveSettings TestHost.host TestPage.indented TestPage.remote
          (Some TestPage.store) TestHost.repo DEFAULT_SETTINGS (TestPage.page ∅)).2.2)
  = true.
Proof.
  assert (Handlers.saveCollectionsToPageelrc TestPage.store <> Pending) as Hsettles
    by discriminate.
  pose proof (@handleSaveSettings_workspace_outcome TestHost.host TestPage.indented
                TestPage.remote TestPage.store TestHost.repo DEFAULT_SETTINGS
                (TestPage.page ∅) Hsettles) as (_ & _ & _ & Hsuccess & _).
  rewrite Hsuccess. vm_compute; reflexivity.
Defined.


Lemma exported_columns_not_imported_witness :
  assoc "postTableColumns"
    (@Documents.exportLegacy TestPage.parsing TestPage.cacheWithTemplate TestHost.repo)
  = Some (Arr [])
  /\ @Handlers.importToCache TestPage.parsing TestHost.repo
       (@Documents.exportLegacy TestPage.parsing TestPage.cacheWithTemplate TestHost.repo) ∅
       !! scoped "postTableColumns" TestHost.repo
     = None.
Proof.
  assert ("postTableColumns" ∈ ["postTableColumns"; "postTableColumnWidths"]) as Hkey
    by left.
  assert (TestPage.cacheWithTemplate !! scoped "postTableColumns" TestHost.repo = Some "[]")
    as Hcached by (vm_compute; reflexivity).
  exact (@exported_columns_not_imported TestPage.parsing TestPage.cacheWithTemplate ∅
           TestHost.repo "postTableColumns" "[]"
           (@Documents.exportLegacy TestPage.parsing TestPage.cacheWithTemplate TestHost.repo)
           Hkey Hcached).
Defined.
